(** * LXD: entity store dispatch, unix device attachment, warnings and dnsmasq

    A shallow embedding of the parts of the LXD daemon that its design
    document describes as the core: the generated entity mappers
    (lxd/db/instances.mapper.go, the certificates mapper), the warning
    upsert (lxd/db/warnings.go), the dnsmasq static allocation helpers and
    the unix device attach/detach engine (lxd/device/device_utils_unix.go).

    Go values are modelled as follows.
    - [string] is Go's string restricted to bytes; a nil pointer is [None].
    - [error] is a small inductive with one constructor per way the sources
      build an error value.
    - maps with string keys are stdpp [gmap string _]; reading a missing key
      of a [map[string]string] gives the empty string, as in Go.
    - code that reads or writes the host or the database threads an explicit
      state and returns the new state next to its result. *)

From Stdlib Require Import ZArith List Bool Ascii String Lia.
From stdpp Require Import base option list strings gmap pretty.

Local Open Scope Z_scope.
Local Open Scope string_scope.
Local Open Scope list_scope.

(** ** Errors *)

(** An argument of a format string: [%s], [%q] and [%d] (or [%v] of a
    number). The format and its arguments are kept apart, so that no
    rendering of [%q] has to be assumed. *)
Inductive fmtarg : Type :=
| FStr (s : string)
| FQuoted (s : string)
| FInt (z : Z).

(** The error values built by the sources.
    - [Errorf format args]: [fmt.Errorf] without an error argument, and
      [errors.New] (no arguments);
    - [Wrapf format args cause]: [fmt.Errorf] whose last verb is [%w];
    - [Textf format args cause]: [fmt.Errorf] that prints an error with
      [%s], which keeps its text and not its identity;
    - [StatusError code msg]: [api.StatusErrorf(code, msg)];
    - [ErrNoSuchObject]: the sentinel of package db;
    - [SysError errno]: an error coming back from the operating system. *)
Inductive error : Type :=
| Errorf (format : string) (args : list fmtarg)
| Wrapf (format : string) (args : list fmtarg) (cause : error)
| Textf (format : string) (args : list fmtarg) (cause : error)
| StatusError (code : Z) (msg : string)
| ErrNoSuchObject
| SysError (errno : Z).

Definition StatusNotFound : Z := 404.
Definition StatusConflict : Z := 409.
Definition ENOENT : Z := 2.
Definition EEXIST : Z := 17.
Definition EACCES : Z := 13.

(** [api.StatusErrorCheck err code]: the error is, or wraps through [%w], a
    status error with that code. *)
Fixpoint StatusErrorCheck (e : error) (code : Z) : bool :=
  match e with
  | StatusError c _ => Z.eqb c code
  | Wrapf _ _ cause => StatusErrorCheck cause code
  | _ => false
  end.

(** [os.IsNotExist] looks at the error itself, it does not follow [%w]. *)
Definition IsNotExist (e : error) : bool :=
  match e with
  | SysError n => Z.eqb n ENOENT
  | _ => false
  end.

(** The result of a Go function returning [(T, error)]. *)
Definition result (A : Type) : Type := A + error.

(** The double quote character, for messages that quote a table name. *)
Definition dq : string := String "034"%char "".

(** [%d] of [fmt]. *)
Definition itoa (z : Z) : string := pretty z.

(** ** Entity filter dispatch (GetInstances, GetCertificates) *)

Module Dispatch.

(** An argument handed to the prepared statement: the filter's pointer
    itself, as the generated code passes [filter.Project] and the like. *)
Inductive arg : Type :=
| ArgInt (p : option Z)
| ArgString (p : option string).

Definition no_statement : error :=
  Errorf "No statement exists for the given Filter" [].

(** *** Instances *)

(** [InstanceFilter]: every field is a pointer, nil when absent. *)
Record InstanceFilter : Type := {
  ID : option Z;
  Project : option string;
  Name : option string;
  Node : option string;
  Type_ : option Z
}.

Inductive InstanceField : Type := FID | FProject | FName | FNode | FType.

#[global] Instance InstanceField_eq_dec : EqDecision InstanceField.
Proof. solve_decision. Defined.

Definition instance_fields : list InstanceField :=
  [FID; FProject; FName; FNode; FType].

(** The select statements registered at the top of instances.mapper.go. *)
Inductive InstanceStmt : Type :=
| instanceObjects
| instanceObjectsByID
| instanceObjectsByProject
| instanceObjectsByProjectAndType
| instanceObjectsByProjectAndTypeAndNode
| instanceObjectsByProjectAndTypeAndNodeAndName
| instanceObjectsByProjectAndTypeAndName
| instanceObjectsByProjectAndName
| instanceObjectsByProjectAndNameAndNode
| instanceObjectsByProjectAndNode
| instanceObjectsByType
| instanceObjectsByTypeAndName
| instanceObjectsByTypeAndNameAndNode
| instanceObjectsByTypeAndNode
| instanceObjectsByNode
| instanceObjectsByNodeAndName
| instanceObjectsByName.

#[global] Instance InstanceStmt_eq_dec : EqDecision InstanceStmt.
Proof. solve_decision. Defined.

Definition instance_stmts : list InstanceStmt :=
  [ instanceObjects; instanceObjectsByID; instanceObjectsByProject;
    instanceObjectsByProjectAndType; instanceObjectsByProjectAndTypeAndNode;
    instanceObjectsByProjectAndTypeAndNodeAndName;
    instanceObjectsByProjectAndTypeAndName; instanceObjectsByProjectAndName;
    instanceObjectsByProjectAndNameAndNode; instanceObjectsByProjectAndNode;
    instanceObjectsByType; instanceObjectsByTypeAndName;
    instanceObjectsByTypeAndNameAndNode; instanceObjectsByTypeAndNode;
    instanceObjectsByNode; instanceObjectsByNodeAndName;
    instanceObjectsByName ].

(** The columns compared with a [?] in the WHERE clause of each statement,
    in the order the placeholders are written in its SQL text
    ([project = ?] is [FProject], [instances.type = ?] is [FType],
    [node = ?] is [FNode], [instances.name = ?] is [FName],
    [instances.id = ?] is [FID]). *)
Definition instance_where (s : InstanceStmt) : list InstanceField :=
  match s with
  | instanceObjects => []
  | instanceObjectsByID => [FID]
  | instanceObjectsByProject => [FProject]
  | instanceObjectsByProjectAndType => [FProject; FType]
  | instanceObjectsByProjectAndTypeAndNode => [FProject; FType; FNode]
  | instanceObjectsByProjectAndTypeAndNodeAndName =>
      [FProject; FType; FNode; FName]
  | instanceObjectsByProjectAndTypeAndName => [FProject; FType; FName]
  | instanceObjectsByProjectAndName => [FProject; FName]
  | instanceObjectsByProjectAndNameAndNode => [FProject; FName; FNode]
  | instanceObjectsByProjectAndNode => [FProject; FNode]
  | instanceObjectsByType => [FType]
  | instanceObjectsByTypeAndName => [FType; FName]
  | instanceObjectsByTypeAndNameAndNode => [FType; FName; FNode]
  | instanceObjectsByTypeAndNode => [FType; FNode]
  | instanceObjectsByNode => [FNode]
  | instanceObjectsByNodeAndName => [FNode; FName]
  | instanceObjectsByName => [FName]
  end.

(** [p != nil] and [p == nil]. *)
Definition notnil {A} (p : option A) : bool :=
  match p with Some _ => true | None => false end.
Definition isnil {A} (p : option A) : bool := negb (notnil p).

(** The statement and argument selection of [GetInstances]
    (instances.mapper.go, the if/else chain before the query runs). *)
Definition GetInstances_stmt (filter : InstanceFilter)
  : result (InstanceStmt * list arg) :=
  if notnil (Project filter) && notnil (Type_ filter) && notnil (Node filter)
     && notnil (Name filter) && isnil (ID filter) then
    inl (instanceObjectsByProjectAndTypeAndNodeAndName,
         [ArgString (Project filter); ArgInt (Type_ filter);
          ArgString (Node filter); ArgString (Name filter)])
  else if notnil (Project filter) && notnil (Type_ filter)
     && notnil (Node filter) && isnil (ID filter) && isnil (Name filter) then
    inl (instanceObjectsByProjectAndTypeAndNode,
         [ArgString (Project filter); ArgInt (Type_ filter);
          ArgString (Node filter)])
  else if notnil (Project filter) && notnil (Type_ filter)
     && notnil (Name filter) && isnil (ID filter) && isnil (Node filter) then
    inl (instanceObjectsByProjectAndTypeAndName,
         [ArgString (Project filter); ArgInt (Type_ filter);
          ArgString (Name filter)])
  else if notnil (Type_ filter) && notnil (Name filter)
     && notnil (Node filter) && isnil (ID filter) && isnil (Project filter) then
    inl (instanceObjectsByTypeAndNameAndNode,
         [ArgInt (Type_ filter); ArgString (Name filter);
          ArgString (Node filter)])
  else if notnil (Project filter) && notnil (Name filter)
     && notnil (Node filter) && isnil (ID filter) && isnil (Type_ filter) then
    inl (instanceObjectsByProjectAndNameAndNode,
         [ArgString (Project filter); ArgString (Name filter);
          ArgString (Node filter)])
  else if notnil (Project filter) && notnil (Type_ filter)
     && isnil (ID filter) && isnil (Name filter) && isnil (Node filter) then
    inl (instanceObjectsByProjectAndType,
         [ArgString (Project filter); ArgInt (Type_ filter)])
  else if notnil (Type_ filter) && notnil (Node filter)
     && isnil (ID filter) && isnil (Project filter) && isnil (Name filter) then
    inl (instanceObjectsByTypeAndNode,
         [ArgInt (Type_ filter); ArgString (Node filter)])
  else if notnil (Type_ filter) && notnil (Name filter)
     && isnil (ID filter) && isnil (Project filter) && isnil (Node filter) then
    inl (instanceObjectsByTypeAndName,
         [ArgInt (Type_ filter); ArgString (Name filter)])
  else if notnil (Project filter) && notnil (Node filter)
     && isnil (ID filter) && isnil (Name filter) && isnil (Type_ filter) then
    inl (instanceObjectsByProjectAndNode,
         [ArgString (Project filter); ArgString (Node filter)])
  else if notnil (Project filter) && notnil (Name filter)
     && isnil (ID filter) && isnil (Node filter) && isnil (Type_ filter) then
    inl (instanceObjectsByProjectAndName,
         [ArgString (Project filter); ArgString (Name filter)])
  else if notnil (Node filter) && notnil (Name filter)
     && isnil (ID filter) && isnil (Project filter) && isnil (Type_ filter) then
    inl (instanceObjectsByNodeAndName,
         [ArgString (Node filter); ArgString (Name filter)])
  else if notnil (Type_ filter) && isnil (ID filter) && isnil (Project filter)
     && isnil (Name filter) && isnil (Node filter) then
    inl (instanceObjectsByType, [ArgInt (Type_ filter)])
  else if notnil (Project filter) && isnil (ID filter) && isnil (Name filter)
     && isnil (Node filter) && isnil (Type_ filter) then
    inl (instanceObjectsByProject, [ArgString (Project filter)])
  else if notnil (Node filter) && isnil (ID filter) && isnil (Project filter)
     && isnil (Name filter) && isnil (Type_ filter) then
    inl (instanceObjectsByNode, [ArgString (Node filter)])
  else if notnil (Name filter) && isnil (ID filter) && isnil (Project filter)
     && isnil (Node filter) && isnil (Type_ filter) then
    inl (instanceObjectsByName, [ArgString (Name filter)])
  else if notnil (ID filter) && isnil (Project filter) && isnil (Name filter)
     && isnil (Node filter) && isnil (Type_ filter) then
    inl (instanceObjectsByID, [ArgInt (ID filter)])
  else if isnil (ID filter) && isnil (Project filter) && isnil (Name filter)
     && isnil (Node filter) && isnil (Type_ filter) then
    inl (instanceObjects, [])
  else
    inr no_statement.

(** Which fields of a filter are present, and the pointer each one holds. *)
Definition instance_present (filter : InstanceFilter) (f : InstanceField)
  : bool :=
  match f with
  | FID => notnil (ID filter)
  | FProject => notnil (Project filter)
  | FName => notnil (Name filter)
  | FNode => notnil (Node filter)
  | FType => notnil (Type_ filter)
  end.

Definition instance_arg (filter : InstanceFilter) (f : InstanceField) : arg :=
  match f with
  | FID => ArgInt (ID filter)
  | FProject => ArgString (Project filter)
  | FName => ArgString (Name filter)
  | FNode => ArgString (Node filter)
  | FType => ArgInt (Type_ filter)
  end.

(** A statement matches a filter exactly when the fields of its WHERE clause
    are the present fields of the filter, no more and no fewer. *)
Definition instance_exact (filter : InstanceFilter) (s : InstanceStmt) : bool :=
  forallb (fun f => Bool.eqb (bool_decide (f ∈ instance_where s))
                             (instance_present filter f))
          instance_fields.

(** *** Certificates *)

Record CertificateFilter : Type := {
  cID : option Z;
  cFingerprint : option string;
  cName : option string;
  cType : option Z
}.

Inductive CertificateField : Type := CFID | CFFingerprint | CFName | CFType.

#[global] Instance CertificateField_eq_dec : EqDecision CertificateField.
Proof. solve_decision. Defined.

Definition certificate_fields : list CertificateField :=
  [CFID; CFFingerprint; CFName; CFType].

Inductive CertificateStmt : Type :=
| certificateObjects
| certificateObjectsByID
| certificateObjectsByFingerprint.

#[global] Instance CertificateStmt_eq_dec : EqDecision CertificateStmt.
Proof. solve_decision. Defined.

Definition certificate_stmts : list CertificateStmt :=
  [certificateObjects; certificateObjectsByID; certificateObjectsByFingerprint].

Definition certificate_where (s : CertificateStmt) : list CertificateField :=
  match s with
  | certificateObjects => []
  | certificateObjectsByID => [CFID]
  | certificateObjectsByFingerprint => [CFFingerprint]
  end.

(** The statement and argument selection of [GetCertificates]. *)
Definition GetCertificates_stmt (filter : CertificateFilter)
  : result (CertificateStmt * list arg) :=
  if notnil (cID filter) && isnil (cFingerprint filter)
     && isnil (cName filter) && isnil (cType filter) then
    inl (certificateObjectsByID, [ArgInt (cID filter)])
  else if notnil (cFingerprint filter) && isnil (cID filter)
     && isnil (cName filter) && isnil (cType filter) then
    inl (certificateObjectsByFingerprint, [ArgString (cFingerprint filter)])
  else if isnil (cID filter) && isnil (cFingerprint filter)
     && isnil (cName filter) && isnil (cType filter) then
    inl (certificateObjects, [])
  else
    inr no_statement.

Definition certificate_present (filter : CertificateFilter)
  (f : CertificateField) : bool :=
  match f with
  | CFID => notnil (cID filter)
  | CFFingerprint => notnil (cFingerprint filter)
  | CFName => notnil (cName filter)
  | CFType => notnil (cType filter)
  end.

Definition certificate_arg (filter : CertificateFilter) (f : CertificateField)
  : arg :=
  match f with
  | CFID => ArgInt (cID filter)
  | CFFingerprint => ArgString (cFingerprint filter)
  | CFName => ArgString (cName filter)
  | CFType => ArgInt (cType filter)
  end.

Definition certificate_exact (filter : CertificateFilter) (s : CertificateStmt)
  : bool :=
  forallb (fun f => Bool.eqb (bool_decide (f ∈ certificate_where s))
                             (certificate_present filter f))
          certificate_fields.

(** *** The vocabulary of the properties *)

(** What the dispatcher owes for one filter: either it picks the statement
    whose WHERE columns are exactly the present fields, with the arguments in
    the order of that statement's placeholders, and no other registered
    statement has those columns; or it fails and no registered statement has
    them. *)
Definition instance_dispatch_ok (filter : InstanceFilter) : Prop :=
  (exists s,
      GetInstances_stmt filter
        = inl (s, map (instance_arg filter) (instance_where s))
      /\ (forall f, f ∈ instance_where s <-> instance_present filter f = true)
      /\ (forall s',
            (forall f, f ∈ instance_where s'
                       <-> instance_present filter f = true) ->
            s' = s))
  \/ (GetInstances_stmt filter = inr no_statement
      /\ forall s,
           ~ (forall f, f ∈ instance_where s
                        <-> instance_present filter f = true)).

Definition certificate_dispatch_ok (filter : CertificateFilter) : Prop :=
  (exists s,
      GetCertificates_stmt filter
        = inl (s, map (certificate_arg filter) (certificate_where s))
      /\ (forall f, f ∈ certificate_where s
                    <-> certificate_present filter f = true)
      /\ (forall s',
            (forall f, f ∈ certificate_where s'
                       <-> certificate_present filter f = true) ->
            s' = s))
  \/ (GetCertificates_stmt filter = inr no_statement
      /\ forall s,
           ~ (forall f, f ∈ certificate_where s
                        <-> certificate_present filter f = true)).

End Dispatch.

(** ** The relational store behind the generated mappers *)

Module Store.

(** A value bound to a placeholder or read from a column. *)
Inductive value : Type :=
| VInt (z : Z)
| VStr (s : string)
| VBool (b : bool)
| VNull.

(** The registered statements the operations below run, by the name of the
    Go variable that holds them. *)
Inductive Stmt : Type :=
| instanceID
| instanceCreate
| instanceDeleteByProjectAndName
| certificateID
| certificateCreate
| certificateDeleteByFingerprint.

#[global] Instance Stmt_eq_dec : EqDecision Stmt.
Proof. solve_decision. Defined.

(** [sql.Result]. *)
Record Result : Type := {
  LastInsertId : result Z;
  RowsAffected : result Z
}.

(** [sql.Rows]: the rows [Next] steps through, and what [Err] reports once
    they are exhausted. *)
Record Rows : Type := {
  rows : list (list value);
  rows_err : option error
}.

(** The database engine under a transaction, as database/sql shows it:
    [Exec] changes the state and reports a result, [Query] only reads. The
    schema and the meaning of the SQL texts live in the engine. *)
Class Engine (DB : Type) : Type := {
  Exec : DB -> Stmt -> list value -> result (DB * Result);
  Query : DB -> Stmt -> list value -> result Rows
}.

(** [rows.Scan(&id)] into an [int64]. *)
Definition scan_id (row : list value) : result Z :=
  match row with
  | [VInt id] => inl id
  | _ => inr (Errorf "sql: Scan error" [])
  end.

(** The tail of the generated ID lookups: read one and only one row. [absent]
    is the error the mapper returns when there is no row. *)
Definition one_id (absent : error) (r : Rows) : result Z :=
  match rows r with
  | [] => inr absent
  | row :: more =>
      match scan_id row with
      | inr err => inr (Wrapf "Failed to scan ID: %w" [] err)
      | inl id =>
          match more with
          | _ :: _ => inr (Errorf "More than one row returned" [])
          | [] =>
              match rows_err r with
              | Some err => inr (Wrapf "Result set failure: %w" [] err)
              | None => inl id
              end
          end
      end
  end.

(** [Config] and [Device] rows of the child tables. *)
Record Config : Type := {
  ReferenceID : Z;
  Key : string;
  Value : string
}.

Record Device : Type := {
  dID : Z;
  dReferenceID : Z;
  dName : string;
  dType : Z;
  dConfig : gmap string string
}.

Definition set_dReferenceID (d : Device) (ref : Z) : Device :=
  {| dID := dID d; dReferenceID := ref; dName := dName d; dType := dType d;
     dConfig := dConfig d |}.

(** *** Instances (lxd/db/instances.mapper.go) *)

Record Instance : Type := {
  ID : Z;
  Project : string;
  Name : string;
  Node : string;
  Type_ : Z;
  Architecture : Z;
  Ephemeral : bool;
  CreationDate : Z;
  Stateful : bool;
  LastUseDate : Z;
  Description : string;
  ExpiryDate : Z;
  Config_ : gmap string string;
  Devices : gmap string Device;
  Profiles : list string
}.

Definition set_ID (o : Instance) (id : Z) : Instance :=
  {| ID := id; Project := Project o; Name := Name o; Node := Node o;
     Type_ := Type_ o; Architecture := Architecture o;
     Ephemeral := Ephemeral o; CreationDate := CreationDate o;
     Stateful := Stateful o; LastUseDate := LastUseDate o;
     Description := Description o; ExpiryDate := ExpiryDate o;
     Config_ := Config_ o; Devices := Devices o; Profiles := Profiles o |}.

(** The methods of [ClusterTx] that [CreateInstance] calls for the child and
    association tables; they are defined in other files of package db. *)
Class ChildTables (DB : Type) : Type := {
  CreateConfig : DB -> string -> Config -> DB * option error;
  CreateDevice : DB -> string -> Device -> DB * option error;
  UpdateInstanceProfiles : DB -> Instance -> DB * option error
}.

Section Mappers.
Context {DB : Type} `{Engine DB} `{ChildTables DB}.

(** [GetInstanceID]. *)
Definition GetInstanceID (db : DB) (project name : string) : result Z :=
  match Query db instanceID [VStr project; VStr name] with
  | inr err =>
      inr (Wrapf ("Failed to get " ++ dq ++ "instances" ++ dq ++ " ID: %w")
                 [] err)
  | inl r => one_id ErrNoSuchObject r
  end.

(** [InstanceExists]: [err == ErrNoSuchObject] compares with the sentinel. *)
Definition InstanceExists (db : DB) (project name : string) : result bool :=
  match GetInstanceID db project name with
  | inr ErrNoSuchObject => inl false
  | inr err => inr err
  | inl _ => inl true
  end.

(** The loops of [CreateInstance] over the config and the devices of the
    object; the first failure ends the loop. Go ranges over a map in an
    unspecified order, the model takes the order of [map_to_list]. *)
Fixpoint insert_configs (db : DB) (referenceID : Z)
  (kvs : list (string * string)) : DB * option error :=
  match kvs with
  | [] => (db, None)
  | (key, value) :: rest =>
      let insert :=
        {| ReferenceID := referenceID; Key := key; Value := value |} in
      match CreateConfig db "instance" insert with
      | (db', Some err) =>
          (db', Some (Wrapf "Insert Config failed for Instance: %w" [] err))
      | (db', None) => insert_configs db' referenceID rest
      end
  end.

Fixpoint insert_devices (db : DB) (id : Z) (devs : list (string * Device))
  : DB * option error :=
  match devs with
  | [] => (db, None)
  | (_, insert) :: rest =>
      match CreateDevice db "instance" (set_dReferenceID insert id) with
      | (db', Some err) =>
          (db', Some (Wrapf "Insert Devices failed for Instance: %w" [] err))
      | (db', None) => insert_devices db' id rest
      end
  end.

(** [CreateInstance]. The state that comes back is the state the caller's
    transaction is left in, also when the call fails. *)
Definition CreateInstance (db : DB) (object : Instance) : DB * result Z :=
  match InstanceExists db (Project object) (Name object) with
  | inr err => (db, inr (Wrapf "Failed to check for duplicates: %w" [] err))
  | inl true =>
      (db, inr (Errorf ("This " ++ dq ++ "instances" ++ dq
                        ++ " entry already exists") []))
  | inl false =>
      let args :=
        [ VStr (Project object); VStr (Name object); VStr (Node object);
          VInt (Type_ object); VInt (Architecture object);
          VBool (Ephemeral object); VInt (CreationDate object);
          VBool (Stateful object); VInt (LastUseDate object);
          VStr (Description object); VInt (ExpiryDate object) ] in
      match Exec db instanceCreate args with
      | inr err =>
          (db, inr (Wrapf ("Failed to create " ++ dq ++ "instances" ++ dq
                           ++ " entry: %w") [] err))
      | inl (db1, res) =>
          match LastInsertId res with
          | inr err =>
              (db1, inr (Wrapf ("Failed to fetch " ++ dq ++ "instances" ++ dq
                                ++ " entry ID: %w") [] err))
          | inl id =>
              match insert_configs db1 id (map_to_list (Config_ object)) with
              | (db2, Some err) => (db2, inr err)
              | (db2, None) =>
                  match insert_devices db2 id (map_to_list (Devices object))
                  with
                  | (db3, Some err) => (db3, inr err)
                  | (db3, None) =>
                      match UpdateInstanceProfiles db3 (set_ID object id) with
                      | (db4, Some err) =>
                          (db4, inr (Wrapf
                             "Could not update association table: %w" [] err))
                      | (db4, None) => (db4, inl id)
                      end
                  end
              end
          end
      end
  end.

(** [DeleteInstance]. *)
Definition DeleteInstance (db : DB) (project name : string)
  : DB * option error :=
  match Exec db instanceDeleteByProjectAndName [VStr project; VStr name] with
  | inr err =>
      (db, Some (Wrapf ("Delete " ++ dq ++ "instances" ++ dq ++ ": %w")
                       [] err))
  | inl (db', res) =>
      match RowsAffected res with
      | inr err => (db', Some (Wrapf "Fetch affected rows: %w" [] err))
      | inl n =>
          if negb (Z.eqb n 1) then
            (db', Some (Errorf "Query deleted %d rows instead of 1" [FInt n]))
          else (db', None)
      end
  end.

End Mappers.

(** *** Certificates (the certificates mapper of package cluster) *)

Record Certificate : Type := {
  cert_ID : Z;
  Fingerprint : string;
  cert_Type : Z;
  cert_Name : string;
  Certificate_ : string;
  Restricted : bool
}.

Section CertificateMappers.
Context {DB : Type} `{Engine DB}.

Definition certificate_not_found : error :=
  StatusError StatusNotFound "Certificate not found".

(** [GetCertificateID]. *)
Definition GetCertificateID (db : DB) (fingerprint : string) : result Z :=
  match Query db certificateID [VStr fingerprint] with
  | inr err =>
      inr (Wrapf ("Failed to get " ++ dq ++ "certificates" ++ dq ++ " ID: %w")
                 [] err)
  | inl r => one_id certificate_not_found r
  end.

(** [CertificateExists]. *)
Definition CertificateExists (db : DB) (fingerprint : string) : result bool :=
  match GetCertificateID db fingerprint with
  | inr err =>
      if StatusErrorCheck err StatusNotFound then inl false else inr err
  | inl _ => inl true
  end.

(** [CreateCertificate]. *)
Definition CreateCertificate (db : DB) (object : Certificate)
  : DB * result Z :=
  match CertificateExists db (Fingerprint object) with
  | inr err => (db, inr (Wrapf "Failed to check for duplicates: %w" [] err))
  | inl true =>
      (db, inr (StatusError StatusConflict
                  ("This " ++ dq ++ "certificates" ++ dq
                   ++ " entry already exists")))
  | inl false =>
      let args :=
        [ VStr (Fingerprint object); VInt (cert_Type object);
          VStr (cert_Name object); VStr (Certificate_ object);
          VBool (Restricted object) ] in
      match Exec db certificateCreate args with
      | inr err =>
          (db, inr (Wrapf ("Failed to create " ++ dq ++ "certificates" ++ dq
                           ++ " entry: %w") [] err))
      | inl (db1, res) =>
          match LastInsertId res with
          | inr err =>
              (db1, inr (Wrapf ("Failed to fetch " ++ dq ++ "certificates"
                                ++ dq ++ " entry ID: %w") [] err))
          | inl id => (db1, inl id)
          end
      end
  end.

(** [DeleteCertificate]. *)
Definition DeleteCertificate (db : DB) (fingerprint : string)
  : DB * option error :=
  match Exec db certificateDeleteByFingerprint [VStr fingerprint] with
  | inr err =>
      (db, Some (Wrapf ("Delete " ++ dq ++ "certificates" ++ dq ++ ": %w")
                       [] err))
  | inl (db', res) =>
      match RowsAffected res with
      | inr err => (db', Some (Wrapf "Fetch affected rows: %w" [] err))
      | inl n =>
          if Z.eqb n 0 then (db', Some certificate_not_found)
          else if Z.gtb n 1 then
            (db', Some (Errorf "Query deleted %d Certificate rows instead of 1"
                               [FInt n]))
          else (db', None)
      end
  end.

End CertificateMappers.

(** *** The vocabulary of the properties *)

(** The error [CreateInstance] returns for a key that is taken: an untyped
    error, where [CreateCertificate] returns a status error. *)
Definition instance_exists_error : error :=
  Errorf ("This " ++ dq ++ "instances" ++ dq ++ " entry already exists") [].

Definition certificate_conflict : error :=
  StatusError StatusConflict
    ("This " ++ dq ++ "certificates" ++ dq ++ " entry already exists").

End Store.

(** ** An in-memory engine

    A small engine that gives the six statements the meaning of their SQL
    texts over lists of rows. It carries no schema constraint: the schema is
    not part of the mapper sources. The examples run on it. *)

Module MemStore.
Import Store.

Record InstanceRow : Type := {
  r_id : Z;
  r_project_id : option Z;
  r_name : string;
  r_node_id : option Z;
  r_columns : list value
}.

Record CertificateRow : Type := {
  c_id : Z;
  c_fingerprint : string;
  c_columns : list value
}.

Record Tables : Type := {
  projects : list (Z * string);
  nodes : list (Z * string);
  instances : list InstanceRow;
  certificates : list CertificateRow;
  instances_config : list Config;
  instances_devices : list Device;
  instances_profiles : list (Z * string);
  next_id : Z
}.

(** A scalar subquery [(SELECT t.id FROM t WHERE t.name = ?)]: the first
    row's id, or NULL. *)
Fixpoint id_of_name (t : list (Z * string)) (name : string) : option Z :=
  match t with
  | [] => None
  | (id, n) :: rest => if String.eqb n name then Some id else id_of_name rest name
  end.

Definition names_of_id (t : list (Z * string)) (id : option Z) : list string :=
  match id with
  | None => []
  | Some i => map snd (filter (fun p => Z.eqb (fst p) i = true) t)
  end.

(** [instances JOIN projects ... JOIN nodes ... WHERE projects.name = ? AND
    instances.name = ?]: one result row per joined row. *)
Definition select_instanceID (t : Tables) (project name : string)
  : list (list value) :=
  flat_map
    (fun r =>
       flat_map
         (fun pname =>
            flat_map
              (fun _ : string =>
                 if String.eqb pname project && String.eqb (r_name r) name
                 then [[VInt (r_id r)]] else [])
              (names_of_id (nodes t) (r_node_id r)))
         (names_of_id (projects t) (r_project_id r)))
    (instances t).

(** [DELETE FROM instances WHERE project_id = (SELECT ...) AND name = ?]: a
    comparison with NULL selects no row. *)
Definition delete_hits (t : Tables) (project name : string) (r : InstanceRow)
  : bool :=
  match id_of_name (projects t) project, r_project_id r with
  | Some pid, Some rid => Z.eqb pid rid && String.eqb (r_name r) name
  | _, _ => false
  end.

Definition with_instances (t : Tables) (l : list InstanceRow) (next : Z)
  : Tables :=
  {| projects := projects t; nodes := nodes t; instances := l;
     certificates := certificates t; instances_config := instances_config t;
     instances_devices := instances_devices t;
     instances_profiles := instances_profiles t; next_id := next |}.

Definition with_certificates (t : Tables) (l : list CertificateRow) (next : Z)
  : Tables :=
  {| projects := projects t; nodes := nodes t; instances := instances t;
     certificates := l; instances_config := instances_config t;
     instances_devices := instances_devices t;
     instances_profiles := instances_profiles t; next_id := next |}.

Definition done (t : Tables) (id n : Z) : result (Tables * Result) :=
  inl (t, {| LastInsertId := inl id; RowsAffected := inl n |}).

Definition bad_arguments : error := Errorf "sql: wrong arguments" [].

Definition mem_Exec (t : Tables) (s : Stmt) (args : list value)
  : result (Tables * Result) :=
  match s, args with
  | instanceCreate, VStr project :: VStr name :: VStr node :: columns =>
      let row :=
        {| r_id := next_id t; r_project_id := id_of_name (projects t) project;
           r_name := name; r_node_id := id_of_name (nodes t) node;
           r_columns := columns |} in
      done (with_instances t (instances t ++ [row]) (next_id t + 1))
           (next_id t) 1
  | instanceDeleteByProjectAndName, [VStr project; VStr name] =>
      let gone := filter (fun r => delete_hits t project name r = true)
                         (instances t) in
      let kept := filter (fun r => delete_hits t project name r = false)
                         (instances t) in
      done (with_instances t kept (next_id t)) (next_id t - 1)
           (Z.of_nat (length gone))
  | certificateCreate, VStr fingerprint :: columns =>
      let row :=
        {| c_id := next_id t; c_fingerprint := fingerprint;
           c_columns := columns |} in
      done (with_certificates t (certificates t ++ [row]) (next_id t + 1))
           (next_id t) 1
  | certificateDeleteByFingerprint, [VStr fingerprint] =>
      let gone :=
        filter (fun c => String.eqb (c_fingerprint c) fingerprint = true)
               (certificates t) in
      let kept :=
        filter (fun c => String.eqb (c_fingerprint c) fingerprint = false)
               (certificates t) in
      done (with_certificates t kept (next_id t)) (next_id t - 1)
           (Z.of_nat (length gone))
  | _, _ => inr bad_arguments
  end.

Definition mem_Query (t : Tables) (s : Stmt) (args : list value)
  : result Rows :=
  match s, args with
  | instanceID, [VStr project; VStr name] =>
      inl {| rows := select_instanceID t project name; rows_err := None |}
  | certificateID, [VStr fingerprint] =>
      inl {| rows :=
               map (fun c => [VInt (c_id c)])
                   (filter
                      (fun c => String.eqb (c_fingerprint c) fingerprint = true)
                      (certificates t));
             rows_err := None |}
  | _, _ => inr bad_arguments
  end.

#[global] Instance mem_engine : Engine Tables :=
  {| Exec := mem_Exec; Query := mem_Query |}.

(** Modelled from the spec: the child-table methods of ClusterTx
    (CreateConfig, CreateDevice, UpdateInstanceProfiles), which are not in
    the mapper file. The spec has Create insert each config pair and each
    device as child rows and then make the association table reflect the
    entity's list of profiles. *)
Definition mem_CreateConfig (t : Tables) (parent : string) (c : Config)
  : Tables * option error :=
  ({| projects := projects t; nodes := nodes t; instances := instances t;
      certificates := certificates t;
      instances_config := instances_config t ++ [c];
      instances_devices := instances_devices t;
      instances_profiles := instances_profiles t; next_id := next_id t |},
   None).

Definition mem_CreateDevice (t : Tables) (parent : string) (d : Device)
  : Tables * option error :=
  ({| projects := projects t; nodes := nodes t; instances := instances t;
      certificates := certificates t;
      instances_config := instances_config t;
      instances_devices := instances_devices t ++ [d];
      instances_profiles := instances_profiles t; next_id := next_id t |},
   None).

Definition mem_UpdateInstanceProfiles (t : Tables) (o : Instance)
  : Tables * option error :=
  ({| projects := projects t; nodes := nodes t; instances := instances t;
      certificates := certificates t;
      instances_config := instances_config t;
      instances_devices := instances_devices t;
      instances_profiles :=
        filter (fun p => Z.eqb (fst p) (ID o) = false) (instances_profiles t)
        ++ map (fun name => (ID o, name)) (Profiles o);
      next_id := next_id t |},
   None).

#[global] Instance mem_children : ChildTables Tables :=
  {| CreateConfig := mem_CreateConfig;
     CreateDevice := mem_CreateDevice;
     UpdateInstanceProfiles := mem_UpdateInstanceProfiles |}.

(** A cluster with one project and one member, and nothing else. *)
Definition empty_cluster : Tables :=
  {| projects := [(1, "default")]; nodes := [(1, "node1")]; instances := [];
     certificates := []; instances_config := []; instances_devices := [];
     instances_profiles := []; next_id := 1 |}.

Definition sample_instance : Instance :=
  {| ID := 0; Project := "default"; Name := "c1"; Node := "node1";
     Type_ := 0; Architecture := 2; Ephemeral := false; CreationDate := 0;
     Stateful := false; LastUseDate := 0; Description := "";
     ExpiryDate := 0; Config_ := {[ "limits.cpu" := "2" ]};
     Devices := ∅; Profiles := ["default"] |}.

Definition sample_certificate : Certificate :=
  {| cert_ID := 0; Fingerprint := "abcd"; cert_Type := 1;
     cert_Name := "client"; Certificate_ := "PEM"; Restricted := false |}.

(** *** Samples *)

Definition after_first_create : Tables :=
  fst (CreateInstance empty_cluster sample_instance).

Definition after_first_certificate : Tables :=
  fst (CreateCertificate empty_cluster sample_certificate).

End MemStore.

(** ** Warnings (lxd/db/warnings.go) *)

Module Warnings.

(** [cluster.Warning], as the warnings table shows it joined with the names
    of its member and project. Dates are instants on a time line whose
    origin is Go's zero [time.Time]. *)
Record Warning : Type := {
  ID : Z;
  Node : string;
  Project : string;
  EntityType : string;
  EntityID : Z;
  UUID : string;
  TypeCode : Z;
  Status : Z;
  FirstSeenDate : Z;
  LastSeenDate : Z;
  UpdatedDate : Z;
  LastMessage : string;
  Count : Z
}.

(** [cluster.WarningFilter], with the fields UpsertWarning sets. *)
Record WarningFilter : Type := {
  fTypeCode : option Z;
  fNode : option string;
  fProject : option string;
  fEntityType : option string;
  fEntityID : option Z
}.

(** The part of the cluster database the warning code touches. *)
Record State : Type := {
  warnings : list Warning;
  nodes : list string;
  projects : list string;
  next_id : Z
}.

(** What package warningtype and the entity lookup provide: the table of
    known type codes, the two status codes the upsert names, and
    [cluster.GetEntityURL]. *)
Class WarningEnv : Type := {
  TypeNames : Z -> option string;
  StatusNew : Z;
  StatusResolved : Z;
  GetEntityURL : State -> string -> Z -> result string
}.

Definition with_warnings (st : State) (l : list Warning) (next : Z) : State :=
  {| warnings := l; nodes := nodes st; projects := projects st;
     next_id := next |}.

Definition matches_opt {A} (eqb : A -> A -> bool) (p : option A) (x : A)
  : bool :=
  match p with
  | None => true
  | Some y => eqb x y
  end.

Definition filter_matches (f : WarningFilter) (w : Warning) : bool :=
  matches_opt Z.eqb (fTypeCode f) (TypeCode w)
  && matches_opt String.eqb (fNode f) (Node w)
  && matches_opt String.eqb (fProject f) (Project w)
  && matches_opt String.eqb (fEntityType f) (EntityType w)
  && matches_opt Z.eqb (fEntityID f) (EntityID w).

(** Modelled from the spec: cluster.GetWarnings, which is not in
    warnings.go. The spec has the upsert query the existing records on the
    exact tuple of type code, member, project, entity type and entity ID; a
    field that is absent from the filter constrains nothing. *)
Definition GetWarnings (st : State) (f : WarningFilter) : result (list Warning) :=
  inl (List.filter (filter_matches f) (warnings st)).

(** Modelled from the spec: cluster.WarningExists, the existence check on
    the natural key of a warning, its UUID. *)
Definition WarningExists (st : State) (uuid : string) : result bool :=
  inl (existsb (fun w => String.eqb (UUID w) uuid) (warnings st)).

(** Modelled from the spec: GetNodeByName of ClusterTx, used only to make
    sure the member exists. *)
Definition GetNodeByName (st : State) (name : string) : result string :=
  if existsb (String.eqb name) (nodes st) then inl name
  else inr (StatusError StatusNotFound "Cluster member not found").

(** Modelled from the spec: cluster.GetProjectNames. *)
Definition GetProjectNames (st : State) : result (list string) :=
  inl (projects st).

(** The statements warnings.go runs: the registered [warningCreate] and the
    two UPDATE texts of [UpdateWarningStatus] and [UpdateWarningState]. *)
Inductive WarningStmt : Type :=
| warningCreate
| warningUpdateStatus
| warningUpdateState.

(** What the database driver decides: whether preparing a statement
    ([cluster.Stmt]) or executing it ([Exec]) fails, and whether the result
    of a statement that ran fails to report its affected rows
    ([RowsAffected]) or its insert ID ([LastInsertId]). A statement that
    fails changes nothing; one that runs does what its SQL text says. *)
Class Driver : Type := {
  Stmt_error : State -> WarningStmt -> option error;
  Exec_error : State -> WarningStmt -> option error;
  RowsAffected_error : State -> WarningStmt -> option error;
  LastInsertId_error : State -> WarningStmt -> option error
}.

(** The UPDATE of [UpdateWarningState] on one row:
    [SET last_message=?, last_seen_date=?, updated_date=?, status = ?,
     count=count+1]. *)
Definition set_state (message : string) (now : Z) (status : Z) (w : Warning)
  : Warning :=
  {| ID := ID w; Node := Node w; Project := Project w;
     EntityType := EntityType w; EntityID := EntityID w; UUID := UUID w;
     TypeCode := TypeCode w; Status := status;
     FirstSeenDate := FirstSeenDate w; LastSeenDate := now;
     UpdatedDate := now; LastMessage := message; Count := Count w + 1 |}.

(** The same UPDATE on the table: every row [WHERE uuid=?], and the number
    of rows it changed. *)
Definition exec_update_state (st : State) (message : string) (now : Z)
  (status : Z) (uuid : string) : State * Z :=
  (with_warnings st
     (map (fun w => if String.eqb (UUID w) uuid
                    then set_state message now status w else w)
          (warnings st))
     (next_id st),
   Z.of_nat (length (List.filter (fun w => String.eqb (UUID w) uuid)
                                 (warnings st)))).

(** The INSERT of [warningCreate]: the row gets the next ID. The member and
    the project are stored through their names, which [createWarning] has
    checked before. *)
Definition exec_create (st : State) (object : Warning) : State * Z :=
  let row :=
    {| ID := next_id st; Node := Node object; Project := Project object;
       EntityType := EntityType object; EntityID := EntityID object;
       UUID := UUID object; TypeCode := TypeCode object;
       Status := Status object; FirstSeenDate := FirstSeenDate object;
       LastSeenDate := LastSeenDate object;
       UpdatedDate := UpdatedDate object;
       LastMessage := LastMessage object; Count := Count object |} in
  (with_warnings st (warnings st ++ [row]) (next_id st + 1), next_id st).

Section Writers.
Context `{Driver}.

(** The [sql.Result] of a statement that ran and left the state [st']. *)
Definition sql_result (st' : State) (stmt : WarningStmt) (id n : Z)
  : Store.Result :=
  {| Store.LastInsertId :=
       match LastInsertId_error st' stmt with
       | Some err => inr err
       | None => inl id
       end;
     Store.RowsAffected :=
       match RowsAffected_error st' stmt with
       | Some err => inr err
       | None => inl n
       end |}.

(** [c.tx.Exec(str, message, now, now, status, UUID)] with the UPDATE of
    [UpdateWarningState]. *)
Definition Exec_update_state (st : State) (message : string) (now : Z)
  (status : Z) (uuid : string) : result (State * Store.Result) :=
  match Exec_error st warningUpdateState with
  | Some err => inr err
  | None =>
      let '(st', n) := exec_update_state st message now status uuid in
      inl (st', sql_result st' warningUpdateState 0 n)
  end.

(** [stmt.Exec(args...)] with the INSERT of [warningCreate]. *)
Definition Exec_create (st : State) (object : Warning)
  : result (State * Store.Result) :=
  match Exec_error st warningCreate with
  | Some err => inr err
  | None =>
      let '(st', id) := exec_create st object in
      inl (st', sql_result st' warningCreate id 1)
  end.

(** [UpdateWarningState]; [now] is what [time.Now()] answers there. *)
Definition UpdateWarningState (st : State) (now : Z) (uuid message : string)
  (status : Z) : State * option error :=
  match Exec_update_state st message now status uuid with
  | inr err =>
      (st, Some (Wrapf "Failed to update warning %q: %w" [FQuoted uuid] err))
  | inl (st', res) =>
      match Store.RowsAffected res with
      | inr err =>
          (st', Some (Wrapf
             "Failed to get affected rows to update warning state %q: %w"
             [FQuoted uuid] err))
      | inl rowsAffected =>
          if Z.eqb rowsAffected 0 then
            (st', Some (StatusError StatusNotFound "Warning not found"))
          else (st', None)
      end
  end.

(** [createWarning]. *)
Definition createWarning (st : State) (object : Warning) : State * result Z :=
  match WarningExists st (UUID object) with
  | inr err => (st, inr (Wrapf "Failed to check for duplicates: %w" [] err))
  | inl true => (st, inr (Errorf "This warning already exists" []))
  | inl false =>
      let node_check : option error :=
        if negb (String.eqb (Node object) "") then
          match GetNodeByName st (Node object) with
          | inr err => Some (Wrapf "Failed to get node: %w" [] err)
          | inl _ => None
          end
        else None in
      match node_check with
      | Some err => (st, inr err)
      | None =>
          let project_check : option error :=
            if negb (String.eqb (Project object) "") then
              match GetProjectNames st with
              | inr err => Some (Wrapf "Failed to get project names: %w" [] err)
              | inl projects =>
                  if existsb (String.eqb (Project object)) projects then None
                  else Some (Errorf "Unknown project %q"
                                    [FQuoted (Project object)])
              end
            else None in
          match project_check with
          | Some err => (st, inr err)
          | None =>
              match Stmt_error st warningCreate with
              | Some err =>
                  (st, inr (Wrapf
                     ("Failed to get " ++ dq ++ "warningCreate" ++ dq
                      ++ " prepared statement: %w") [] err))
              | None =>
                  match Exec_create st object with
                  | inr err =>
                      (st, inr (Wrapf "Failed to create warning: %w" [] err))
                  | inl (st', result) =>
                      match Store.LastInsertId result with
                      | inr err =>
                          (st', inr (Wrapf "Failed to fetch warning ID: %w"
                                           [] err))
                      | inl id => (st', inl id)
                      end
                  end
              end
          end
      end
  end.

End Writers.

Section Upsert.
Context `{WarningEnv} `{Driver}.

(** [UpsertWarning]. [now] is [time.Now().UTC()] at its start, [now'] is
    [time.Now()] inside [UpdateWarningState], [uuid] is [uuid.New()]. *)
Definition UpsertWarning (st : State) (now now' : Z) (uuid : string)
  (nodeName projectName entityType : string) (entityID typeCode : Z)
  (message : string) : State * option error :=
  match TypeNames typeCode with
  | None => (st, Some (Errorf "Unknown warning type code %d" [FInt typeCode]))
  | Some _ =>
      let validation : option error :=
        if negb (String.eqb entityType "") then
          match GetEntityURL st entityType entityID with
          | inr err => Some (Wrapf "Failed to validate warning: %w" [] err)
          | inl _ => None
          end
        else None in
      match validation with
      | Some err => (st, Some err)
      | None =>
          let filter :=
            {| fTypeCode := Some typeCode; fNode := Some nodeName;
               fProject := Some projectName; fEntityType := Some entityType;
               fEntityID := Some entityID |} in
          match GetWarnings st filter with
          | inr err =>
              (st, Some (Wrapf "Failed to retrieve warnings: %w" [] err))
          | inl [] =>
              let warning :=
                {| ID := 0; Node := nodeName; Project := projectName;
                   EntityType := entityType; EntityID := entityID;
                   UUID := uuid; TypeCode := typeCode; Status := StatusNew;
                   FirstSeenDate := now; LastSeenDate := now;
                   UpdatedDate := 0; LastMessage := message; Count := 1 |} in
              match createWarning st warning with
              | (st', inr err) => (st', Some err)
              | (st', inl _) => (st', None)
              end
          | inl [w] =>
              let newStatus :=
                if Z.eqb (Status w) StatusResolved then StatusNew
                else Status w in
              UpdateWarningState st now' (UUID w) message newStatus
          | inl ws =>
              (st, Some (Errorf
                 "More than one warnings (%d) match the criteria: typeCode: %d, nodeName: %q, projectName: %q, entityType: %q, entityID: %d"
                 [FInt (Z.of_nat (length ws)); FInt typeCode;
                  FQuoted nodeName; FQuoted projectName; FQuoted entityType;
                  FInt entityID]))
          end
      end
  end.

End Upsert.

(** *** The vocabulary of the properties *)

(** The records of the state on the tuple the upsert looks up. *)
Definition on_tuple (st : State) (nodeName projectName entityType : string)
  (entityID typeCode : Z) : list Warning :=
  List.filter
    (filter_matches
       {| fTypeCode := Some typeCode; fNode := Some nodeName;
          fProject := Some projectName; fEntityType := Some entityType;
          fEntityID := Some entityID |})
    (warnings st).

(** The record the upsert inserts for a tuple that has none. *)
Definition fresh_warning `{WarningEnv} (st : State) (now : Z) (uuid : string)
  (nodeName projectName entityType : string) (entityID typeCode : Z)
  (message : string) : Warning :=
  {| ID := next_id st; Node := nodeName; Project := projectName;
     EntityType := entityType; EntityID := entityID; UUID := uuid;
     TypeCode := typeCode; Status := StatusNew; FirstSeenDate := now;
     LastSeenDate := now; UpdatedDate := 0; LastMessage := message;
     Count := 1 |}.

(** The status an existing record is given back: New when it was Resolved,
    its own status otherwise. *)
Definition reactivated `{WarningEnv} (w : Warning) : Z :=
  if Z.eqb (Status w) StatusResolved then StatusNew else Status w.

(** The driver carries out the UPDATE [stmt] on [st]: executing it does not
    fail, and its result, over the state [st'] it leaves, reports the
    affected rows. *)
Definition update_runs `{Driver} (st st' : State) (stmt : WarningStmt) : Prop :=
  Exec_error st stmt = None /\ RowsAffected_error st' stmt = None.

(** The driver carries out the INSERT of [warningCreate] on [st]: preparing
    and executing it do not fail, and its result, over the state [st'] it
    leaves, reports the insert ID. *)
Definition insert_runs `{Driver} (st st' : State) : Prop :=
  Stmt_error st warningCreate = None
  /\ Exec_error st warningCreate = None
  /\ LastInsertId_error st' warningCreate = None.

End Warnings.

(** ** A sample cluster for the warnings *)

Module WarningsSample.
Import Warnings.

(** A cluster with one resolved warning about its only member. *)
#[export] Instance sample_env : WarningEnv :=
  {| TypeNames := fun c => if Z.eqb c 7 then Some "Offline cluster member"
                           else None;
     StatusNew := 1;
     StatusResolved := 3;
     GetEntityURL := fun _ _ _ => inl "/1.0/cluster/members/node1" |}.

Definition resolved_warning : Warning :=
  {| ID := 1; Node := "node1"; Project := "default"; EntityType := "";
     EntityID := -1; UUID := "u-1"; TypeCode := 7; Status := 3;
     FirstSeenDate := 10; LastSeenDate := 20; UpdatedDate := 20;
     LastMessage := "first"; Count := 4 |}.

Definition sample_state : State :=
  {| warnings := [resolved_warning]; nodes := ["node1"];
     projects := ["default"]; next_id := 2 |}.

(** A driver that carries out every statement. *)
#[export] Instance sample_driver : Driver :=
  {| Stmt_error := fun _ _ => None;
     Exec_error := fun _ _ => None;
     RowsAffected_error := fun _ _ => None;
     LastInsertId_error := fun _ _ => None |}.

(** A driver whose connection is gone: no statement executes. *)
Definition broken_driver : Driver :=
  {| Stmt_error := fun _ _ => None;
     Exec_error := fun _ _ => Some (Errorf "sql: database is closed" []);
     RowsAffected_error := fun _ _ => None;
     LastInsertId_error := fun _ _ => None |}.

End WarningsSample.

(** ** Strings, as package strings of Go treats them *)

Module GoStrings.

Definition nl : string := String "010"%char "".

(** [strings.ToLower] on the ASCII letters. Go also maps the letters outside
    ASCII; the strings lowered here are hardware addresses. *)
Definition lower_char (c : ascii) : ascii :=
  let n := nat_of_ascii c in
  if (Nat.leb 65 n && Nat.leb n 90)%bool then ascii_of_nat (n + 32) else c.

Fixpoint ToLower (s : string) : string :=
  match s with
  | EmptyString => EmptyString
  | String c rest => String (lower_char c) (ToLower rest)
  end.

(** [strings.HasPrefix s prefix] and [strings.HasSuffix s suffix]. *)
Definition HasPrefix (s prefix : string) : bool := String.prefix prefix s.

Definition HasSuffix (s suffix : string) : bool :=
  let n := String.length s in
  let k := String.length suffix in
  (Nat.leb k n && String.eqb (String.substring (n - k) k s) suffix)%bool.

(** [s[from:]]. *)
Definition slice_from (from : nat) (s : string) : string :=
  String.substring from (String.length s - from) s.

(** [strings.TrimPrefix]. *)
Definition TrimPrefix (s prefix : string) : string :=
  if HasPrefix s prefix then slice_from (String.length prefix) s else s.

(** [strings.Count s sep] for a separator of one byte. *)
Fixpoint Count (s : string) (sep : ascii) : nat :=
  match s with
  | EmptyString => 0%nat
  | String c rest =>
      ((if Ascii.eqb c sep then 1 else 0) + Count rest sep)%nat
  end.

(** [strings.LastIndex s sep] for a separator of one byte: the index of its
    last occurrence, or -1. *)
Fixpoint last_index_from (s : string) (sep : ascii) (pos : Z) (found : Z) : Z :=
  match s with
  | EmptyString => found
  | String c rest =>
      last_index_from rest sep (pos + 1) (if Ascii.eqb c sep then pos else found)
  end.

Definition LastIndex (s : string) (sep : ascii) : Z :=
  last_index_from s sep 0 (-1).

(** [strings.Split s sep] for a separator of one byte. *)
Fixpoint split_acc (s : string) (sep : ascii) (cur : string) : list string :=
  match s with
  | EmptyString => [cur]
  | String c rest =>
      if Ascii.eqb c sep then cur :: split_acc rest sep EmptyString
      else split_acc rest sep (cur +:+ String c EmptyString)
  end.

Definition Split (s : string) (sep : ascii) : list string :=
  split_acc s sep EmptyString.

(** [strings.Fields]: the maximal runs of bytes that are not ASCII white
    space. *)
Definition is_space (c : ascii) : bool :=
  let n := nat_of_ascii c in
  (Nat.eqb n 32 || (Nat.leb 9 n && Nat.leb n 13))%bool.

Fixpoint fields_acc (s : string) (cur : string) : list string :=
  match s with
  | EmptyString => if String.eqb cur EmptyString then [] else [cur]
  | String c rest =>
      if is_space c then
        (if String.eqb cur EmptyString then fields_acc rest EmptyString
         else cur :: fields_acc rest EmptyString)
      else fields_acc rest (cur +:+ String c EmptyString)
  end.

Definition Fields (s : string) : list string := fields_acc s EmptyString.

End GoStrings.

(** ** dnsmasq static allocations (lxd/dnsmasq) *)

Module Dnsmasq.
Import GoStrings.

(** [net.IP] and [net.HardwareAddr] are byte slices; nil is [None]. *)
Definition bytes : Type := list Z.

(** [DHCPAllocation]. *)
Record DHCPAllocation : Type := {
  IP : option bytes;
  StaticFileName : string;
  MAC : option bytes
}.

Definition no_allocation : DHCPAllocation :=
  {| IP := None; StaticFileName := ""; MAC := None |}.

(** What a [bufio.Scanner] over an open file yields: the lines, and the
    error [Err] reports after the last one. *)
Record Scanned : Type := {
  lines : list string;
  scan_err : option error
}.

(** The host and the packages the dnsmasq helpers call: [shared.VarPath],
    [project.DNS], [project.Instance], [filesystem.PathNameEncode], the file
    operations of package os, and the parsers of package net. *)
Class Host (FS : Type) : Type := {
  VarPath : list string -> string;
  project_DNS : string -> string -> string;
  project_Instance : string -> string -> string;
  PathNameEncode : string -> string;
  WriteFile : FS -> string -> string -> Z -> FS * option error;
  ReadDir : FS -> string -> list string * option error;
  Open : FS -> string -> result Scanned;
  ParseIP : string -> option bytes;
  To4 : option bytes -> option bytes;
  To16 : option bytes -> option bytes;
  ParseMAC : string -> result bytes
}.

Definition staticAllocationDeviceSeparator : string := ".".

(** [m[key]] on a [map[string]string]. *)
Definition get (m : gmap string string) (key : string) : string :=
  default "" (m !! key).

(** [copy(key[:], src)] into a zeroed array of [n] bytes. *)
Definition copy_key (n : nat) (src : option bytes) : bytes :=
  take n (default [] src ++ replicate n 0).

Section Helpers.
Context {FS : Type} `{Host FS}.

(** [StaticAllocationFileName]. *)
Definition StaticAllocationFileName (projectName instanceName deviceName : string)
  : string :=
  let escapedDeviceName := PathNameEncode deviceName in
  project_Instance projectName instanceName
  +:+ staticAllocationDeviceSeparator +:+ escapedDeviceName.

(** [UpdateStaticEntry]. *)
Definition UpdateStaticEntry (fs : FS)
  (network projectName instanceName deviceName : string)
  (netConfig : gmap string string) (hwaddr ipv4Address ipv6Address : string)
  : FS * option error :=
  let hwaddr := ToLower hwaddr in
  let line := hwaddr in
  let line :=
    if negb (String.eqb ipv4Address "") then line +:+ "," +:+ ipv4Address
    else line in
  let line :=
    if negb (String.eqb ipv6Address "") then line +:+ ",[" +:+ ipv6Address +:+ "]"
    else line in
  let line :=
    if (String.eqb (get netConfig "dns.mode") ""
        || String.eqb (get netConfig "dns.mode") "managed")%bool
    then line +:+ "," +:+ project_DNS projectName instanceName
    else line in
  if String.eqb line hwaddr then (fs, None)
  else
    let deviceStaticFileName :=
      StaticAllocationFileName projectName instanceName deviceName in
    WriteFile fs
      (VarPath ["networks"; network; "dnsmasq.hosts"; deviceStaticFileName])
      (line +:+ nl) 420.

(** [DHCPStaticAllocationPath]. *)
Definition DHCPStaticAllocationPath (network deviceStaticFileName : string)
  : string :=
  VarPath ["networks"; network; "dnsmasq.hosts"; deviceStaticFileName].

(** The state of the loops of [DHCPStaticAllocation]: the named results. *)
Record Static : Type := {
  s_mac : option bytes;
  s_IPv4 : DHCPAllocation;
  s_IPv6 : DHCPAllocation
}.

(** One field of a line. *)
Definition static_field (deviceStaticFileName : string) (st : Static)
  (field : string) : Static * option error :=
  if Nat.eqb (Count field ".") 3 then
    let ip := ParseIP field in
    match To4 ip with
    | None =>
        (st, Some (Errorf "Error parsing IP address %q" [FQuoted field]))
    | Some ip4 =>
        ({| s_mac := s_mac st;
            s_IPv4 := {| IP := Some ip4;
                         StaticFileName := deviceStaticFileName;
                         MAC := s_mac st |};
            s_IPv6 := s_IPv6 st |}, None)
    end
  else if (HasPrefix field "[" && HasSuffix field "]")%bool then
    match ParseIP (String.substring 1 (String.length field - 2) field) with
    | None =>
        (st, Some (Errorf "Error parsing IP address %q" [FQuoted field]))
    | Some ip =>
        ({| s_mac := s_mac st; s_IPv4 := s_IPv4 st;
            s_IPv6 := {| IP := Some ip;
                         StaticFileName := deviceStaticFileName;
                         MAC := s_mac st |} |}, None)
    end
  else if Nat.eqb (Count field ":") 5 then
    match ParseMAC field with
    | inr _ =>
        (st, Some (Errorf "Error parsing MAC address %q" [FQuoted field]))
    | inl mac =>
        ({| s_mac := Some mac; s_IPv4 := s_IPv4 st; s_IPv6 := s_IPv6 st |},
         None)
    end
  else (st, None).

Fixpoint static_fields (name : string) (st : Static) (fields : list string)
  : Static * option error :=
  match fields with
  | [] => (st, None)
  | field :: rest =>
      match static_field name st field with
      | (st', Some err) => (st', Some err)
      | (st', None) => static_fields name st' rest
      end
  end.

Fixpoint static_lines (name : string) (st : Static) (ls : list string)
  : Static * option error :=
  match ls with
  | [] => (st, None)
  | l :: rest =>
      match static_fields name st (Split l ",") with
      | (st', Some err) => (st', Some err)
      | (st', None) => static_lines name st' rest
      end
  end.

(** [DHCPStaticAllocation]: the MAC, the IPv4 and the IPv6 allocation, and
    the error. On an error the MAC is nil and the allocations are the ones
    read so far. *)
Definition DHCPStaticAllocation (fs : FS) (network deviceStaticFileName : string)
  : option bytes * DHCPAllocation * DHCPAllocation * option error :=
  match Open fs (DHCPStaticAllocationPath network deviceStaticFileName) with
  | inr err => (None, no_allocation, no_allocation, Some err)
  | inl file =>
      let start :=
        {| s_mac := None; s_IPv4 := no_allocation; s_IPv6 := no_allocation |} in
      match static_lines deviceStaticFileName start (lines file) with
      | (st, Some err) => (None, s_IPv4 st, s_IPv6 st, Some err)
      | (st, None) =>
          match scan_err file with
          | Some err => (None, s_IPv4 st, s_IPv6 st, Some err)
          | None => (s_mac st, s_IPv4 st, s_IPv6 st, None)
          end
      end
  end.

(** The two maps [DHCPAllAllocations] fills, keyed by the 4 and the 16 bytes
    of the address. *)
Definition Maps : Type :=
  (gmap (list Z) DHCPAllocation * gmap (list Z) DHCPAllocation)%type.

(** Its first loop, over the static allocation files. *)
Fixpoint static_loop (fs : FS) (network : string) (files : list string)
  (maps : Maps) : result Maps :=
  match files with
  | [] => inl maps
  | entry :: rest =>
      match DHCPStaticAllocation fs network entry with
      | (_, _, _, Some err) => inr err
      | (_, IPv4, IPv6, None) =>
          let IPv4s :=
            match IP IPv4 with
            | Some _ => <[copy_key 4 (To4 (IP IPv4)) := IPv4]> (fst maps)
            | None => fst maps
            end in
          let IPv6s :=
            match IP IPv6 with
            | Some _ => <[copy_key 16 (To16 (IP IPv6)) := IPv6]> (snd maps)
            | None => snd maps
            end in
          static_loop fs network rest (IPv4s, IPv6s)
      end
  end.

(** [m[key].StaticFileName]: a missing key reads as the zero value. *)
Definition static_name (m : gmap (list Z) DHCPAllocation) (key : list Z)
  : string :=
  StaticFileName (default no_allocation (m !! key)).

(** One line of the lease file. *)
Definition lease_line (maps : Maps) (line : string) : result Maps :=
  let fields := Fields line in
  if Nat.eqb (length fields) 5 then
    let field1 := nth 1 fields "" in
    let field2 := nth 2 fields "" in
    match ParseIP field2 with
    | None => inr (Errorf "Error parsing IP address: %v" [FStr field2])
    | Some ip =>
        match To4 (Some ip) with
        | None =>
            let IPKey := copy_key 16 (To16 (Some ip)) in
            if negb (String.eqb (static_name (snd maps) IPKey) "") then
              inl maps
            else
              inl (fst maps,
                   <[IPKey := {| IP := To16 (Some ip); StaticFileName := "";
                                 MAC := None |}]> (snd maps))
        | Some ip4 =>
            match ParseMAC field1 with
            | inr err => inr err
            | inl mac =>
                let IPKey := copy_key 4 (To4 (Some ip)) in
                if negb (String.eqb (static_name (fst maps) IPKey) "") then
                  inl maps
                else
                  inl (<[IPKey := {| IP := To4 (Some ip);
                                     StaticFileName := "";
                                     MAC := Some mac |}]> (fst maps),
                       snd maps)
            end
        end
    end
  else inl maps.

Fixpoint lease_loop (maps : Maps) (ls : list string) : result Maps :=
  match ls with
  | [] => inl maps
  | l :: rest =>
      match lease_line maps l with
      | inr err => inr err
      | inl maps' => lease_loop maps' rest
      end
  end.

(** [DHCPAllAllocations] from the point where the directory has been
    listed. *)
Definition allocations_of (fs : FS) (network : string) (files : list string)
  : result Maps :=
  match static_loop fs network files (∅, ∅) with
  | inr err => inr err
  | inl maps =>
      match Open fs (VarPath ["networks"; network; "dnsmasq.leases"]) with
      | inr err => inr err
      | inl file =>
          match lease_loop maps (lines file) with
          | inr err => inr err
          | inl maps' =>
              match scan_err file with
              | Some err => inr err
              | None => inl maps'
              end
          end
      end
  end.

(** [DHCPAllAllocations]. [os.ReadDir] hands back the entries it could read
    next to its error. *)
Definition DHCPAllAllocations (fs : FS) (network : string) : result Maps :=
  let '(files, err) := ReadDir fs (VarPath ["networks"; network; "dnsmasq.hosts"]) in
  match err with
  | Some e => if IsNotExist e then inr e else allocations_of fs network files
  | None => allocations_of fs network files
  end.

(** *** The vocabulary of the properties *)

(** The network leaves the DNS names to dnsmasq: [dns.mode] is unset or
    [managed]. *)
Definition dns_managed (netConfig : gmap string string) : bool :=
  (String.eqb (get netConfig "dns.mode") ""
   || String.eqb (get netConfig "dns.mode") "managed")%bool.

(** What follows the MAC on the line: [,ipv4] when an IPv4 address is given,
    [,[ipv6]] when an IPv6 address is given, [,hostname] under managed DNS. *)
Definition after_mac (netConfig : gmap string string)
  (projectName instanceName ipv4Address ipv6Address : string) : string :=
  (if String.eqb ipv4Address "" then "" else "," +:+ ipv4Address)
  +:+ (if String.eqb ipv6Address "" then "" else ",[" +:+ ipv6Address +:+ "]")
  +:+ (if dns_managed netConfig
       then "," +:+ project_DNS projectName instanceName else "").

Definition hosts_file (network projectName instanceName deviceName : string)
  : string :=
  VarPath ["networks"; network; "dnsmasq.hosts";
           StaticAllocationFileName projectName instanceName deviceName].

Definition hosts_dir (network : string) : string :=
  VarPath ["networks"; network; "dnsmasq.hosts"].

Definition leases_file (network : string) : string :=
  VarPath ["networks"; network; "dnsmasq.leases"].



End Helpers.

End Dnsmasq.

(** ** Numbers in strings, as package strconv reads them *)

Module Strconv.

Definition digit_val (c : ascii) : option Z :=
  let n := Z.of_nat (nat_of_ascii c) in
  if (Z.leb 48 n && Z.leb n 57)%bool then Some (n - 48)
  else if (Z.leb 97 n && Z.leb n 122)%bool then Some (n - 97 + 10)
  else if (Z.leb 65 n && Z.leb n 90)%bool then Some (n - 65 + 10)
  else None.

(** The value of a run of digits of the base; [None] on any other byte. *)
Fixpoint digits (base : Z) (s : string) (acc : Z) : option Z :=
  match s with
  | EmptyString => Some acc
  | String c rest =>
      match digit_val c with
      | Some d => if Z.ltb d base then digits base rest (acc * base + d)
                  else None
      | None => None
      end
  end.

Definition syntax_error (fn s : string) : error :=
  Errorf "strconv.%s: parsing %q: invalid syntax" [FStr fn; FQuoted s].

Definition range_error (fn s : string) : error :=
  Errorf "strconv.%s: parsing %q: value out of range" [FStr fn; FQuoted s].

(** [strconv.ParseUint(s, base, bitSize)] for an explicit base: digits only,
    no sign, no underscore. *)
Definition ParseUint (s : string) (base bitSize : Z) : result Z :=
  match s with
  | EmptyString => inr (syntax_error "ParseUint" s)
  | _ =>
      match digits base s 0 with
      | None => inr (syntax_error "ParseUint" s)
      | Some v =>
          if Z.leb (2 ^ bitSize) v then inr (range_error "ParseUint" s)
          else inl v
      end
  end.

(** [strconv.ParseInt(s, base, bitSize)] for an explicit base: an optional
    sign, then digits. [fn] is the function name the error carries. *)
Definition parse_int (fn : string) (s : string) (base bitSize : Z) : result Z :=
  let '(neg, body) :=
    match s with
    | String "+"%char rest => (false, rest)
    | String "-"%char rest => (true, rest)
    | _ => (false, s)
    end in
  match body with
  | EmptyString => inr (syntax_error fn s)
  | _ =>
      match digits base body 0 with
      | None => inr (syntax_error fn s)
      | Some un =>
          let cutoff := 2 ^ (bitSize - 1) in
          if (negb neg && Z.leb cutoff un)%bool then inr (range_error fn s)
          else if (neg && Z.ltb cutoff un)%bool then inr (range_error fn s)
          else inl (if neg then - un else un)
      end
  end.

Definition ParseInt (s : string) (base bitSize : Z) : result Z :=
  parse_int "ParseInt" s base bitSize.

(** [strconv.Atoi], on a 64-bit [int]. *)
Definition Atoi (s : string) : result Z := parse_int "Atoi" s 10 64.

End Strconv.

(** ** Unix devices (lxd/device/device_utils_unix.go) *)

Module UnixDevice.
Import GoStrings Strconv.

(** [unixDefaultMode], 0660. *)
Definition unixDefaultMode : Z := 432.

Definition S_IFMT : Z := 61440.
Definition S_IFBLK : Z := 24576.
Definition S_IFCHR : Z := 8192.

(** The fields of [unix.Stat_t] the code reads. *)
Record Stat_t : Type := {
  st_Mode : Z;
  st_Rdev : Z;
  st_Uid : Z;
  st_Gid : Z
}.

(** [unix.Major], [unix.Minor] and [unix.Mkdev] of Linux. *)
Definition Major (dev : Z) : Z :=
  Z.lor (Z.shiftr (Z.land dev 1048320) 8)
        (Z.land (Z.shiftr (Z.land dev 18446726481523507200) 32) 4294967295).

Definition Minor (dev : Z) : Z :=
  Z.lor (Z.land dev 255)
        (Z.land (Z.shiftr (Z.land dev 17592184995840) 12) 4294967295).

Definition Mkdev (major minor : Z) : Z :=
  Z.lor (Z.lor (Z.shiftl (Z.land major 4095) 8)
               (Z.shiftl (Z.land major 4294963200) 32))
        (Z.lor (Z.land minor 255) (Z.shiftl (Z.land minor 4294967040) 12)).

(** [UnixDevice]. *)
Record UnixDevice : Type := {
  HostPath : string;
  RelativePath : string;
  Type_ : string;
  Major_ : Z;
  Minor_ : Z;
  Mode : Z;
  UID : Z;
  GID : Z
}.

(** [deviceConfig.MountOwnerShift...]. *)
Inductive OwnerShift : Type :=
| MountOwnerShiftNone
| MountOwnerShiftDynamic
| MountOwnerShiftStatic.

(** [deviceConfig.MountEntryItem]; [DevSource] is the path of a
    [DevSourcePath], or nothing when the entry asks for an unmount. *)
Record MountEntryItem : Type := {
  DevSource : option string;
  TargetPath : string;
  FSType : string;
  Opts : list string;
  OwnerShift_ : OwnerShift
}.

Record RunConfigItem : Type := {
  Key : string;
  Value : string
}.

(** The two lists of [deviceConfig.RunConfig] the unix devices fill. *)
Record RunConfig : Type := {
  Mounts : list MountEntryItem;
  CGroups : list RunConfigItem
}.

(** [s.OS]. *)
Record OS : Type := {
  RunningInUserNS : bool;
  Nodev : bool
}.

(** The host under the devices directory, and the helpers of other packages:
    [shared.HostPath], [shared.IsTrue], [shared.GetPathMode],
    [shared.PathExists], [filesystem.PathNameEncode] and [PathNameDecode],
    [deviceJoinPath], [filepath.Join], [DiskMount] and [ShiftFile] of an
    idmap set. [W] is the state of the host file system. *)
Class Host (W : Type) : Type := {
  Stat : W -> string -> result Stat_t;
  GetPathMode : W -> string -> result Z;
  PathExists : W -> string -> bool;
  ReadDir : W -> string -> list string * option error;
  Mkdir : W -> string -> Z -> W * option error;
  Mknod : W -> string -> Z -> Z -> W * option error;
  Chown : W -> string -> Z -> Z -> W * option error;
  Chmod : W -> string -> Z -> W * option error;
  Create : W -> string -> W * option error;
  DiskMount : W -> string -> string -> W * option error;
  ShiftFile : W -> string -> W * option error;
  HostPath_ : string -> string;
  IsTrue : string -> bool;
  PathNameEncode : string -> string;
  PathNameDecode : string -> string;
  deviceJoinPath : list string -> string;
  Join : string -> string -> string
}.

(** [m[key]] on a device config. *)
Definition get (m : gmap string string) (key : string) : string :=
  default "" (m !! key).

(** [shared.GetErrno]: the errno of an error of the operating system. *)
Definition GetErrno (e : error) : option Z :=
  match e with
  | SysError n => Some n
  | _ => None
  end.

(** [fmt.Sprintf("%s %d:%d rwm", dType, major, minor)]. *)
Definition cgroup_rule (dType : string) (major minor : Z) : string :=
  dType +:+ " " +:+ itoa major +:+ ":" +:+ itoa minor +:+ " rwm".

(** [unixDeviceModeOct]. *)
Definition unixDeviceModeOct (strmode : string) : result Z :=
  match ParseInt strmode 8 32 with
  | inr _ => inr (Errorf "Bad device mode: %s" [FStr strmode])
  | inl i => inl i
  end.

(** [os.FileMode(i)] of an [int]: the conversion to 32 bits wraps. *)
Definition FileMode (i : Z) : Z := i mod 2 ^ 32.

(** The destination part of a device file name: [devName[idx+1:]] for
    [idx] the last dot. *)
Definition after_last_dot (devName : string) : string :=
  slice_from (Z.to_nat (LastIndex devName "." + 1)) devName.

Definition invalid_device_name (devName : string) : error :=
  Errorf "Invalid device name %q" [FQuoted devName].

(** The loop of [unixDeviceSetup] over the directory entries: whether an
    existing device file has our destination. It stops at the first one. *)
Fixpoint find_dupe (dents : list string) (ourEncRelDestFile : string)
  : result bool :=
  match dents with
  | [] => inl false
  | devName :: rest =>
      let idx := LastIndex devName "." in
      if Z.eqb idx (-1) then inr (invalid_device_name devName)
      else
        let encRelDestFile := after_last_dot devName in
        if String.eqb encRelDestFile ourEncRelDestFile then inl true
        else find_dupe rest ourEncRelDestFile
  end.

(** The second loop of [unixDeviceRemove]: the destinations of the files of
    the other devices. *)
Fixpoint other_dests (otherDevs : list string) : result (list string) :=
  match otherDevs with
  | [] => inl []
  | otherDev :: rest =>
      let idx := LastIndex otherDev "." in
      if Z.eqb idx (-1) then inr (invalid_device_name otherDev)
      else
        match other_dests rest with
        | inr err => inr err
        | inl l => inl (after_last_dot otherDev :: l)
        end
  end.

(** A device file name carries a destination: it has a dot. *)
Definition has_dot (devName : string) : bool :=
  negb (Z.eqb (LastIndex devName ".") (-1)).

(** Some listed file has the destination [enc]. *)
Definition dest_taken (dents : list string) (enc : string) : bool :=
  existsb (fun devName => String.eqb (after_last_dot devName) enc) dents.

Section Devices.
Context {W : Type} `{Host W}.

(** [unixDeviceAttributes]. *)
Definition unixDeviceAttributes (w : W) (path : string)
  : result (string * Z * Z) :=
  match Stat w path with
  | inr err => inr err
  | inl stat =>
      let kind := Z.land (st_Mode stat) S_IFMT in
      if Z.eqb kind S_IFBLK then
        inl ("b", Major (st_Rdev stat), Minor (st_Rdev stat))
      else if Z.eqb kind S_IFCHR then
        inl ("c", Major (st_Rdev stat), Minor (st_Rdev stat))
      else inr (Errorf "Not a device" [])
  end.

(** [unixDeviceOwnership]: the gid, then the uid. *)
Definition unixDeviceOwnership (w : W) (path : string) : result (Z * Z) :=
  match Stat w path with
  | inr err => inr err
  | inl stat => inl (st_Gid stat, st_Uid stat)
  end.

(** [unixDeviceSourcePath] and [unixDeviceDestPath]. *)
Definition unixDeviceSourcePath (m : gmap string string) : string :=
  let srcPath := get m "source" in
  let srcPath := if String.eqb srcPath "" then get m "path" else srcPath in
  HostPath_ srcPath.

Definition unixDeviceDestPath (m : gmap string string) : string :=
  let destPath := get m "path" in
  if String.eqb destPath "" then get m "source" else destPath.

(** The properties a nested container may not set. *)
Definition deviceProperties : list string :=
  ["major"; "minor"; "mode"; "uid"; "gid"].

(** The check for nesting at the start of [UnixDeviceCreate]: the first key
    of the config, in the order the map is ranged over, that is one of
    [deviceProperties] and has a value. Go leaves that order open; the model
    takes the order of [map_to_list]. *)
Definition nested_property (m : gmap string string) : option string :=
  match List.filter
          (fun kv : string * string =>
             (negb (String.eqb (snd kv) "")
              && existsb (String.eqb (fst kv)) deviceProperties)%bool)
          (map_to_list m) with
  | [] => None
  | kv :: _ => Some (fst kv)
  end.

(** The major and minor numbers of the device to create. *)
Definition resolve_numbers (w : W) (m : gmap string string) (srcPath : string)
  : result (Z * Z) :=
  if (String.eqb (get m "major") "" && String.eqb (get m "minor") "")%bool then
    match unixDeviceAttributes w srcPath with
    | inr err =>
        inr (Wrapf "Failed to get device attributes for %q: %w"
                   [FQuoted srcPath] err)
    | inl (_, major, minor) => inl (major, minor)
    end
  else if (String.eqb (get m "major") "" || String.eqb (get m "minor") "")%bool
  then
    inr (Errorf "Both major and minor must be supplied for device: %s"
                [FStr srcPath])
  else
    match ParseUint (get m "major") 10 32 with
    | inr _ =>
        inr (Errorf "Bad major %q in device %q"
                    [FQuoted (get m "major"); FQuoted srcPath])
    | inl major =>
        match ParseUint (get m "minor") 10 32 with
        | inr _ =>
            inr (Errorf "Bad minor %q in device %q"
                        [FQuoted (get m "minor"); FQuoted srcPath])
        | inl minor => inl (major, minor)
        end
    end.

(** The file mode, before the type bit is added. *)
Definition resolve_mode (w : W) (m : gmap string string) (srcPath : string)
  (defaultMode : bool) : result Z :=
  if negb (String.eqb (get m "mode") "") then
    match unixDeviceModeOct (get m "mode") with
    | inr _ =>
        inr (Errorf "Bad mode %q in device %q"
                    [FQuoted (get m "mode"); FQuoted srcPath])
    | inl tmp => inl (FileMode tmp)
    end
  else if negb defaultMode then
    match GetPathMode w srcPath with
    | inl mode => inl mode
    | inr err =>
        match GetErrno err with
        | Some errno =>
            if Z.eqb errno ENOENT then inl unixDefaultMode
            else inr (Wrapf "Failed to retrieve mode of device %q: %w"
                            [FQuoted srcPath] err)
        | None =>
            inr (Wrapf "Failed to retrieve mode of device %q: %w"
                       [FQuoted srcPath] err)
        end
    end
  else inl unixDefaultMode.

(** The owner: the UID, then the GID. Both start at 0, the zero value of the
    fields of [d]. *)
Definition resolve_owner (w : W) (m : gmap string string) (srcPath : string)
  : result (Z * Z) :=
  if IsTrue (get m "ownership.inherit") then
    let uid_step : result Z :=
      if String.eqb (get m "uid") "" then
        match unixDeviceOwnership w srcPath with
        | inr err =>
            inr (Wrapf "Failed to retrieve host UID of device %q: %w"
                       [FQuoted srcPath] err)
        | inl (_, uid) => inl uid
        end
      else inl 0 in
    match uid_step with
    | inr err => inr err
    | inl uid =>
        if String.eqb (get m "gid") "" then
          match unixDeviceOwnership w srcPath with
          | inr err =>
              inr (Wrapf "Failed to retrieve host GID of device %q: %w"
                         [FQuoted srcPath] err)
          | inl (gid, _) => inl (uid, gid)
          end
        else inl (uid, 0)
    end
  else
    let uid_step : result Z :=
      if negb (String.eqb (get m "uid") "") then
        match Atoi (get m "uid") with
        | inr _ =>
            inr (Errorf "Invalid UID %q in device %q"
                        [FQuoted (get m "uid"); FQuoted srcPath])
        | inl uid => inl uid
        end
      else inl 0 in
    match uid_step with
    | inr err => inr err
    | inl uid =>
        if negb (String.eqb (get m "gid") "") then
          match Atoi (get m "gid") with
          | inr _ =>
              inr (Errorf "Invalid GID %q in device %q"
                          [FQuoted (get m "gid"); FQuoted srcPath])
          | inl gid => inl (uid, gid)
          end
        else inl (uid, 0)
    end.

(** The creation of the entry on the host: a device node, or under a user
    namespace a plain file with the source mounted over it. *)
Definition materialize (w : W) (os : OS) (shift : bool) (srcPath devPath : string)
  (major minor mode uid gid : Z) : W * option error :=
  if negb (RunningInUserNS os) then
    if Nodev os then
      (w, Some (Errorf "Can't create device as devices path is mounted nodev"
                       []))
    else
      let devNum := Mkdev major minor in
      match Mknod w devPath mode devNum with
      | (w1, Some err) =>
          (w1, Some (Wrapf "Failed to create device %q for %q: %w"
                           [FQuoted devPath; FQuoted srcPath] err))
      | (w1, None) =>
          match Chown w1 devPath uid gid with
          | (w2, Some err) =>
              (w2, Some (Wrapf "Failed to chown device %q: %w"
                               [FQuoted devPath] err))
          | (w2, None) =>
              match Chmod w2 devPath mode with
              | (w3, Some err) =>
                  (w3, Some (Wrapf "Failed to chmod device %q: %w"
                                   [FQuoted devPath] err))
              | (w3, None) =>
                  if shift then (fst (ShiftFile w3 devPath), None)
                  else (w3, None)
              end
          end
      end
  else
    match Create w devPath with
    | (w1, Some err) => (w1, Some err)
    | (w1, None) => DiskMount w1 srcPath devPath
    end.

(** [UnixDeviceCreate]. [shift] says whether an idmap set was passed. The
    state of the host comes back also when the call fails. *)
Definition UnixDeviceCreate (w : W) (os : OS) (shift : bool)
  (devicesPath prefix : string) (m : gmap string string) (defaultMode : bool)
  : W * result UnixDevice :=
  match (if RunningInUserNS os then nested_property m else None) with
  | Some key =>
      (w, inr (Errorf
         "The %q property may not be set when adding a device to a nested container"
         [FQuoted key]))
  | None =>
      let srcPath := unixDeviceSourcePath m in
      match resolve_numbers w m srcPath with
      | inr err => (w, inr err)
      | inl (major, minor) =>
          match resolve_mode w m srcPath defaultMode with
          | inr err => (w, inr err)
          | inl mode0 =>
              let '(mode, dType) :=
                if String.eqb (get m "type") "unix-block"
                then (Z.lor mode0 S_IFBLK, "b")
                else (Z.lor mode0 S_IFCHR, "c") in
              match resolve_owner w m srcPath with
              | inr err => (w, inr err)
              | inl (uid, gid) =>
                  let '(w1, mkdir_err) :=
                    if negb (PathExists w devicesPath)
                    then Mkdir w devicesPath 457
                    else (w, None) in
                  match mkdir_err with
                  | Some err =>
                      (w1, inr (Textf "Failed to create devices path: %s"
                                      [] err))
                  | None =>
                      let destPath := unixDeviceDestPath m in
                      let relativeDestPath := TrimPrefix destPath "/" in
                      let devName :=
                        PathNameEncode
                          (deviceJoinPath [prefix; relativeDestPath]) in
                      let devPath := Join devicesPath devName in
                      match materialize w1 os shift srcPath devPath major
                              minor mode uid gid with
                      | (w2, Some err) => (w2, inr err)
                      | (w2, None) =>
                          (w2, inl {| HostPath := devPath;
                                      RelativePath := relativeDestPath;
                                      Type_ := dType; Major_ := major;
                                      Minor_ := minor; Mode := mode;
                                      UID := uid; GID := gid |})
                      end
                  end
              end
          end
      end
  end.

(** The mount and the cgroup rule [unixDeviceSetup] adds for a device. *)
Definition mount_entry (d : UnixDevice) : MountEntryItem :=
  {| DevSource := Some (HostPath d); TargetPath := RelativePath d;
     FSType := "none"; Opts := ["bind"; "create=file"];
     OwnerShift_ := MountOwnerShiftStatic |}.

Definition allow_rule (d : UnixDevice) : RunConfigItem :=
  {| Key := "devices.allow";
     Value := cgroup_rule (Type_ d) (Major_ d) (Minor_ d) |}.

(** [unixDeviceSetup]. The run configuration that comes back is the one the
    pointer [runConf] refers to after the call. *)
Definition unixDeviceSetup (w : W) (os : OS)
  (devicesPath typePrefix deviceName : string) (m : gmap string string)
  (defaultMode : bool) (runConf : RunConfig) : W * RunConfig * option error :=
  let ourDestPath := unixDeviceDestPath m in
  let ourEncRelDestFile := PathNameEncode (TrimPrefix ourDestPath "/") in
  let '(dents, err) := ReadDir w devicesPath in
  match (match err with
         | Some e => if negb (IsNotExist e) then Some e else None
         | None => None
         end) with
  | Some e => (w, runConf, Some e)
  | None =>
      match find_dupe dents ourEncRelDestFile with
      | inr e => (w, runConf, Some e)
      | inl dupe =>
          let ourPrefix := deviceJoinPath [typePrefix; deviceName] in
          match UnixDeviceCreate w os false devicesPath ourPrefix m
                  defaultMode with
          | (w', inr e) => (w', runConf, Some e)
          | (w', inl d) =>
              if dupe then (w', runConf, None)
              else
                (w',
                 {| Mounts := Mounts runConf ++ [mount_entry d];
                    CGroups := CGroups runConf ++ [allow_rule d] |},
                 None)
          end
      end
  end.

(** The unmount entry and the deny rule [unixDeviceRemove] adds. *)
Definition unmount_entry (ourEncRelDestFile : string) : MountEntryItem :=
  {| DevSource := None; TargetPath := PathNameDecode ourEncRelDestFile;
     FSType := ""; Opts := []; OwnerShift_ := MountOwnerShiftNone |}.

Definition deny_rule (dType : string) (dMajor dMinor : Z) : RunConfigItem :=
  {| Key := "devices.deny"; Value := cgroup_rule dType dMajor dMinor |}.

(** The last loop of [unixDeviceRemove], over the files of our device. *)
Fixpoint remove_ours (w : W) (devicesPath : string) (encRelDevFiles : list string)
  (ourDevs : list string) (runConf : RunConfig) : RunConfig * option error :=
  match ourDevs with
  | [] => (runConf, None)
  | ourDev :: rest =>
      let idx := LastIndex ourDev "." in
      if Z.eqb idx (-1) then (runConf, Some (invalid_device_name ourDev))
      else
        let ourEncRelDestFile := after_last_dot ourDev in
        let dupe := existsb (String.eqb ourEncRelDestFile) encRelDevFiles in
        if dupe then remove_ours w devicesPath encRelDevFiles rest runConf
        else
          let runConf1 :=
            {| Mounts := Mounts runConf ++ [unmount_entry ourEncRelDestFile];
               CGroups := CGroups runConf |} in
          let absDevPath := Join devicesPath ourDev in
          match unixDeviceAttributes w absDevPath with
          | inr err =>
              (runConf1,
               Some (Wrapf "Failed to get UNIX device attributes for %q: %w"
                           [FQuoted absDevPath] err))
          | inl (dType, dMajor, dMinor) =>
              remove_ours w devicesPath encRelDevFiles rest
                {| Mounts := Mounts runConf1;
                   CGroups := CGroups runConf1
                              ++ [deny_rule dType dMajor dMinor] |}
          end
  end.

(** [unixDeviceRemove]. *)
Definition unixDeviceRemove (w : W)
  (devicesPath typePrefix deviceName optPrefix : string) (runConf : RunConfig)
  : RunConfig * option error :=
  let '(dents, err) := ReadDir w devicesPath in
  match (match err with
         | Some e => if negb (IsNotExist e) then Some e else None
         | None => None
         end) with
  | Some e => (runConf, Some e)
  | None =>
      let ourPrefix :=
        if negb (String.eqb optPrefix "") then
          PathNameEncode (deviceJoinPath [typePrefix; deviceName; optPrefix])
        else PathNameEncode (deviceJoinPath [typePrefix; deviceName]) in
      let ourDevs := List.filter (fun devName => HasPrefix devName ourPrefix)
                                 dents in
      let otherDevs :=
        List.filter (fun devName => negb (HasPrefix devName ourPrefix))
                    dents in
      match other_dests otherDevs with
      | inr e => (runConf, Some e)
      | inl encRelDevFiles =>
          remove_ours w devicesPath encRelDevFiles ourDevs runConf
      end
  end.

(** *** The vocabulary of the properties *)

(** The directory could be listed: no error, or the directory does not
    exist yet. *)
Definition listed (w : W) (devicesPath : string) (dents : list string) : Prop :=
  exists rerr, ReadDir w devicesPath = (dents, rerr)
               /\ forall e, rerr = Some e -> IsNotExist e = true.

(** The encoded relative destination of the device a config describes. *)
Definition our_dest (m : gmap string string) : string :=
  PathNameEncode (TrimPrefix (unixDeviceDestPath m) "/").

(** The encoded prefix of the files of the device being removed. *)
Definition our_prefix (typePrefix deviceName optPrefix : string) : string :=
  if negb (String.eqb optPrefix "") then
    PathNameEncode (deviceJoinPath [typePrefix; deviceName; optPrefix])
  else PathNameEncode (deviceJoinPath [typePrefix; deviceName]).

Definition ours_of (prefix : string) (dents : list string) : list string :=
  List.filter (fun devName => HasPrefix devName prefix) dents.

Definition others_of (prefix : string) (dents : list string) : list string :=
  List.filter (fun devName => negb (HasPrefix devName prefix)) dents.

(** A file of ours whose destination is also the destination of a file of
    another device. *)
Definition shared_with (others : list string) (devName : string) : bool :=
  existsb (String.eqb (after_last_dot devName)) (map after_last_dot others).

(** The files of ours that are unmounted: those that share with no one. *)
Definition unshared (others ours : list string) : list string :=
  List.filter (fun devName => negb (shared_with others devName)) ours.

(** The deny rule for a file, from the attributes of the host device file. *)
Definition deny_of (w : W) (devicesPath devName : string) : list RunConfigItem :=
  match unixDeviceAttributes w (Join devicesPath devName) with
  | inl (dType, dMajor, dMinor) =>
      [{| Key := "devices.deny";
          Value := dType +:+ " " +:+ itoa dMajor +:+ ":" +:+ itoa dMinor
                   +:+ " rwm" |}]
  | inr _ => []
  end.

Definition stat_ok (w : W) (devicesPath devName : string) : Prop :=
  exists attrs, unixDeviceAttributes w (Join devicesPath devName) = inl attrs.

End Devices.

End UnixDevice.

(** ** A host in memory

    A small file system on which the examples of the unix device code run:
    a list of nodes by absolute path, kept in the order of their names, as
    [os.ReadDir] lists a directory. Its encoder doubles [-] and turns [/]
    into [-]; its other helpers are the obvious ones. *)

Module MemHost.
Import GoStrings UnixDevice.

Record Node : Type := {
  path : string;
  stat : Stat_t
}.

Definition World : Type := list Node.

Fixpoint lookup_node (w : World) (p : string) : option Stat_t :=
  match w with
  | [] => None
  | n :: rest => if String.eqb (path n) p then Some (stat n)
                 else lookup_node rest p
  end.

Fixpoint insert_node (w : World) (n : Node) : World :=
  match w with
  | [] => [n]
  | n' :: rest =>
      if String.ltb (path n) (path n') then n :: n' :: rest
      else n' :: insert_node rest n
  end.

Fixpoint update_node (w : World) (p : string) (f : Stat_t -> Stat_t) : World :=
  match w with
  | [] => []
  | n :: rest =>
      if String.eqb (path n) p
      then {| path := p; stat := f (stat n) |} :: rest
      else n :: update_node rest p f
  end.

Definition S_IFDIR : Z := 16384.
Definition S_IFREG : Z := 32768.

Definition mem_Stat (w : World) (p : string) : result Stat_t :=
  match lookup_node w p with
  | Some s => inl s
  | None => inr (SysError ENOENT)
  end.

Definition mem_GetPathMode (w : World) (p : string) : result Z :=
  match lookup_node w p with
  | Some s => inl (st_Mode s)
  | None => inr (SysError ENOENT)
  end.

Definition mem_PathExists (w : World) (p : string) : bool :=
  match lookup_node w p with
  | Some _ => true
  | None => false
  end.

(** The names directly under [dir]. *)
Definition child_name (dir : string) (p : string) : option string :=
  if HasPrefix p (dir +:+ "/") then
    let name := slice_from (String.length dir + 1) p in
    if Nat.eqb (Count name "/") 0 then Some name else None
  else None.

Definition mem_ReadDir (w : World) (dir : string) : list string * option error :=
  match lookup_node w dir with
  | None => ([], Some (SysError ENOENT))
  | Some _ => (omap (fun n => child_name dir (path n)) w, None)
  end.

Definition add_node (w : World) (p : string) (s : Stat_t) : World * option error :=
  match lookup_node w p with
  | Some _ => (w, Some (SysError EEXIST))
  | None => (insert_node w {| path := p; stat := s |}, None)
  end.

Definition change_node (w : World) (p : string) (f : Stat_t -> Stat_t)
  : World * option error :=
  match lookup_node w p with
  | None => (w, Some (SysError ENOENT))
  | Some _ => (update_node w p f, None)
  end.

Definition mem_Mkdir (w : World) (p : string) (mode : Z) : World * option error :=
  add_node w p {| st_Mode := Z.lor S_IFDIR mode; st_Rdev := 0; st_Uid := 0;
                  st_Gid := 0 |}.

Definition mem_Mknod (w : World) (p : string) (mode dev : Z)
  : World * option error :=
  add_node w p {| st_Mode := mode; st_Rdev := dev; st_Uid := 0; st_Gid := 0 |}.

Definition mem_Chown (w : World) (p : string) (uid gid : Z)
  : World * option error :=
  change_node w p (fun s => {| st_Mode := st_Mode s; st_Rdev := st_Rdev s;
                               st_Uid := uid; st_Gid := gid |}).

Definition mem_Chmod (w : World) (p : string) (mode : Z) : World * option error :=
  change_node w p (fun s => {| st_Mode := mode; st_Rdev := st_Rdev s;
                               st_Uid := st_Uid s; st_Gid := st_Gid s |}).

Definition mem_Create (w : World) (p : string) : World * option error :=
  match lookup_node w p with
  | Some _ => (w, None)
  | None =>
      (insert_node w {| path := p;
                        stat := {| st_Mode := Z.lor S_IFREG 420; st_Rdev := 0;
                                   st_Uid := 0; st_Gid := 0 |} |}, None)
  end.

(** A bind mount shows the source at the target. *)
Definition mem_DiskMount (w : World) (src dst : string) : World * option error :=
  match lookup_node w src with
  | None => (w, Some (SysError ENOENT))
  | Some s => change_node w dst (fun _ => s)
  end.

Fixpoint encode (s : string) : string :=
  match s with
  | EmptyString => EmptyString
  | String c rest =>
      if Ascii.eqb c "-" then String "-" (String "-" (encode rest))
      else if Ascii.eqb c "/" then String "-" (encode rest)
      else String c (encode rest)
  end.

Fixpoint decode (s : string) : string :=
  match s with
  | EmptyString => EmptyString
  | String c rest =>
      if Ascii.eqb c "-" then
        match rest with
        | String c' rest' =>
            if Ascii.eqb c' "-" then String "-" (decode rest')
            else String "/" (decode rest)
        | EmptyString => String "/" EmptyString
        end
      else String c (decode rest)
  end.

Definition mem_IsTrue (value : string) : bool :=
  existsb (String.eqb (ToLower value)) ["true"; "1"; "yes"; "on"].

#[global] Instance mem_host : Host World :=
  {| Stat := mem_Stat;
     GetPathMode := mem_GetPathMode;
     PathExists := mem_PathExists;
     ReadDir := mem_ReadDir;
     Mkdir := mem_Mkdir;
     Mknod := mem_Mknod;
     Chown := mem_Chown;
     Chmod := mem_Chmod;
     Create := mem_Create;
     DiskMount := mem_DiskMount;
     ShiftFile := fun w _ => (w, None);
     HostPath_ := fun p => p;
     IsTrue := mem_IsTrue;
     PathNameEncode := encode;
     PathNameDecode := decode;
     deviceJoinPath := String.concat ".";
     Join := fun dir name => dir +:+ "/" +:+ name |}.

Definition dir_node (p : string) : Node :=
  {| path := p;
     stat := {| st_Mode := Z.lor S_IFDIR 457; st_Rdev := 0; st_Uid := 0;
                st_Gid := 0 |} |}.

Definition char_node (p : string) (major minor uid gid : Z) : Node :=
  {| path := p;
     stat := {| st_Mode := Z.lor S_IFCHR 432; st_Rdev := Mkdev major minor;
                st_Uid := uid; st_Gid := gid |} |}.

Definition privileged : OS := {| RunningInUserNS := false; Nodev := false |}.

Definition no_run_config : RunConfig := {| Mounts := []; CGroups := [] |}.

(** *** Samples *)

(** A host with one GPU device node, owned by uid 107 and gid 44, and an
    empty devices directory. *)
Definition gpu_host : World :=
  [char_node "/dev/dri/card0" 226 0 107 44; dir_node "/devices"].

Definition gpu_config : gmap string string := {[ "path" := "/dev/dri/card0" ]}.

Definition setup_gpu (w : World) (deviceName : string)
  : World * RunConfig * option error :=
  unixDeviceSetup w privileged "/devices" "unix" deviceName gpu_config false
    no_run_config.

Definition after_gpu0 : World := fst (fst (setup_gpu gpu_host "gpu0")).
Definition after_gpu1 : World := fst (fst (setup_gpu after_gpu0 "gpu1")).

Definition gpu1_device : UnixDevice :=
  {| HostPath := "/devices/unix.gpu1.dev-dri-card0";
     RelativePath := "dev/dri/card0"; Type_ := "c"; Major_ := 226;
     Minor_ := 0; Mode := 8624; UID := 0; GID := 0 |}.

(** A devices directory with a stray file that has no dot in its name. *)
Definition stray_host : World :=
  [char_node "/dev/dri/card0" 226 0 107 44; dir_node "/devices";
   char_node "/devices/zzz" 1 3 0 0].

(** The same directory once a device with our destination is present; the
    listing has it before the stray file. *)
Definition stray_after_match : World :=
  [char_node "/dev/dri/card0" 226 0 107 44; dir_node "/devices";
   char_node "/devices/unix.gpu0.dev-dri-card0" 226 0 0 0;
   char_node "/devices/zzz" 1 3 0 0].

(** A config that asks to inherit the ownership and also names a uid. *)
Definition inherit_uid_config : gmap string string :=
  {[ "path" := "/dev/dri/card0"; "ownership.inherit" := "true";
     "uid" := "1000" ]}.

End MemHost.

(** ** Files in memory for the dnsmasq helpers

    The examples of the dnsmasq code run on this host: directory listings
    and file contents by path, the names of the default project left bare,
    and parsers for dotted IPv4 addresses and colon-separated hardware
    addresses. *)

Module MemFiles.
Import GoStrings Dnsmasq.

Record Files : Type := {
  listings : list (string * (list string * option error));
  contents : list (string * string)
}.

Fixpoint assoc {A : Type} (l : list (string * A)) (key : string) : option A :=
  match l with
  | [] => None
  | (k, v) :: rest => if String.eqb k key then Some v else assoc rest key
  end.

Definition mem_ReadDir (fs : Files) (dir : string) : list string * option error :=
  default ([], Some (SysError ENOENT)) (assoc (listings fs) dir).

(** The lines a scanner yields: the text between newlines, without an empty
    line after the last newline. *)
Definition scan_lines (text : string) : list string :=
  match rev (Split text "010") with
  | last :: before =>
      if String.eqb last "" then rev before else rev (last :: before)
  | [] => []
  end.

Definition mem_Open (fs : Files) (path : string) : result Scanned :=
  match assoc (contents fs) path with
  | Some text => inl {| lines := scan_lines text; scan_err := None |}
  | None => inr (SysError ENOENT)
  end.

Definition mem_WriteFile (fs : Files) (path text : string) (perm : Z)
  : Files * option error :=
  ({| listings := listings fs;
      contents := (path, text)
                  :: List.filter (fun kv => negb (String.eqb (fst kv) path))
                                 (contents fs) |}, None).

Definition mem_VarPath (parts : list string) : string :=
  "/var/lib/lxd/" +:+ String.concat "/" parts.

Definition mem_DNS (projectName instanceName : string) : string :=
  if String.eqb projectName "default" then instanceName
  else instanceName +:+ "-" +:+ projectName.

Definition mem_Instance (projectName instanceName : string) : string :=
  if String.eqb projectName "default" then instanceName
  else projectName +:+ "_" +:+ instanceName.

(** A number of at most [max] written with the digits of [base]. *)
Definition small_number (base max : Z) (s : string) : option Z :=
  match s with
  | EmptyString => None
  | _ =>
      match Strconv.digits base s 0 with
      | Some v => if Z.leb v max then Some v else None
      | None => None
      end
  end.

Fixpoint all_some {A : Type} (l : list (option A)) : option (list A) :=
  match l with
  | [] => Some []
  | Some x :: rest =>
      match all_some rest with
      | Some xs => Some (x :: xs)
      | None => None
      end
  | None :: _ => None
  end.

Definition v4_in_v6 : list Z := [0; 0; 0; 0; 0; 0; 0; 0; 0; 0; 255; 255].

Definition mem_ParseIP (s : string) : option bytes :=
  let parts := Split s "." in
  if Nat.eqb (length parts) 4 then
    match all_some (map (small_number 10 255) parts) with
    | Some quad => Some (v4_in_v6 ++ quad)
    | None => None
    end
  else None.

Definition mem_To4 (ip : option bytes) : option bytes :=
  match ip with
  | None => None
  | Some b =>
      if Nat.eqb (length b) 4 then Some b
      else if (Nat.eqb (length b) 16
               && bool_decide (take 12 b = v4_in_v6))%bool
      then Some (drop 12 b)
      else None
  end.

Definition mem_To16 (ip : option bytes) : option bytes :=
  match ip with
  | None => None
  | Some b =>
      if Nat.eqb (length b) 4 then Some (v4_in_v6 ++ b)
      else if Nat.eqb (length b) 16 then Some b
      else None
  end.

Definition mem_ParseMAC (s : string) : result bytes :=
  let parts := Split s ":" in
  if Nat.eqb (length parts) 6 then
    match all_some (map (fun p => if Nat.eqb (String.length p) 2
                                  then small_number 16 255 p else None)
                        parts) with
    | Some mac => inl mac
    | None => inr (Errorf "address %s: invalid MAC address" [FStr s])
    end
  else inr (Errorf "address %s: invalid MAC address" [FStr s]).

#[global] Instance mem_files : Host Files :=
  {| VarPath := mem_VarPath;
     project_DNS := mem_DNS;
     project_Instance := mem_Instance;
     PathNameEncode := MemHost.encode;
     WriteFile := mem_WriteFile;
     ReadDir := mem_ReadDir;
     Open := mem_Open;
     ParseIP := mem_ParseIP;
     To4 := mem_To4;
     To16 := mem_To16;
     ParseMAC := mem_ParseMAC |}.

Definition no_files : Files := {| listings := []; contents := [] |}.

(** A network whose dnsmasq.hosts directory cannot be read (permission
    denied) and whose lease file holds one IPv4 lease. *)
Definition unreadable_hosts : Files :=
  {| listings :=
       [("/var/lib/lxd/networks/lxdbr0/dnsmasq.hosts",
         ([], Some (SysError EACCES)))];
     contents :=
       [("/var/lib/lxd/networks/lxdbr0/dnsmasq.leases",
         "1700000000 aa:bb:cc:dd:ee:ff 10.0.0.5 web1 *" +:+ nl)] |}.

End MemFiles.

(** ** Unix devices: the validators, the setup by number and the cleanup *)

Module UnixDeviceMore.
Import GoStrings Strconv UnixDevice.

(** [unixValidDeviceNum], [unixValidUserID] and [unixValidOctalFileMode]:
    nil for the empty string and for a number of 32 bits. *)
Definition unixValidDeviceNum (value : string) : option error :=
  if String.eqb value "" then None
  else
    match ParseUint value 10 32 with
    | inr _ => Some (Errorf "Invalid value for a UNIX device number" [])
    | inl _ => None
    end.

Definition unixValidUserID (value : string) : option error :=
  if String.eqb value "" then None
  else
    match ParseUint value 10 32 with
    | inr _ => Some (Errorf "Invalid value for a UNIX ID" [])
    | inl _ => None
    end.

Definition unixValidOctalFileMode (value : string) : option error :=
  if String.eqb value "" then None
  else
    match ParseUint value 8 32 with
    | inr _ => Some (Errorf "Invalid value for an octal file mode" [])
    | inl _ => None
    end.

(** [strconv.FormatUint(uint64(n), 10)]. *)
Definition FormatUint (n : Z) : string := itoa n.

(** The config copy of [unixDeviceSetupCharNum] and
    [unixDeviceSetupBlockNum]: [m.Clone()] with four keys overridden. *)
Definition with_numbers (m : gmap string string) (type : string)
  (major minor : Z) (path : string) : gmap string string :=
  <["path" := path]>
    (<["minor" := FormatUint minor]>
       (<["major" := FormatUint major]> (<["type" := type]> m))).

(** What the cleanup needs of the host besides [Host]: [os.Remove] and
    [unix.Unmount] with [MNT_DETACH]. *)
Class Cleanup (W : Type) : Type := {
  Remove : W -> string -> W * option error;
  Unmount : W -> string -> W * option error
}.

Section More.
Context {W : Type} `{Host W} `{Cleanup W}.

(** [unixDeviceSetupCharNum] and [unixDeviceSetupBlockNum]. *)
Definition unixDeviceSetupCharNum (w : W) (os : OS)
  (devicesPath typePrefix deviceName : string) (m : gmap string string)
  (major minor : Z) (path : string) (defaultMode : bool) (runConf : RunConfig)
  : W * RunConfig * option error :=
  let configCopy := with_numbers m "unix-char" major minor path in
  unixDeviceSetup w os devicesPath typePrefix deviceName configCopy
    defaultMode runConf.

Definition unixDeviceSetupBlockNum (w : W) (os : OS)
  (devicesPath typePrefix deviceName : string) (m : gmap string string)
  (major minor : Z) (path : string) (defaultMode : bool) (runConf : RunConfig)
  : W * RunConfig * option error :=
  let configCopy := with_numbers m "unix-block" major minor path in
  unixDeviceSetup w os devicesPath typePrefix deviceName configCopy
    defaultMode runConf.

(** [UnixDeviceExists]. *)
Definition UnixDeviceExists (w : W) (devicesPath prefix path : string) : bool :=
  let relativeDestPath := TrimPrefix path "/" in
  let devName :=
    PathNameEncode prefix +:+ "." +:+ PathNameEncode relativeDestPath in
  let devPath := Join devicesPath devName in
  PathExists w devPath.

(** The loop of [unixDeviceDeleteFiles] over the directory entries. *)
Fixpoint delete_files (w : W) (os : OS) (devicesPath ourPrefix : string)
  (dents : list string) : W * option error :=
  match dents with
  | [] => (w, None)
  | devName :: rest =>
      if HasPrefix devName ourPrefix then
        let devPath := Join devicesPath devName in
        let w1 := if RunningInUserNS os then fst (Unmount w devPath) else w in
        match Remove w1 devPath with
        | (w2, Some err) => (w2, Some err)
        | (w2, None) => delete_files w2 os devicesPath ourPrefix rest
        end
      else delete_files w os devicesPath ourPrefix rest
  end.

(** [unixDeviceDeleteFiles]. *)
Definition unixDeviceDeleteFiles (w : W) (os : OS)
  (devicesPath typePrefix deviceName optPrefix : string) : W * option error :=
  let ourPrefix :=
    if negb (String.eqb optPrefix "") then
      PathNameEncode (deviceJoinPath [typePrefix; deviceName; optPrefix])
    else PathNameEncode (deviceJoinPath [typePrefix; deviceName]) in
  let '(dents, err) := ReadDir w devicesPath in
  match (match err with
         | Some e => if negb (IsNotExist e) then Some e else None
         | None => None
         end) with
  | Some e => (w, Some e)
  | None => delete_files w os devicesPath ourPrefix dents
  end.

(** *** The vocabulary of the properties *)

(** The run configuration a setup by number may leave: the one it received,
    or that one with the mount of the given path and the allow rule of the
    given numbers. *)
Definition by_number_outcome (runConf runConf' : RunConfig) (m : gmap string string)
  (dType : string) (major minor : Z) (path : string) : Prop :=
  runConf' = runConf
  \/ exists hostPath,
       runConf'
       = {| Mounts :=
              Mounts runConf
              ++ [{| DevSource := Some hostPath;
                     TargetPath :=
                       TrimPrefix (if String.eqb path "" then get m "source"
                                   else path) "/";
                     FSType := "none"; Opts := ["bind"; "create=file"];
                     OwnerShift_ := MountOwnerShiftStatic |}];
            CGroups :=
              CGroups runConf
              ++ [{| Key := "devices.allow";
                     Value := dType +:+ " " +:+ itoa major +:+ ":"
                              +:+ itoa minor +:+ " rwm" |}] |}.

End More.

End UnixDeviceMore.

(** ** Cleanup on the host in memory *)

Module MemHostMore.
Import GoStrings UnixDevice UnixDeviceMore MemHost.

Definition mem_Remove (w : World) (p : string) : World * option error :=
  match lookup_node w p with
  | None => (w, Some (SysError ENOENT))
  | Some _ =>
      (List.filter (fun n => negb (String.eqb (path n) p)) w, None)
  end.

#[global] Instance mem_cleanup : Cleanup World :=
  {| Remove := mem_Remove; Unmount := fun w _ => (w, None) |}.

(** A host without a devices directory. *)
Definition bare_host : World := [char_node "/dev/dri/card0" 226 0 107 44].

(** A config that names a device of its own, which a setup by number
    overrides. *)
Definition stale_config : gmap string string :=
  {[ "source" := "/dev/dri/card0"; "type" := "unix-block"; "major" := "8";
     "minor" := "1" ]}.

(** A config as a nested container may not use it. *)
Definition nested_config : gmap string string :=
  {[ "path" := "/dev/dri/card0"; "mode" := "0600" ]}.

Definition nested : OS := {| RunningInUserNS := true; Nodev := false |}.

(** Two devices whose names extend one another, gpu1 and gpu10, set up one
    after the other on the same source: the second setup finds the
    destination taken and adds no mount, and the devices directory holds a
    file for each. *)
Definition gpu1_alone : World := fst (fst (setup_gpu gpu_host "gpu1")).

Definition gpu1_and_gpu10 : World := fst (fst (setup_gpu gpu1_alone "gpu10")).

Definition card0_unmount : MountEntryItem :=
  {| DevSource := None; TargetPath := "dev/dri/card0"; FSType := "";
     Opts := []; OwnerShift_ := MountOwnerShiftNone |}.

Definition card0_deny : RunConfigItem :=
  {| Key := "devices.deny"; Value := "c 226:0 rwm" |}.

End MemHostMore.

(** ** dnsmasq: the vocabulary of further properties *)

Module DnsmasqMore.
Import GoStrings Dnsmasq.

(** The allocations of [before] that name a static file are in [after]
    unchanged. *)
Definition static_kept (before after : gmap (list Z) DHCPAllocation) : Prop :=
  forall key a,
    before !! key = Some a -> StaticFileName a <> "" -> after !! key = Some a.

(** A field that [DHCPStaticAllocation] reads neither as an address nor as a
    hardware address. *)
Definition plain_field (field : string) : Prop :=
  Count field "." <> 3%nat
  /\ (HasPrefix field "[" && HasSuffix field "]")%bool = false
  /\ Count field ":" <> 5%nat.

End DnsmasqMore.

(** ** More files in memory *)

Module MemFilesMore.
Import GoStrings Dnsmasq MemFiles.

(** A network with one static allocation file, for device eth0 of instance
    c1, and a lease file in which another machine holds the same IPv4
    address and a third machine holds another one. *)
Definition static_and_lease : Files :=
  {| listings :=
       [("/var/lib/lxd/networks/lxdbr0/dnsmasq.hosts", (["c1.eth0"], None))];
     contents :=
       [("/var/lib/lxd/networks/lxdbr0/dnsmasq.hosts/c1.eth0",
         "aa:bb:cc:dd:ee:ff,10.0.0.5,c1" +:+ nl);
        ("/var/lib/lxd/networks/lxdbr0/dnsmasq.leases",
         "1700000000 11:22:33:44:55:66 10.0.0.5 other *" +:+ nl
         +:+ "1700000000 11:22:33:44:55:77 10.0.0.6 third *" +:+ nl)] |}.

Definition c1_static : DHCPAllocation :=
  {| IP := Some [10; 0; 0; 5]; StaticFileName := "c1.eth0";
     MAC := Some [170; 187; 204; 221; 238; 255] |}.

Definition third_lease : DHCPAllocation :=
  {| IP := Some [10; 0; 0; 6]; StaticFileName := "";
     MAC := Some [17; 34; 51; 68; 85; 119] |}.

Definition static_and_lease_maps : Maps :=
  (<[ [10; 0; 0; 6] := third_lease ]> (<[ [10; 0; 0; 5] := c1_static ]> ∅),
   ∅).



End MemFilesMore.

(** ** Warnings: the other writers of warnings.go *)

Module WarningsMore.
Import Warnings.

(** The UPDATE of [UpdateWarningStatus] on one row:
    [SET status=?, updated_date=?]. *)
Definition set_status (status : Z) (now : Z) (w : Warning) : Warning :=
  {| ID := ID w; Node := Node w; Project := Project w;
     EntityType := EntityType w; EntityID := EntityID w; UUID := UUID w;
     TypeCode := TypeCode w; Status := status;
     FirstSeenDate := FirstSeenDate w; LastSeenDate := LastSeenDate w;
     UpdatedDate := now; LastMessage := LastMessage w; Count := Count w |}.

(** The same UPDATE on the table: every row [WHERE uuid=?], and the number
    of rows it changed. *)
Definition exec_update_status (st : State) (status : Z) (now : Z)
  (uuid : string) : State * Z :=
  (with_warnings st
     (map (fun w => if String.eqb (UUID w) uuid
                    then set_status status now w else w)
          (warnings st))
     (next_id st),
   Z.of_nat (length (List.filter (fun w => String.eqb (UUID w) uuid)
                                 (warnings st)))).

Section Status.
Context `{Driver}.

(** [c.tx.Exec(str, status, time.Now(), UUID)] with the UPDATE of
    [UpdateWarningStatus]. *)
Definition Exec_update_status (st : State) (status : Z) (now : Z)
  (uuid : string) : result (State * Store.Result) :=
  match Exec_error st warningUpdateStatus with
  | Some err => inr err
  | None =>
      let '(st', n) := exec_update_status st status now uuid in
      inl (st', sql_result st' warningUpdateStatus 0 n)
  end.

(** [UpdateWarningStatus]; [now] is what [time.Now()] answers there. *)
Definition UpdateWarningStatus (st : State) (now : Z) (uuid : string)
  (status : Z) : State * option error :=
  match Exec_update_status st status now uuid with
  | inr err =>
      (st, Some (Wrapf "Failed to update warning status for warning %q: %w"
                       [FQuoted uuid] err))
  | inl (st', res) =>
      match Store.RowsAffected res with
      | inr err =>
          (st', Some (Wrapf
             "Failed to get affected rows to update warning status %q: %w"
             [FQuoted uuid] err))
      | inl rowsAffected =>
          if Z.eqb rowsAffected 0 then
            (st', Some (StatusError StatusNotFound "Warning not found"))
          else (st', None)
      end
  end.

End Status.

Section Local.
Context `{WarningEnv} `{Driver}.

(** [UpsertWarningLocalNode]. [GetLocalNodeName] of ClusterTx is not in
    warnings.go and is taken as a parameter. *)
Definition UpsertWarningLocalNode (GetLocalNodeName : State -> result string)
  (st : State) (now now' : Z) (uuid : string)
  (projectName entityType : string) (entityID typeCode : Z)
  (message : string) : State * option error :=
  match GetLocalNodeName st with
  | inr err =>
      (st, Some (Wrapf "Failed getting local member name: %w" [] err))
  | inl localName =>
      if String.eqb localName "" then
        (st, Some (Errorf "Local member name not available" []))
      else
        UpsertWarning st now now' uuid localName projectName entityType
          entityID typeCode message
  end.

End Local.

(** *** The vocabulary of the properties *)

(** No two records share a UUID. *)
Definition unique_uuids (st : State) : Prop :=
  List.NoDup (map UUID (warnings st)).

End WarningsMore.

(** ** Reading instances and certificates back (the GetMany, GetOne and URIs
    functions of the two mappers) *)

Module Fetch.
Import Store.

Definition set_Config (o : Instance) (c : gmap string string) : Instance :=
  {| ID := ID o; Project := Project o; Name := Name o; Node := Node o;
     Type_ := Type_ o; Architecture := Architecture o;
     Ephemeral := Ephemeral o; CreationDate := CreationDate o;
     Stateful := Stateful o; LastUseDate := LastUseDate o;
     Description := Description o; ExpiryDate := ExpiryDate o;
     Config_ := c; Devices := Devices o; Profiles := Profiles o |}.

Definition set_Devices (o : Instance) (d : gmap string Device) : Instance :=
  {| ID := ID o; Project := Project o; Name := Name o; Node := Node o;
     Type_ := Type_ o; Architecture := Architecture o;
     Ephemeral := Ephemeral o; CreationDate := CreationDate o;
     Stateful := Stateful o; LastUseDate := LastUseDate o;
     Description := Description o; ExpiryDate := ExpiryDate o;
     Config_ := Config_ o; Devices := d; Profiles := Profiles o |}.

Definition set_Profiles (o : Instance) (p : list string) : Instance :=
  {| ID := ID o; Project := Project o; Name := Name o; Node := Node o;
     Type_ := Type_ o; Architecture := Architecture o;
     Ephemeral := Ephemeral o; CreationDate := CreationDate o;
     Stateful := Stateful o; LastUseDate := LastUseDate o;
     Description := Description o; ExpiryDate := ExpiryDate o;
     Config_ := Config_ o; Devices := Devices o; Profiles := p |}.

(** What the Get functions call outside the mapper files:
    [query.SelectObjects] with the destination function of each mapper (one
    object per row, the scanned columns filled in), the child-table readers
    of ClusterTx, [urlsToResourceNames], and the URL builder of package api
    as [GetInstanceURIs] uses it
    ([api.NewURL().Path(version.APIVersion, "instances", name)] with
    [Project(project)], as a string). *)
Class Reader (DB : Type) : Type := {
  SelectInstances :
    DB -> Dispatch.InstanceStmt -> list Dispatch.arg -> result (list Instance);
  SelectCertificates :
    DB -> Dispatch.CertificateStmt -> list Dispatch.arg
    -> result (list Certificate);
  GetConfig : DB -> string -> result (gmap Z (gmap string string));
  GetDevices : DB -> string -> result (gmap Z (list Device));
  GetInstanceProfiles : DB -> result (gmap Z (list Z));
  GetProfileURIs : DB -> Z -> result (list string);
  urlsToResourceNames : string -> list string -> result (list string);
  instance_uri : string -> string -> string
}.

(** The first loop of [GetInstances]: the config of each object, an empty
    map when the table has none for its ID. *)
Definition fill_config (config : gmap Z (gmap string string)) (o : Instance)
  : Instance :=
  match config !! ID o with
  | None => set_Config o ∅
  | Some c => set_Config o c
  end.

(** The inner loop over [devices[objects[i].ID]]. *)
Fixpoint collect_devices (devs : list Device) (acc : gmap string Device)
  : result (gmap string Device) :=
  match devs with
  | [] => inl acc
  | obj :: rest =>
      match acc !! dName obj with
      | None => collect_devices rest (<[dName obj := obj]> acc)
      | Some _ =>
          inr (Errorf "Found duplicate Device with name %q"
                      [FQuoted (dName obj)])
      end
  end.

(** The second loop. *)
Fixpoint fill_devices (devices : gmap Z (list Device))
  (objects : list Instance) : result (list Instance) :=
  match objects with
  | [] => inl []
  | o :: rest =>
      match collect_devices (default [] (devices !! ID o)) ∅ with
      | inr err => inr err
      | inl m =>
          match fill_devices devices rest with
          | inr err => inr err
          | inl rest' => inl (set_Devices o m :: rest')
          end
      end
  end.

Section Get.
Context {DB : Type} `{Reader DB}.

(** The inner loop over the profile IDs of one object. *)
Fixpoint profile_names (db : DB) (refIDs : list Z) (acc : list string)
  : result (list string) :=
  match refIDs with
  | [] => inl acc
  | refID :: rest =>
      match GetProfileURIs db refID with
      | inr err => inr err
      | inl profileURIs =>
          match urlsToResourceNames "/profiles" profileURIs with
          | inr err => inr err
          | inl uris => profile_names db rest (acc ++ uris)
          end
      end
  end.

(** The third loop. *)
Fixpoint fill_profiles (db : DB) (instanceProfiles : gmap Z (list Z))
  (objects : list Instance) : result (list Instance) :=
  match objects with
  | [] => inl []
  | o :: rest =>
      match profile_names db (default [] (instanceProfiles !! ID o)) [] with
      | inr err => inr err
      | inl names =>
          match fill_profiles db instanceProfiles rest with
          | inr err => inr err
          | inl rest' => inl (set_Profiles o names :: rest')
          end
      end
  end.

Definition fetch_failed (table : string) (err : error) : error :=
  Wrapf ("Failed to fetch from " ++ dq ++ table ++ dq ++ " table: %w") [] err.

(** [GetInstances]. *)
Definition GetInstances (db : DB) (filter : Dispatch.InstanceFilter)
  : result (list Instance) :=
  match Dispatch.GetInstances_stmt filter with
  | inr err => inr err
  | inl (stmt, args) =>
      match SelectInstances db stmt args with
      | inr err => inr (fetch_failed "instances" err)
      | inl objects =>
          match GetConfig db "instance" with
          | inr err => inr err
          | inl config =>
              let objects := map (fill_config config) objects in
              match GetDevices db "instance" with
              | inr err => inr err
              | inl devices =>
                  match fill_devices devices objects with
                  | inr err => inr err
                  | inl objects =>
                      match GetInstanceProfiles db with
                      | inr err => inr err
                      | inl instanceProfiles =>
                          fill_profiles db instanceProfiles objects
                      end
                  end
              end
          end
      end
  end.

(** The filter [GetInstance] builds. *)
Definition by_project_and_name (project name : string)
  : Dispatch.InstanceFilter :=
  {| Dispatch.ID := None; Dispatch.Project := Some project;
     Dispatch.Name := Some name; Dispatch.Node := None;
     Dispatch.Type_ := None |}.

(** [GetInstance]. *)
Definition GetInstance (db : DB) (project name : string) : result Instance :=
  match GetInstances db (by_project_and_name project name) with
  | inr err => inr (fetch_failed "instances" err)
  | inl [] => inr ErrNoSuchObject
  | inl [o] => inl o
  | inl _ =>
      inr (Errorf ("More than one " ++ dq ++ "instances" ++ dq
                   ++ " entry matches") [])
  end.

(** [GetInstanceURIs]: the same selection of the statement, the same select,
    and one URI per row. *)
Definition GetInstanceURIs (db : DB) (filter : Dispatch.InstanceFilter)
  : result (list string) :=
  match Dispatch.GetInstances_stmt filter with
  | inr err => inr err
  | inl (stmt, args) =>
      match SelectInstances db stmt args with
      | inr err => inr (fetch_failed "instances" err)
      | inl objects =>
          inl (map (fun o => instance_uri (Project o) (Name o)) objects)
      end
  end.

(** [GetCertificates]. *)
Definition GetCertificates (db : DB) (filter : Dispatch.CertificateFilter)
  : result (list Certificate) :=
  match Dispatch.GetCertificates_stmt filter with
  | inr err => inr err
  | inl (sqlStmt, args) =>
      match SelectCertificates db sqlStmt args with
      | inr err => inr (fetch_failed "certificates" err)
      | inl objects => inl objects
      end
  end.

Definition by_fingerprint (fingerprint : string) : Dispatch.CertificateFilter :=
  {| Dispatch.cID := None; Dispatch.cFingerprint := Some fingerprint;
     Dispatch.cName := None; Dispatch.cType := None |}.

(** [GetCertificate]. *)
Definition GetCertificate (db : DB) (fingerprint : string)
  : result Certificate :=
  match GetCertificates db (by_fingerprint fingerprint) with
  | inr err => inr (fetch_failed "certificates" err)
  | inl [] => inr (StatusError StatusNotFound "Certificate not found")
  | inl [o] => inl o
  | inl _ =>
      inr (Errorf ("More than one " ++ dq ++ "certificates" ++ dq
                   ++ " entry matches") [])
  end.

End Get.

(** *** The vocabulary of the properties *)

(** The columns the select scans are the same in both objects. *)
Definition same_columns (s o : Instance) : Prop :=
  ID o = ID s /\ Project o = Project s /\ Name o = Name s
  /\ Node o = Node s /\ Type_ o = Type_ s
  /\ Architecture o = Architecture s /\ Ephemeral o = Ephemeral s
  /\ CreationDate o = CreationDate s /\ Stateful o = Stateful s
  /\ LastUseDate o = LastUseDate s /\ Description o = Description s
  /\ ExpiryDate o = ExpiryDate s.

(** The devices of [o] are the devices of the list, each under its name, and
    no two devices of the list share a name. *)
Definition devices_keyed (devs : list Device) (o : Instance) : Prop :=
  List.NoDup (map dName devs)
  /\ forall name d, Devices o !! name = Some d <-> In d devs /\ dName d = name.

(** The object [o] is the selected row [s] with its config and its devices
    read from the child tables. *)
Definition hydrated (config : gmap Z (gmap string string))
  (devices : gmap Z (list Device)) (s o : Instance) : Prop :=
  same_columns s o
  /\ Config_ o = default ∅ (config !! ID s)
  /\ devices_keyed (default [] (devices !! ID s)) o.

Definition duplicate_device (name : string) : error :=
  Errorf "Found duplicate Device with name %q" [FQuoted name].

End Fetch.

(** ** Renaming, updating and deleting many (the remaining writers of the
    two mappers) *)

Module Update.
Import Store.

(** The registered statements these writers run. *)
Inductive UpdateStmt : Type :=
| instanceRename
| instanceUpdate
| certificateDeleteByNameAndType
| certificateUpdate.

(** The engine for those statements, and the methods of [ClusterTx] that
    [UpdateInstance] calls for the child tables. *)
Class Writer (DB : Type) : Type := {
  ExecUpdate : DB -> UpdateStmt -> list value -> result (DB * Result);
  UpdateConfig : DB -> string -> Z -> gmap string string -> DB * option error;
  UpdateDevice : DB -> string -> Z -> gmap string Device -> DB * option error
}.

Section Mappers.
Context {DB : Type} `{Engine DB} `{ChildTables DB} `{Writer DB}.

(** [RenameInstance]. *)
Definition RenameInstance (db : DB) (project name to : string)
  : DB * option error :=
  match ExecUpdate db instanceRename [VStr to; VStr project; VStr name] with
  | inr err => (db, Some (Wrapf "Rename Instance failed: %w" [] err))
  | inl (db', res) =>
      match RowsAffected res with
      | inr err => (db', Some (Wrapf "Fetch affected rows failed: %w" [] err))
      | inl n =>
          if negb (Z.eqb n 1) then
            (db', Some (Errorf "Query affected %d rows instead of 1" [FInt n]))
          else (db', None)
      end
  end.

(** [UpdateInstance]. *)
Definition UpdateInstance (db : DB) (project name : string)
  (object : Instance) : DB * option error :=
  match GetInstanceID db project name with
  | inr err => (db, Some err)
  | inl id =>
      let args :=
        [ VStr (Project object); VStr (Name object); VStr (Node object);
          VInt (Type_ object); VInt (Architecture object);
          VBool (Ephemeral object); VInt (CreationDate object);
          VBool (Stateful object); VInt (LastUseDate object);
          VStr (Description object); VInt (ExpiryDate object); VInt id ] in
      match ExecUpdate db instanceUpdate args with
      | inr err =>
          (db, Some (Wrapf ("Update " ++ dq ++ "instances" ++ dq
                            ++ " entry failed: %w") [] err))
      | inl (db1, res) =>
          match RowsAffected res with
          | inr err => (db1, Some (Wrapf "Fetch affected rows: %w" [] err))
          | inl n =>
              if negb (Z.eqb n 1) then
                (db1, Some (Errorf "Query updated %d rows instead of 1"
                                   [FInt n]))
              else
                match UpdateConfig db1 "instance" id (Config_ object) with
                | (db2, Some err) =>
                    (db2, Some (Wrapf
                       "Replace Config for Instance failed: %w" [] err))
                | (db2, None) =>
                    match UpdateDevice db2 "instance" id (Devices object) with
                    | (db3, Some err) =>
                        (db3, Some (Wrapf
                           "Replace Devices for Instance failed: %w" [] err))
                    | (db3, None) =>
                        match UpdateInstanceProfiles db3 (set_ID object id)
                        with
                        | (db4, Some err) =>
                            (db4, Some (Wrapf
                               "Could not update association table: %w" []
                               err))
                        | (db4, None) => (db4, None)
                        end
                    end
                end
          end
      end
  end.

(** [DeleteCertificates]. *)
Definition DeleteCertificates (db : DB) (name : string) (certificateType : Z)
  : DB * option error :=
  match ExecUpdate db certificateDeleteByNameAndType
          [VStr name; VInt certificateType] with
  | inr err =>
      (db, Some (Wrapf ("Delete " ++ dq ++ "certificates" ++ dq ++ ": %w")
                       [] err))
  | inl (db', res) =>
      match RowsAffected res with
      | inr err => (db', Some (Wrapf "Fetch affected rows: %w" [] err))
      | inl _ => (db', None)
      end
  end.

(** [UpdateCertificate]. *)
Definition UpdateCertificate (db : DB) (fingerprint : string)
  (object : Certificate) : DB * option error :=
  match GetCertificateID db fingerprint with
  | inr err => (db, Some err)
  | inl id =>
      let args :=
        [ VStr (Fingerprint object); VInt (cert_Type object);
          VStr (cert_Name object); VStr (Certificate_ object);
          VBool (Restricted object); VInt id ] in
      match ExecUpdate db certificateUpdate args with
      | inr err =>
          (db, Some (Wrapf ("Update " ++ dq ++ "certificates" ++ dq
                            ++ " entry failed: %w") [] err))
      | inl (db1, res) =>
          match RowsAffected res with
          | inr err => (db1, Some (Wrapf "Fetch affected rows: %w" [] err))
          | inl n =>
              if negb (Z.eqb n 1) then
                (db1, Some (Errorf "Query updated %d rows instead of 1"
                                   [FInt n]))
              else (db1, None)
          end
      end
  end.

End Mappers.

End Update.

(** ** An in-memory reader and writer for the examples *)

Module MemFetch.
Import Store Fetch.

(** What the select and the child-table readers see: the joined instance
    rows, the certificates, and the child tables grouped by parent ID. *)
Record View : Type := {
  rows_instances : list Instance;
  rows_certificates : list Certificate;
  table_config : gmap Z (gmap string string);
  table_devices : gmap Z (list Device);
  table_profiles : gmap Z (list Z);
  profile_name : gmap Z string
}.

Definition instance_column_is (o : Instance) (f : Dispatch.InstanceField)
  (a : Dispatch.arg) : bool :=
  match f, a with
  | Dispatch.FID, Dispatch.ArgInt (Some v) => Z.eqb (ID o) v
  | Dispatch.FProject, Dispatch.ArgString (Some v) => String.eqb (Project o) v
  | Dispatch.FName, Dispatch.ArgString (Some v) => String.eqb (Name o) v
  | Dispatch.FNode, Dispatch.ArgString (Some v) => String.eqb (Node o) v
  | Dispatch.FType, Dispatch.ArgInt (Some v) => Z.eqb (Type_ o) v
  | _, _ => false
  end.

Definition certificate_column_is (c : Certificate)
  (f : Dispatch.CertificateField) (a : Dispatch.arg) : bool :=
  match f, a with
  | Dispatch.CFID, Dispatch.ArgInt (Some v) => Z.eqb (cert_ID c) v
  | Dispatch.CFFingerprint, Dispatch.ArgString (Some v) =>
      String.eqb (Fingerprint c) v
  | Dispatch.CFName, Dispatch.ArgString (Some v) => String.eqb (cert_Name c) v
  | Dispatch.CFType, Dispatch.ArgInt (Some v) => Z.eqb (cert_Type c) v
  | _, _ => false
  end.

(** The WHERE clause: each column against its placeholder. *)
Fixpoint where_holds {F : Type} (test : F -> Dispatch.arg -> bool)
  (fields : list F) (args : list Dispatch.arg) : bool :=
  match fields, args with
  | [], [] => true
  | f :: fields', a :: args' => test f a && where_holds test fields' args'
  | _, _ => false
  end.

Definition mem_SelectInstances (v : View) (stmt : Dispatch.InstanceStmt)
  (args : list Dispatch.arg) : result (list Instance) :=
  inl (List.filter
         (fun o => where_holds (instance_column_is o)
                     (Dispatch.instance_where stmt) args)
         (rows_instances v)).

Definition mem_SelectCertificates (v : View) (stmt : Dispatch.CertificateStmt)
  (args : list Dispatch.arg) : result (list Certificate) :=
  inl (List.filter
         (fun c => where_holds (certificate_column_is c)
                     (Dispatch.certificate_where stmt) args)
         (rows_certificates v)).

Definition mem_GetProfileURIs (v : View) (id : Z) : result (list string) :=
  match profile_name v !! id with
  | Some name => inl ["/1.0/profiles/" +:+ name]
  | None => inl []
  end.

Definition mem_urlsToResourceNames (prefix : string) (urls : list string)
  : result (list string) :=
  inl (map (fun u => GoStrings.TrimPrefix u ("/1.0" +:+ prefix +:+ "/")) urls).

Definition mem_instance_uri (project name : string) : string :=
  if String.eqb project "default" then "/1.0/instances/" +:+ name
  else "/1.0/instances/" +:+ name +:+ "?project=" +:+ project.

#[global] Instance mem_reader : Reader View :=
  {| SelectInstances := mem_SelectInstances;
     SelectCertificates := mem_SelectCertificates;
     GetConfig := fun v _ => inl (table_config v);
     GetDevices := fun v _ => inl (table_devices v);
     GetInstanceProfiles := fun v => inl (table_profiles v);
     GetProfileURIs := mem_GetProfileURIs;
     urlsToResourceNames := mem_urlsToResourceNames;
     instance_uri := mem_instance_uri |}.

Definition row (id : Z) (name : string) : Instance :=
  {| ID := id; Project := "default"; Name := name; Node := "node1";
     Type_ := 0; Architecture := 2; Ephemeral := false; CreationDate := 0;
     Stateful := false; LastUseDate := 0; Description := "";
     ExpiryDate := 0; Config_ := ∅; Devices := ∅; Profiles := [] |}.

Definition device (id ref : Z) (name : string) : Device :=
  {| dID := id; dReferenceID := ref; dName := name; dType := 1;
     dConfig := ∅ |}.

(** Two instances; c1 has a config key, two devices and one profile. *)
Definition two_instances : View :=
  {| rows_instances := [row 1 "c1"; row 2 "c2"];
     rows_certificates := [];
     table_config := {[ 1 := {[ "limits.cpu" := "2" ]} ]};
     table_devices := {[ 1 := [device 10 1 "eth0"; device 11 1 "root"] ]};
     table_profiles := {[ 1 := [7] ]};
     profile_name := {[ 7 := "default" ]} |}.

(** The same, with two devices named eth0 on c2. *)
Definition clashing_devices : View :=
  {| rows_instances := [row 1 "c1"; row 2 "c2"];
     rows_certificates := [];
     table_config := ∅;
     table_devices :=
       {[ 1 := [device 10 1 "eth0"];
          2 := [device 12 2 "eth0"; device 13 2 "eth0"] ]};
     table_profiles := ∅;
     profile_name := ∅ |}.

Definition all_instances : Dispatch.InstanceFilter :=
  {| Dispatch.ID := None; Dispatch.Project := None; Dispatch.Name := None;
     Dispatch.Node := None; Dispatch.Type_ := None |}.

Definition c1_hydrated : Instance :=
  {| ID := 1; Project := "default"; Name := "c1"; Node := "node1";
     Type_ := 0; Architecture := 2; Ephemeral := false; CreationDate := 0;
     Stateful := false; LastUseDate := 0; Description := "";
     ExpiryDate := 0; Config_ := {[ "limits.cpu" := "2" ]};
     Devices := {[ "eth0" := device 10 1 "eth0";
                   "root" := device 11 1 "root" ]};
     Profiles := ["default"] |}.

End MemFetch.

Module MemUpdate.
Import Store Update MemStore.

(** [UPDATE instances SET name = ? WHERE project_id = (SELECT ...) AND
    name = ?], and the other three statements over the rows in memory. *)
Definition mem_ExecUpdate (t : Tables) (s : UpdateStmt) (args : list value)
  : result (Tables * Result) :=
  match s, args with
  | instanceRename, [VStr to; VStr project; VStr name] =>
      let hit := filter (fun r => delete_hits t project name r = true)
                        (instances t) in
      done (with_instances t
              (map (fun r =>
                      if delete_hits t project name r
                      then {| r_id := r_id r; r_project_id := r_project_id r;
                              r_name := to; r_node_id := r_node_id r;
                              r_columns := r_columns r |}
                      else r)
                   (instances t))
              (next_id t))
           (next_id t - 1) (Z.of_nat (length hit))
  | instanceUpdate,
    [VStr project; VStr name; VStr node; c1; c2; c3; c4; c5; c6; c7; c8;
     VInt id] =>
      let hit := filter (fun r => Z.eqb (r_id r) id = true) (instances t) in
      done (with_instances t
              (map (fun r =>
                      if Z.eqb (r_id r) id
                      then {| r_id := id;
                              r_project_id := id_of_name (projects t) project;
                              r_name := name;
                              r_node_id := id_of_name (nodes t) node;
                              r_columns := [c1; c2; c3; c4; c5; c6; c7; c8] |}
                      else r)
                   (instances t))
              (next_id t))
           (next_id t - 1) (Z.of_nat (length hit))
  | certificateUpdate, [VStr fingerprint; c1; c2; c3; c4; VInt id] =>
      let hit := filter (fun c => Z.eqb (c_id c) id = true) (certificates t) in
      done (with_certificates t
              (map (fun c =>
                      if Z.eqb (c_id c) id
                      then {| c_id := id; c_fingerprint := fingerprint;
                              c_columns := [c1; c2; c3; c4] |}
                      else c)
                   (certificates t))
              (next_id t))
           (next_id t - 1) (Z.of_nat (length hit))
  | certificateDeleteByNameAndType, [VStr name; VInt type] =>
      let hits (c : CertificateRow) : bool :=
        match c_columns c with
        | VInt ty :: VStr n :: _ => Z.eqb ty type && String.eqb n name
        | _ => false
        end in
      done (with_certificates t
              (filter (fun c => hits c = false) (certificates t))
              (next_id t))
           (next_id t - 1)
           (Z.of_nat (length (filter (fun c => hits c = true)
                                     (certificates t))))
  | _, _ => inr bad_arguments
  end.

Definition mem_UpdateConfig (t : Tables) (parent : string) (id : Z)
  (config : gmap string string) : Tables * option error :=
  ({| projects := projects t; nodes := nodes t; instances := instances t;
      certificates := certificates t;
      instances_config :=
        filter (fun c => Z.eqb (ReferenceID c) id = false)
               (instances_config t)
        ++ map (fun kv => {| ReferenceID := id; Key := fst kv;
                             Value := snd kv |})
               (map_to_list config);
      instances_devices := instances_devices t;
      instances_profiles := instances_profiles t; next_id := next_id t |},
   None).

Definition mem_UpdateDevice (t : Tables) (parent : string) (id : Z)
  (devices : gmap string Device) : Tables * option error :=
  ({| projects := projects t; nodes := nodes t; instances := instances t;
      certificates := certificates t;
      instances_config := instances_config t;
      instances_devices :=
        filter (fun d => Z.eqb (dReferenceID d) id = false)
               (instances_devices t)
        ++ map (fun kv => set_dReferenceID (snd kv) id) (map_to_list devices);
      instances_profiles := instances_profiles t; next_id := next_id t |},
   None).

#[global] Instance mem_writer : Writer Tables :=
  {| ExecUpdate := mem_ExecUpdate;
     UpdateConfig := mem_UpdateConfig;
     UpdateDevice := mem_UpdateDevice |}.

End MemUpdate.

(** ** The devices mapper of package cluster *)

Module DevicesMapper.
Import GoStrings Store.

(** *** The string functions it uses *)

(** [strings.ReplaceAll s old new] for a non-empty [old]: the occurrences
    of [old] are found from the left and do not overlap. [skip] counts the
    bytes of an occurrence still to be dropped. *)
Fixpoint replace_go (old new s : string) (skip : nat) : string :=
  match s with
  | EmptyString => EmptyString
  | String c rest =>
      match skip with
      | S k => replace_go old new rest k
      | O =>
          if String.prefix old s then
            new +:+ replace_go old new rest (String.length old - 1)
          else String c (replace_go old new rest 0)
      end
  end.

Definition ReplaceAll (s old new : string) : string := replace_go old new s 0.

(** [strings.Count s substr] for a non-empty [substr]. *)
Fixpoint count_go (substr s : string) (skip : nat) : nat :=
  match s with
  | EmptyString => 0%nat
  | String c rest =>
      match skip with
      | S k => count_go substr rest k
      | O =>
          if String.prefix substr s then
            S (count_go substr rest (String.length substr - 1))
          else count_go substr rest 0
      end
  end.

Definition CountStr (s substr : string) : nat := count_go substr s 0.

(** [fmt.Sprintf format args...] for string arguments and a format whose
    only verb is [%s], with as many arguments as verbs. Any other format is
    outside the model: [None]. *)
Fixpoint Sprintf (format : string) (args : list string) : option string :=
  match format with
  | EmptyString =>
      match args with
      | [] => Some EmptyString
      | _ :: _ => None
      end
  | String c rest =>
      if Ascii.eqb c "%" then
        match rest with
        | String d rest' =>
            if Ascii.eqb d "s" then
              match args with
              | a :: args' =>
                  match Sprintf rest' args' with
                  | Some out => Some (a +:+ out)
                  | None => None
                  end
              | [] => None
              end
            else None
        | EmptyString => None
        end
      else
        match Sprintf rest args with
        | Some out => Some (String c out)
        | None => None
        end
  end.

(** [strings.SplitN s sep 2] for a non-empty [sep]: cut at the first
    occurrence. *)
Fixpoint cut_go (sep s : string) (before : string) : list string :=
  if String.prefix sep s then [before; slice_from (String.length sep) s]
  else
    match s with
    | EmptyString => [before]
    | String c rest => cut_go sep rest (before +:+ String c EmptyString)
    end.

Definition SplitN2 (s sep : string) : list string := cut_go sep s EmptyString.

(** [strings.Join]. *)
Definition Join (parts : list string) (sep : string) : string :=
  String.concat sep parts.

(** *** The statements *)

Definition deviceObjects : string :=
  "SELECT %s_devices.id, %s_devices.%s_id, %s_devices.name, %s_devices.type"
  +:+ nl +:+ "  FROM %s_devices"
  +:+ nl +:+ "  ORDER BY %s_devices.name".

Definition deviceCreate : string :=
  "INSERT INTO %s_devices (%s_id, name, type)"
  +:+ nl +:+ "  VALUES (?, ?, ?)".

Definition deviceDelete : string := "DELETE FROM %s_devices WHERE %s_id = ?".

(** What the three functions do to their statement: [%s_id] becomes the
    parent's ID column, and every [%s] left the mangled parent. *)
Definition statement_for (template parent : string) : option string :=
  let local := ReplaceAll template "%s_id" (parent +:+ "_id") in
  let mangledParent := ReplaceAll parent "_" "s_" +:+ "s" in
  Sprintf local (replicate (CountStr local "%s") mangledParent).

(** *** Filters *)

Record ConfigFilter : Type := {
  cfKey : option string;
  cfValue : option string
}.

Record DeviceFilter : Type := {
  fName : option string;
  fType : option Z;
  fConfig : option ConfigFilter
}.

Definition set_dConfig (d : Device) (c : gmap string string) : Device :=
  {| dID := dID d; dReferenceID := dReferenceID d; dName := dName d;
     dType := dType d; dConfig := c |}.

(** [query.Scan] with the destination function of [getDevicesRaw] (ID,
    reference ID, name and type of each row), [tx.ExecContext], and the
    config mapper of the package. *)
Class DeviceEngine (DB : Type) : Type := {
  Scan : DB -> string -> list Dispatch.arg -> result (list Device);
  ExecContext : DB -> string -> list value -> result (DB * Result);
  GetConfig :
    DB -> string -> list ConfigFilter -> result (gmap Z (gmap string string));
  CreateConfig : DB -> string -> Config -> DB * option error
}.

Definition fetch_failed (parent : string) (err : error) : error :=
  Wrapf ("Failed to fetch from " ++ dq ++ "%s_devices" ++ dq ++ " table: %w")
        [FStr parent] err.

(** The entries and the arguments one filter contributes. *)
Definition filter_entries (filter : DeviceFilter)
  : list string * list Dispatch.arg :=
  let '(entries, args) :=
    match fName filter with
    | Some _ => (["name = ?"], [Dispatch.ArgString (fName filter)])
    | None => ([], [])
    end in
  match fType filter with
  | Some _ => (entries ++ ["type = ?"], args ++ [Dispatch.ArgInt (fType filter)])
  | None => (entries, args)
  end.

(** The loop over the filters: [head] is [queryParts[0]], [i] the index. *)
Fixpoint where_loop (i : nat) (filters : list DeviceFilter) (head : string)
  (args : list Dispatch.arg)
  : option (result (string * list Dispatch.arg)) :=
  match filters with
  | [] => Some (inl (head, args))
  | filter :: rest =>
      let cond := if Nat.eqb i 0 then " WHERE ( %s )" else " OR ( %s )" in
      let '(entries, more) := filter_entries filter in
      if Nat.eqb (length entries) 0 then
        Some (inr (Errorf "Cannot filter on empty DeviceFilter" []))
      else
        match Sprintf cond [Join entries " AND "] with
        | None => None
        | Some clause =>
            where_loop (S i) rest (head +:+ clause) (args ++ more)
        end
  end.

(** The query text and the arguments [GetDevices] hands to
    [getDevicesRaw]. *)
Definition GetDevices_query (parent : string) (filters : list DeviceFilter)
  : option (result (string * list Dispatch.arg)) :=
  match statement_for deviceObjects parent with
  | None => None
  | Some queryStr =>
      let queryParts := SplitN2 queryStr "ORDER BY" in
      match where_loop 0 filters (hd "" queryParts) [] with
      | None => None
      | Some (inr err) => Some (inr err)
      | Some (inl (head, args)) =>
          Some (inl (Join (head :: tl queryParts) " ORDER BY", args))
      end
  end.

(** The loop that collects the config filters. *)
Fixpoint config_filters (filters : list DeviceFilter)
  (acc : list ConfigFilter) : result (list ConfigFilter) :=
  match filters with
  | [] => inl acc
  | f :: rest =>
      match fConfig f with
      | None => config_filters rest acc
      | Some filter =>
          match cfKey filter, cfValue filter with
          | None, None =>
              inr (Errorf "Cannot filter on empty ConfigFilter" [])
          | _, _ => config_filters rest (acc ++ [filter])
          end
      end
  end.

Definition fill_config (config : gmap Z (gmap string string)) (d : Device)
  : Device :=
  match config !! dID d with
  | None => set_dConfig d ∅
  | Some c => set_dConfig d c
  end.

(** The last loop: the devices under the ID they refer to, in their
    order. *)
Fixpoint group_by_reference (objects : list Device)
  (resultMap : gmap Z (list Device)) : gmap Z (list Device) :=
  match objects with
  | [] => resultMap
  | object :: rest =>
      group_by_reference rest
        (<[dReferenceID object :=
             default [] (resultMap !! dReferenceID object) ++ [object]]>
           resultMap)
  end.

Section Mapper.
Context {DB : Type} `{DeviceEngine DB}.

(** [getDevicesRaw]. *)
Definition getDevicesRaw (db : DB) (sql parent : string)
  (args : list Dispatch.arg) : result (list Device) :=
  match Scan db sql args with
  | inr err => inr (fetch_failed parent err)
  | inl objects => inl objects
  end.

(** [GetDevices]. *)
Definition GetDevices (db : DB) (parent : string)
  (filters : list DeviceFilter) : option (result (gmap Z (list Device))) :=
  match GetDevices_query parent filters with
  | None => None
  | Some (inr err) => Some (inr err)
  | Some (inl (queryStr, args)) =>
      Some
        match getDevicesRaw db queryStr parent args with
        | inr err => inr (fetch_failed parent err)
        | inl objects =>
            match config_filters filters [] with
            | inr err => inr err
            | inl configFilters =>
                match GetConfig db (parent +:+ "_device") configFilters with
                | inr err => inr err
                | inl config =>
                    inl (group_by_reference (map (fill_config config) objects)
                           ∅)
                end
            end
        end
  end.

(** The inner loop of [CreateDevices], over the config of one device. *)
Fixpoint insert_configs (db : DB) (parent : string) (referenceID : Z)
  (kvs : list (string * string)) : DB * option error :=
  match kvs with
  | [] => (db, None)
  | (key, value) :: rest =>
      let insert :=
        {| ReferenceID := referenceID; Key := key; Value := value |} in
      match CreateConfig db (parent +:+ "_device") insert with
      | (db', Some err) =>
          (db', Some (Wrapf "Insert Config failed for Device: %w" [] err))
      | (db', None) => insert_configs db' parent referenceID rest
      end
  end.

(** Its outer loop. Go ranges over the map in an unspecified order, the
    model takes the order of the list it is given. *)
Fixpoint insert_devices (db : DB) (parent queryStr : string)
  (objects : list (string * Device)) : DB * option error :=
  match objects with
  | [] => (db, None)
  | (_, object) :: rest =>
      match ExecContext db queryStr
              [VInt (dReferenceID object); VStr (dName object);
               VInt (dType object)] with
      | inr err =>
          (db, Some (Wrapf ("Insert failed for " ++ dq ++ "%s_devices" ++ dq
                            ++ " table: %w") [FStr parent] err))
      | inl (db1, res) =>
          match LastInsertId res with
          | inr err => (db1, Some (Wrapf "Failed to fetch ID: %w" [] err))
          | inl id =>
              match insert_configs db1 parent id
                      (map_to_list (dConfig object)) with
              | (db2, Some err) => (db2, Some err)
              | (db2, None) => insert_devices db2 parent queryStr rest
              end
          end
      end
  end.

(** [CreateDevices]. *)
Definition CreateDevices (db : DB) (parent : string)
  (objects : gmap string Device) : option (DB * option error) :=
  match statement_for deviceCreate parent with
  | None => None
  | Some queryStr =>
      Some (insert_devices db parent queryStr (map_to_list objects))
  end.

(** [DeleteDevices]. *)
Definition DeleteDevices (db : DB) (parent : string) (referenceID : Z)
  : option (DB * option error) :=
  match statement_for deviceDelete parent with
  | None => None
  | Some queryStr =>
      Some
        match ExecContext db queryStr [VInt referenceID] with
        | inr err =>
            (db, Some (Wrapf ("Delete entry for " ++ dq ++ "%s_device" ++ dq
                              ++ " failed: %w") [FStr parent] err))
        | inl (db', res) =>
            match RowsAffected res with
            | inr err => (db', Some (Wrapf "Fetch affected rows: %w" [] err))
            | inl _ => (db', None)
            end
        end
  end.

(** [UpdateDevices]. *)
Definition UpdateDevices (db : DB) (parent : string) (referenceID : Z)
  (devices : gmap string Device) : option (DB * option error) :=
  match DeleteDevices db parent referenceID with
  | None => None
  | Some (db', Some err) => Some (db', Some err)
  | Some (db', None) =>
      CreateDevices db' parent
        ((fun object => set_dReferenceID object referenceID) <$> devices)
  end.

End Mapper.

(** *** The vocabulary of the properties *)

(** The filter names neither a device name nor a type. *)
Definition empty_filter (f : DeviceFilter) : Prop :=
  fName f = None /\ fType f = None.

(** The devices of the list that refer to [ref]. *)
Definition referring_to (ref : Z) (objects : list Device) : list Device :=
  List.filter (fun o => Z.eqb (dReferenceID o) ref) objects.

End DevicesMapper.

(** ** Device rows in memory *)

Module MemDevices.
Import Store DevicesMapper.

(** An engine that holds the answer to one select: the device rows in the
    order of the query, and the config rows by device ID. Its writes count
    the statements run. *)
Record DeviceRows : Type := {
  device_rows : list Device;
  device_config : gmap Z (gmap string string);
  executed : Z
}.

Definition mem_ExecContext (db : DeviceRows) (sql : string)
  (args : list value) : result (DeviceRows * Result) :=
  inl ({| device_rows := device_rows db; device_config := device_config db;
          executed := executed db + 1 |},
       {| LastInsertId := inl (executed db + 1); RowsAffected := inl 1 |}).

#[global] Instance mem_devices : DeviceEngine DeviceRows :=
  {| Scan := fun db _ _ => inl (device_rows db);
     ExecContext := mem_ExecContext;
     GetConfig := fun db _ _ => inl (device_config db);
     CreateConfig := fun db _ _ => (db, None) |}.

Definition bare (id ref : Z) (name : string) : Device :=
  {| dID := id; dReferenceID := ref; dName := name; dType := 1;
     dConfig := ∅ |}.

(** Three devices of two instances, in the order of their names; the
    second one has a config row. *)
Definition three_devices : DeviceRows :=
  {| device_rows := [bare 10 1 "eth0"; bare 12 2 "eth0"; bare 11 1 "root"];
     device_config := {[ 12 := {[ "nictype" := "bridged" ]} ]};
     executed := 0 |}.

Definition by_name_and_type : DeviceFilter :=
  {| fName := Some "eth0"; fType := Some 1; fConfig := None |}.

Definition by_type : DeviceFilter :=
  {| fName := None; fType := Some 2; fConfig := None |}.

(** A filter that only constrains the config. *)
Definition by_config_only : DeviceFilter :=
  {| fName := None; fType := None;
     fConfig := Some {| cfKey := Some "nictype"; cfValue := None |} |}.

Definition three_devices_grouped : gmap Z (list Device) :=
  {[ 1 := [bare 10 1 "eth0"; bare 11 1 "root"];
     2 := [set_dConfig (bare 12 2 "eth0") {[ "nictype" := "bridged" ]}] ]}.

End MemDevices.

(** * Properties *)

(** ** Entity filter dispatch *)

Module DispatchSpec.
Import Dispatch.

(** The boolean test [instance_exact] says that the WHERE columns of the
    statement and the present fields of the filter are the same set. *)
Lemma instance_exact_iff (filter : InstanceFilter) (s : InstanceStmt) :
  instance_exact filter s = true <->
  forall f : InstanceField,
    f ∈ instance_where s <-> instance_present filter f = true.
Proof.
  unfold instance_exact, instance_fields. rewrite forallb_forall. split.
  - intros H f. specialize (H f).
    assert (Hin : In f [FID; FProject; FName; FNode; FType])
      by (destruct f; simpl; tauto).
    specialize (H Hin). apply Bool.eqb_prop in H.
    rewrite <- H. symmetry. apply bool_decide_eq_true.
  - intros H f _. specialize (H f).
    destruct (instance_present filter f) eqn:Hp.
    + rewrite bool_decide_eq_true_2; [reflexivity | tauto].
    + rewrite bool_decide_eq_false_2; [reflexivity |].
      intros Hin. apply H in Hin. discriminate.
Qed.

Lemma certificate_exact_iff (filter : CertificateFilter) (s : CertificateStmt) :
  certificate_exact filter s = true <->
  forall f : CertificateField,
    f ∈ certificate_where s <-> certificate_present filter f = true.
Proof.
  unfold certificate_exact, certificate_fields. rewrite forallb_forall. split.
  - intros H f. specialize (H f).
    assert (Hin : In f [CFID; CFFingerprint; CFName; CFType])
      by (destruct f; simpl; tauto).
    specialize (H Hin). apply Bool.eqb_prop in H.
    rewrite <- H. symmetry. apply bool_decide_eq_true.
  - intros H f _. specialize (H f).
    destruct (certificate_present filter f) eqn:Hp.
    + rewrite bool_decide_eq_true_2; [reflexivity | tauto].
    + rewrite bool_decide_eq_false_2; [reflexivity |].
      intros Hin. apply H in Hin. discriminate.
Qed.

Ltac exact_hit s :=
  left; exists s; split; [reflexivity | split];
  [ apply instance_exact_iff; reflexivity
  | let s' := fresh "s'" in let H := fresh "H" in
    intros s' H; apply instance_exact_iff in H;
    destruct s'; first [reflexivity | discriminate H] ].

Ltac exact_miss :=
  right; split; [reflexivity |];
  let s := fresh "s" in let H := fresh "H" in
  intros s H; apply instance_exact_iff in H; destruct s; discriminate H.

Lemma GetInstances_dispatch (filter : InstanceFilter) :
  instance_dispatch_ok filter.
Proof.
  destruct filter as [[i|] [p|] [n|] [o|] [t|]]; unfold instance_dispatch_ok.
  all: first
      [ exact_miss
      | exact_hit instanceObjects
      | exact_hit instanceObjectsByID
      | exact_hit instanceObjectsByProject
      | exact_hit instanceObjectsByProjectAndType
      | exact_hit instanceObjectsByProjectAndTypeAndNode
      | exact_hit instanceObjectsByProjectAndTypeAndNodeAndName
      | exact_hit instanceObjectsByProjectAndTypeAndName
      | exact_hit instanceObjectsByProjectAndName
      | exact_hit instanceObjectsByProjectAndNameAndNode
      | exact_hit instanceObjectsByProjectAndNode
      | exact_hit instanceObjectsByType
      | exact_hit instanceObjectsByTypeAndName
      | exact_hit instanceObjectsByTypeAndNameAndNode
      | exact_hit instanceObjectsByTypeAndNode
      | exact_hit instanceObjectsByNode
      | exact_hit instanceObjectsByNodeAndName
      | exact_hit instanceObjectsByName ].
Qed.

Ltac cert_hit s :=
  left; exists s; split; [reflexivity | split];
  [ apply certificate_exact_iff; reflexivity
  | let s' := fresh "s'" in let H := fresh "H" in
    intros s' H; apply certificate_exact_iff in H;
    destruct s'; first [reflexivity | discriminate H] ].

Lemma GetCertificates_dispatch (filter : CertificateFilter) :
  certificate_dispatch_ok filter.
Proof.
  destruct filter as [[i|] [p|] [n|] [t|]]; unfold certificate_dispatch_ok.
  all: first
      [ right; split; [reflexivity |];
        intros s H; apply certificate_exact_iff in H; destruct s;
        discriminate H
      | cert_hit certificateObjects
      | cert_hit certificateObjectsByID
      | cert_hit certificateObjectsByFingerprint ].
Qed.

(** C1. For every instance filter GetInstances selects the one registered
    statement whose required fields are exactly the present filter fields and
    binds their values in the statement's declared order, or fails with
    [No statement exists for the given Filter] when no registered statement
    has exactly those fields; the filter with every field absent selects the
    unfiltered statement. The same holds for GetCertificates. *)
Theorem filter_dispatch_exact :
  (forall filter : InstanceFilter, instance_dispatch_ok filter)
  /\ GetInstances_stmt
       {| ID := None; Project := None; Name := None; Node := None;
          Type_ := None |} = inl (instanceObjects, [])
  /\ (forall filter : CertificateFilter, certificate_dispatch_ok filter)
  /\ GetCertificates_stmt
       {| cID := None; cFingerprint := None; cName := None; cType := None |}
     = inl (certificateObjects, []).
Proof.
  split; [exact GetInstances_dispatch |].
  split; [reflexivity |].
  split; [exact GetCertificates_dispatch | reflexivity].
Qed.

End DispatchSpec.

(** ** Create and Delete of the generated mappers *)

Module StoreSpec.
Import Store.

Section Generic.
Context {DB : Type} `{Engine DB} `{ChildTables DB}.

Lemma InstanceExists_of_id (db : DB) (project name : string) (id : Z) :
  GetInstanceID db project name = inl id ->
  InstanceExists db project name = inl true.
Proof. intros Hid. unfold InstanceExists. rewrite Hid. reflexivity. Qed.

Lemma CertificateExists_of_id (db : DB) (fingerprint : string) (id : Z) :
  GetCertificateID db fingerprint = inl id ->
  CertificateExists db fingerprint = inl true.
Proof. intros Hid. unfold CertificateExists. rewrite Hid. reflexivity. Qed.

(** A failed ID lookup never lets [CreateInstance] reach its INSERT: whatever
    the lookup answers other than [ErrNoSuchObject], the state is returned as
    it was received. *)
Lemma CreateInstance_no_insert_unless_absent (db : DB) (object : Instance) :
  GetInstanceID db (Project object) (Name object) <> inr ErrNoSuchObject ->
  fst (CreateInstance db object) = db
  /\ exists err, snd (CreateInstance db object) = inr err.
Proof.
  intros Hne. unfold CreateInstance, InstanceExists.
  destruct (GetInstanceID db (Project object) (Name object)) as [id | err].
  - simpl. eauto.
  - destruct err; try (simpl; eauto). congruence.
Qed.

(** [DeleteInstance] by the number of rows the DELETE reports. *)
Lemma DeleteInstance_by_rows (db db' : DB) (project name : string)
  (res : Result) (n : Z) :
  Exec db instanceDeleteByProjectAndName [VStr project; VStr name]
    = inl (db', res) ->
  RowsAffected res = inl n ->
  DeleteInstance db project name
  = (db', if Z.eqb n 1 then None
          else Some (Errorf "Query deleted %d rows instead of 1" [FInt n])).
Proof.
  intros He Hn. unfold DeleteInstance. rewrite He, Hn.
  destruct (Z.eqb n 1); reflexivity.
Qed.

(** [DeleteCertificate] by the number of rows the DELETE reports. *)
Lemma DeleteCertificate_by_rows (db db' : DB) (fingerprint : string)
  (res : Result) (n : Z) :
  Exec db certificateDeleteByFingerprint [VStr fingerprint] = inl (db', res) ->
  RowsAffected res = inl n ->
  (n = 1 -> DeleteCertificate db fingerprint = (db', None))
  /\ (n = 0 ->
      DeleteCertificate db fingerprint = (db', Some certificate_not_found)).
Proof.
  intros He Hn. unfold DeleteCertificate. rewrite He, Hn.
  split; intros ->; reflexivity.
Qed.

(** C8, on the code: creating a key that already resolves to a row. Both
    CreateInstance and CreateCertificate fail on their existence check and
    hand back the state they received: no parent, config, device or
    association row is written. But the error of CreateInstance is the
    untyped [fmt.Errorf] with the already-exists message, which does not
    pass the Conflict status check; CreateCertificate answers the same
    situation with the 409 status error, which does. *)
Theorem create_existing_key_fails_unchanged (db : DB) :
  (forall (object : Instance) (id : Z),
      GetInstanceID db (Project object) (Name object) = inl id ->
      CreateInstance db object = (db, inr instance_exists_error)
      /\ StatusErrorCheck instance_exists_error StatusConflict = false)
  /\ (forall (object : Certificate) (id : Z),
        GetCertificateID db (Fingerprint object) = inl id ->
        CreateCertificate db object = (db, inr certificate_conflict)
        /\ StatusErrorCheck certificate_conflict StatusConflict = true).
Proof.
  split.
  - intros object id Hid. split; [| reflexivity]. unfold CreateInstance.
    rewrite (InstanceExists_of_id _ _ _ _ Hid). reflexivity.
  - intros object id Hid. split; [| reflexivity].
    unfold CreateCertificate.
    rewrite (CertificateExists_of_id _ _ _ Hid). reflexivity.
Qed.

End Generic.

(** *** On the in-memory engine *)

Import MemStore.

(** The first Create of a key succeeds and writes the parent row, the config
    row and the association row. *)
Example first_create_instance :
  exists t1,
    CreateInstance empty_cluster sample_instance = (t1, inl 1)
    /\ length (instances t1) = 1%nat
    /\ length (instances_config t1) = 1%nat
    /\ instances_profiles t1 = [(1, "default")].
Proof. eexists. split; [vm_compute; reflexivity |]. vm_compute. auto. Qed.

(** The second Create of the same key fails and leaves the state of the
    first. *)
Example second_create_instance :
  CreateInstance after_first_create sample_instance
  = (after_first_create, inr instance_exists_error).
Proof. vm_compute. reflexivity. Qed.

Example second_create_certificate :
  CreateCertificate after_first_certificate sample_certificate
  = (after_first_certificate, inr certificate_conflict).
Proof. vm_compute. reflexivity. Qed.

Lemma create_existing_key_witness :
  (CreateInstance after_first_create sample_instance
   = (after_first_create, inr instance_exists_error)
   /\ StatusErrorCheck instance_exists_error StatusConflict = false)
  /\ (CreateCertificate after_first_certificate sample_certificate
      = (after_first_certificate, inr certificate_conflict)
      /\ StatusErrorCheck certificate_conflict StatusConflict = true).
Proof.
  split.
  - apply (proj1 (create_existing_key_fails_unchanged after_first_create)
             sample_instance 1).
    vm_compute. reflexivity.
  - apply (proj2 (create_existing_key_fails_unchanged after_first_certificate)
             sample_certificate 1).
    vm_compute. reflexivity.
Defined.

(** C4, on the code: deleting an instance key that matches no row. The DELETE
    affects zero rows and DeleteInstance answers with the untyped error it
    uses for every count other than one, which no caller can recognise as
    Not-Found; DeleteCertificate answers the same situation with the 404
    status error. *)
Theorem DeleteInstance_zero_rows_untyped :
  DeleteInstance empty_cluster "default" "c1"
  = (empty_cluster,
     Some (Errorf "Query deleted %d rows instead of 1" [FInt 0]))
  /\ StatusErrorCheck (Errorf "Query deleted %d rows instead of 1" [FInt 0])
       StatusNotFound = false
  /\ DeleteCertificate empty_cluster "abcd"
     = (empty_cluster, Some certificate_not_found)
  /\ StatusErrorCheck certificate_not_found StatusNotFound = true.
Proof. vm_compute. auto. Qed.

(** With exactly one matching row both deletes succeed and the row is gone. *)
Example delete_one_row :
  DeleteInstance after_first_create "default" "c1"
  = (with_instances after_first_create [] 2, None)
  /\ DeleteCertificate after_first_certificate "abcd"
     = (with_certificates after_first_certificate [] 2, None).
Proof. vm_compute. auto. Qed.

End StoreSpec.

(** ** Warning upsert *)

Module WarningsSpec.
Import Warnings.

Section Facts.
Context `{WarningEnv} `{Driver}.

Lemma filter_uuid_nonempty (w : Warning) (l : list Warning) :
  In w l ->
  Z.eqb (Z.of_nat (length (List.filter
                             (fun r => String.eqb (UUID r) (UUID w)) l))) 0
  = false.
Proof.
  intros Hin.
  assert (Hf : In w (List.filter (fun r => String.eqb (UUID r) (UUID w)) l)).
  { apply filter_In. split; [exact Hin | apply String.eqb_refl]. }
  destruct (List.filter (fun r => String.eqb (UUID r) (UUID w)) l).
  - destruct Hf.
  - reflexivity.
Qed.

Lemma existsb_member (x : string) (l : list string) :
  In x l -> existsb (String.eqb x) l = true.
Proof.
  intros Hin. apply existsb_exists. exists x. split; [exact Hin |].
  apply String.eqb_refl.
Qed.

Lemma uuid_unused (uuid : string) (l : list Warning) :
  (forall w, In w l -> UUID w <> uuid) ->
  existsb (fun w => String.eqb (UUID w) uuid) l = false.
Proof.
  intros Hfree. apply not_true_is_false. intros Hex.
  apply existsb_exists in Hex. destruct Hex as [w [Hin Heq]].
  apply String.eqb_eq in Heq. exact (Hfree w Hin Heq).
Qed.

(** [createWarning] inserts when the UUID is free, the member and the
    project it names exist, and the driver carries out the INSERT. *)
Lemma createWarning_inserts (st : State) (object : Warning) :
  (forall w, In w (warnings st) -> UUID w <> UUID object) ->
  (Node object = "" \/ In (Node object) (nodes st)) ->
  (Project object = "" \/ In (Project object) (projects st)) ->
  insert_runs st (fst (exec_create st object)) ->
  createWarning st object
  = (fst (exec_create st object), inl (next_id st)).
Proof.
  intros Hfree Hnode Hproject [Hstmt [Hexec Hid]].
  unfold createWarning, WarningExists.
  rewrite (uuid_unused _ _ Hfree).
  assert (Hn : (if negb (String.eqb (Node object) "") then
                  match GetNodeByName st (Node object) with
                  | inr err => Some (Wrapf "Failed to get node: %w" [] err)
                  | inl _ => None
                  end
                else None) = None).
  { destruct Hnode as [-> | Hin]; [reflexivity |].
    unfold GetNodeByName. rewrite (existsb_member _ _ Hin).
    destruct (negb (String.eqb (Node object) "")); reflexivity. }
  rewrite Hn.
  assert (Hp : (if negb (String.eqb (Project object) "") then
                  match GetProjectNames st with
                  | inr err =>
                      Some (Wrapf "Failed to get project names: %w" [] err)
                  | inl projects =>
                      if existsb (String.eqb (Project object)) projects
                      then None
                      else Some (Errorf "Unknown project %q"
                                        [FQuoted (Project object)])
                  end
                else None) = None).
  { destruct Hproject as [-> | Hin]; [reflexivity |].
    unfold GetProjectNames. rewrite (existsb_member _ _ Hin).
    destruct (negb (String.eqb (Project object) "")); reflexivity. }
  rewrite Hp, Hstmt. unfold Exec_create. rewrite Hexec.
  cbn [exec_create sql_result Store.LastInsertId fst] in *.
  rewrite Hid. reflexivity.
Qed.

(** [UpdateWarningState] on a UUID some record has, when the driver carries
    out the UPDATE. *)
Lemma UpdateWarningState_runs (st : State) (now : Z) (message : string)
  (status : Z) (w : Warning) :
  In w (warnings st) ->
  update_runs st (fst (exec_update_state st message now status (UUID w)))
    warningUpdateState ->
  UpdateWarningState st now (UUID w) message status
  = (fst (exec_update_state st message now status (UUID w)), None).
Proof.
  intros Hin [Hexec Hrows]. unfold UpdateWarningState, Exec_update_state.
  rewrite Hexec.
  cbn [exec_update_state sql_result Store.RowsAffected fst] in *.
  rewrite Hrows, (filter_uuid_nonempty w _ Hin). reflexivity.
Qed.

(** C5. An upsert of a known type code whose entity, if any, validates:
    - with exactly one record on its tuple, when the driver carries out the
      UPDATE, that record (every row with its UUID) gets status New if it
      was Resolved and keeps its status otherwise, the new message, the new
      last-seen time and a count one higher, and no other row changes;
    - with no record on its tuple, a free UUID, an existing member and an
      existing project, when the driver carries out the INSERT, one record
      is appended with status New and count 1;
    - with more than one record on its tuple, the call fails and the state
      is the one it received. *)
Theorem upsert_by_match_count (st : State) (now now' : Z) (uuid : string)
  (nodeName projectName entityType : string) (entityID typeCode : Z)
  (message : string) :
  TypeNames typeCode <> None ->
  (entityType = "" \/ exists url, GetEntityURL st entityType entityID = inl url) ->
  let found := on_tuple st nodeName projectName entityType entityID typeCode in
  let run := UpsertWarning st now now' uuid nodeName projectName entityType
               entityID typeCode message in
  (forall w, found = [w] ->
     update_runs st
       (with_warnings st
          (map (fun r => if String.eqb (UUID r) (UUID w)
                         then set_state message now' (reactivated w) r
                         else r)
               (warnings st))
          (next_id st))
       warningUpdateState ->
     In w (warnings st)
     /\ run = (with_warnings st
                 (map (fun r => if String.eqb (UUID r) (UUID w)
                                then set_state message now' (reactivated w) r
                                else r)
                      (warnings st))
                 (next_id st), None)
     /\ Status (set_state message now' (reactivated w) w)
        = (if Z.eqb (Status w) StatusResolved then StatusNew else Status w)
     /\ LastMessage (set_state message now' (reactivated w) w) = message
     /\ LastSeenDate (set_state message now' (reactivated w) w) = now'
     /\ Count (set_state message now' (reactivated w) w) = Count w + 1)
  /\ (found = [] ->
      (forall w, In w (warnings st) -> UUID w <> uuid) ->
      (nodeName = "" \/ In nodeName (nodes st)) ->
      (projectName = "" \/ In projectName (projects st)) ->
      insert_runs st
        (with_warnings st
           (warnings st
            ++ [fresh_warning st now uuid nodeName projectName entityType
                  entityID typeCode message])
           (next_id st + 1)) ->
      run = (with_warnings st
               (warnings st
                ++ [fresh_warning st now uuid nodeName projectName entityType
                      entityID typeCode message])
               (next_id st + 1), None)
      /\ Status (fresh_warning st now uuid nodeName projectName entityType
                   entityID typeCode message) = StatusNew
      /\ Count (fresh_warning st now uuid nodeName projectName entityType
                  entityID typeCode message) = 1)
  /\ ((2 <= length found)%nat ->
      run = (st, Some (Errorf
               "More than one warnings (%d) match the criteria: typeCode: %d, nodeName: %q, projectName: %q, entityType: %q, entityID: %d"
               [FInt (Z.of_nat (length found)); FInt typeCode;
                FQuoted nodeName; FQuoted projectName; FQuoted entityType;
                FInt entityID]))).
Proof.
  intros Hknown Hentity found run.
  assert (Hrun :
    run = match found with
          | [] =>
              match createWarning st
                      {| ID := 0; Node := nodeName; Project := projectName;
                         EntityType := entityType; EntityID := entityID;
                         UUID := uuid; TypeCode := typeCode;
                         Status := StatusNew; FirstSeenDate := now;
                         LastSeenDate := now; UpdatedDate := 0;
                         LastMessage := message; Count := 1 |} with
              | (st', inr err) => (st', Some err)
              | (st', inl _) => (st', None)
              end
          | [w] => UpdateWarningState st now' (UUID w) message (reactivated w)
          | ws =>
              (st, Some (Errorf
                 "More than one warnings (%d) match the criteria: typeCode: %d, nodeName: %q, projectName: %q, entityType: %q, entityID: %d"
                 [FInt (Z.of_nat (length ws)); FInt typeCode;
                  FQuoted nodeName; FQuoted projectName; FQuoted entityType;
                  FInt entityID]))
          end).
  { subst run found. unfold UpsertWarning, on_tuple, GetWarnings.
    destruct (TypeNames typeCode) as [tn |]; [| congruence].
    destruct Hentity as [-> | [url Hurl]].
    - reflexivity.
    - rewrite Hurl. destruct (negb (String.eqb entityType "")); reflexivity. }
  split; [| split].
  - intros w Hw Hdriver.
    assert (Hin : In w (warnings st)).
    { assert (Hf : In w found) by (rewrite Hw; left; reflexivity).
      unfold found, on_tuple in Hf. apply filter_In in Hf. tauto. }
    split; [exact Hin |]. split; [| repeat split].
    rewrite Hrun, Hw.
    rewrite (UpdateWarningState_runs st now' message (reactivated w) w Hin);
      [reflexivity | exact Hdriver].
  - intros Hnone Hfree Hnode Hproject Hdriver.
    split; [| split; reflexivity].
    rewrite Hrun, Hnone.
    rewrite createWarning_inserts; [reflexivity | exact Hfree | exact Hnode
                                   | exact Hproject | exact Hdriver].
  - intros Hmany. rewrite Hrun.
    destruct found as [| w1 [| w2 ws]]; simpl in Hmany; try lia.
    reflexivity.
Qed.

End Facts.

(** *** On the sample cluster *)

Import WarningsSample.

(** Reactivation on the sample: Resolved goes back to New, the count goes
    from 4 to 5. *)
Example upsert_reactivates :
  UpsertWarning sample_state 30 31 "u-2" "node1" "default" "" (-1) 7 "again"
  = ({| warnings :=
          [ {| ID := 1; Node := "node1"; Project := "default";
               EntityType := ""; EntityID := -1; UUID := "u-1";
               TypeCode := 7; Status := 1; FirstSeenDate := 10;
               LastSeenDate := 31; UpdatedDate := 31;
               LastMessage := "again"; Count := 5 |} ];
        nodes := ["node1"]; projects := ["default"]; next_id := 2 |}, None).
Proof. vm_compute. reflexivity. Qed.

Lemma upsert_by_match_count_witness :
  In resolved_warning (warnings sample_state)
  /\ Count (set_state "again" 31 (reactivated resolved_warning)
              resolved_warning) = 5.
Proof.
  assert (Hknown : TypeNames 7 <> None) by (vm_compute; discriminate).
  assert (Hentity :
    @eq string "" "" \/
    exists url, GetEntityURL sample_state "" (-1) = inl url)
    by (left; reflexivity).
  pose proof (proj1 (upsert_by_match_count sample_state 30 31 "u-2" "node1"
                       "default" "" (-1) 7 "again" Hknown Hentity)
                resolved_warning eq_refl (conj eq_refl eq_refl)) as Hone.
  split; [apply Hone |]. vm_compute. reflexivity.
Defined.

End WarningsSpec.

(** ** dnsmasq static entries *)

Module DnsmasqSpec.
Import GoStrings Dnsmasq.

Lemma append_nil_r (s : string) : s +:+ "" = s.
Proof.
  induction s as [| c s IH]; [reflexivity |].
  change (String c (s +:+ "") = String c s). now rewrite IH.
Qed.

Lemma append_assoc (s t u : string) : (s +:+ t) +:+ u = s +:+ (t +:+ u).
Proof.
  induction s as [| c s IH]; [reflexivity |].
  change (String c ((s +:+ t) +:+ u) = String c (s +:+ (t +:+ u))).
  now rewrite IH.
Qed.

(** Appending something that starts with a byte changes the string. *)
Lemma append_cons_neq (s : string) (c : ascii) (t : string) :
  String.eqb (s +:+ String c t) s = false.
Proof.
  apply String.eqb_neq. intros Heq.
  rewrite <- (append_nil_r s) in Heq at 2.
  apply (inj (String.append s)) in Heq. discriminate Heq.
Qed.

Section Entry.
Context {FS : Type} `{Host FS}.

Lemma UpdateStaticEntry_unfold (fs : FS)
  (network projectName instanceName deviceName : string)
  (netConfig : gmap string string) (hwaddr ipv4Address ipv6Address : string) :
  UpdateStaticEntry fs network projectName instanceName deviceName netConfig
    hwaddr ipv4Address ipv6Address
  = if String.eqb
         (after_mac netConfig projectName instanceName ipv4Address ipv6Address)
         ""
    then (fs, None)
    else WriteFile fs
           (hosts_file network projectName instanceName deviceName)
           (ToLower hwaddr
            +:+ after_mac netConfig projectName instanceName ipv4Address
                  ipv6Address
            +:+ nl) 420.
Proof.
  unfold UpdateStaticEntry, after_mac, hosts_file, dns_managed.
  destruct (String.eqb ipv4Address "") eqn:E4;
    destruct (String.eqb ipv6Address "") eqn:E6;
    destruct (String.eqb (get netConfig "dns.mode") ""
              || String.eqb (get netConfig "dns.mode") "managed")%bool eqn:Ed;
    cbn [negb];
    repeat rewrite append_assoc;
    change ("" +:+ ?x) with x;
    change ("," +:+ ?x) with (String "," x);
    change (",[" +:+ ?x) with (String "," (String "[" x));
    rewrite ?append_cons_neq, ?String.eqb_refl, ?append_nil_r;
    try reflexivity.
Qed.

(** C7. UpdateStaticEntry builds one line: the lowercased MAC, then [,ipv4]
    when an IPv4 address is given, then [,[ipv6]] when an IPv6 address is
    given, then [,hostname] only when dns.mode is unset or managed. When
    nothing follows the MAC it writes no file and succeeds; otherwise it
    writes that line and a newline. With MAC aa:bb:cc:dd:ee:ff, IPv4
    10.0.0.5, no IPv6 and managed DNS the file holds
    [aa:bb:cc:dd:ee:ff,10.0.0.5,hostname] and a newline. *)
Theorem UpdateStaticEntry_line (fs : FS)
  (network projectName instanceName deviceName : string)
  (netConfig : gmap string string) (hwaddr ipv4Address ipv6Address : string) :
  let rest :=
    after_mac netConfig projectName instanceName ipv4Address ipv6Address in
  let run := UpdateStaticEntry fs network projectName instanceName deviceName
               netConfig in
  (rest = "" <->
   ipv4Address = "" /\ ipv6Address = "" /\ dns_managed netConfig = false)
  /\ (rest = "" -> run hwaddr ipv4Address ipv6Address = (fs, None))
  /\ (rest <> "" ->
      run hwaddr ipv4Address ipv6Address
      = WriteFile fs (hosts_file network projectName instanceName deviceName)
          (ToLower hwaddr +:+ rest +:+ nl) 420)
  /\ (get netConfig "dns.mode" = "managed" ->
      run "aa:bb:cc:dd:ee:ff" "10.0.0.5" ""
      = WriteFile fs (hosts_file network projectName instanceName deviceName)
          ("aa:bb:cc:dd:ee:ff,10.0.0.5,"
           +:+ project_DNS projectName instanceName +:+ nl) 420).
Proof.
  intros rest run. split; [| split; [| split]].
  - subst rest. unfold after_mac. split.
    + destruct (String.eqb_spec ipv4Address "") as [-> | N4];
        destruct (String.eqb_spec ipv6Address "") as [-> | N6];
        destruct (dns_managed netConfig); intros Hr;
        try discriminate Hr; auto.
    + intros [-> [-> ->]]. reflexivity.
  - intros Hr. subst run. rewrite UpdateStaticEntry_unfold.
    fold rest. rewrite Hr. reflexivity.
  - intros Hr. subst run. rewrite UpdateStaticEntry_unfold. fold rest.
    apply String.eqb_neq in Hr. rewrite Hr. reflexivity.
  - intros Hm. subst run. rewrite UpdateStaticEntry_unfold.
    unfold after_mac, dns_managed. rewrite Hm. reflexivity.
Qed.

End Entry.

Section Allocations.
Context {FS : Type} `{Host FS}.






End Allocations.

(** *** On the files in memory *)

Import MemFiles.

(** The line of the design document: MAC in upper case, IPv4 10.0.0.5, no
    IPv6, managed DNS, instance web1 of the default project. *)
Example static_entry_web1 :
  UpdateStaticEntry no_files "lxdbr0" "default" "web1" "eth0"
    {[ "dns.mode" := "managed" ]} "AA:BB:CC:DD:EE:FF" "10.0.0.5" ""
  = ({| listings := [];
        contents :=
          [("/var/lib/lxd/networks/lxdbr0/dnsmasq.hosts/web1.eth0",
            "aa:bb:cc:dd:ee:ff,10.0.0.5,web1" +:+ nl)] |}, None).
Proof. vm_compute. reflexivity. Qed.

(** No address and dynamic DNS: nothing follows the MAC, nothing is
    written. *)
Example static_entry_nothing :
  UpdateStaticEntry no_files "lxdbr0" "default" "web1" "eth0"
    {[ "dns.mode" := "dynamic" ]} "aa:bb:cc:dd:ee:ff" "" ""
  = (no_files, None).
Proof. vm_compute. reflexivity. Qed.

Lemma UpdateStaticEntry_line_witness :
  UpdateStaticEntry no_files "lxdbr0" "default" "web1" "eth0"
    {[ "dns.mode" := "managed" ]} "aa:bb:cc:dd:ee:ff" "10.0.0.5" ""
  = WriteFile no_files
      (hosts_file "lxdbr0" "default" "web1" "eth0")
      ("aa:bb:cc:dd:ee:ff,10.0.0.5," +:+ project_DNS "default" "web1" +:+ nl)
      420.
Proof.
  apply (proj2 (proj2 (proj2
           (UpdateStaticEntry_line no_files "lxdbr0" "default" "web1" "eth0"
              {[ "dns.mode" := "managed" ]} "aa:bb:cc:dd:ee:ff" "10.0.0.5"
              "")))).
  vm_compute. reflexivity.
Defined.

End DnsmasqSpec.

(** ** Unix device setup and removal *)

Module UnixDeviceSpec.
Import GoStrings Strconv UnixDevice.

Lemma find_dupe_well_formed (dents : list string) (enc : string) :
  (forall devName, In devName dents -> has_dot devName = true) ->
  find_dupe dents enc = inl (dest_taken dents enc).
Proof.
  induction dents as [| devName rest IH]; intros Hdots; [reflexivity |].
  simpl. pose proof (Hdots devName (or_introl eq_refl)) as Hd.
  unfold has_dot in Hd. apply negb_true_iff in Hd. rewrite Hd.
  destruct (String.eqb (after_last_dot devName) enc); [reflexivity |].
  simpl. apply IH. intros n Hn. apply Hdots. right. exact Hn.
Qed.

(** The scan stops with the invalid-name error at a name without a dot when
    no name listed before it has the destination. *)
Lemma find_dupe_invalid (pre post : list string) (name enc : string) :
  has_dot name = false ->
  (forall devName, In devName pre ->
     has_dot devName = true /\ after_last_dot devName <> enc) ->
  find_dupe (pre ++ name :: post) enc = inr (invalid_device_name name).
Proof.
  intros Hname. induction pre as [| devName rest IH]; intros Hpre.
  - simpl. unfold has_dot in Hname. apply negb_false_iff in Hname.
    rewrite Hname. reflexivity.
  - simpl. destruct (Hpre devName (or_introl eq_refl)) as [Hd Hne].
    unfold has_dot in Hd. apply negb_true_iff in Hd. rewrite Hd.
    apply String.eqb_neq in Hne. rewrite Hne.
    apply IH. intros n Hn. apply Hpre. right. exact Hn.
Qed.

Lemma dest_taken_true (dents : list string) (enc : string) :
  dest_taken dents enc = true <->
  exists devName, In devName dents /\ after_last_dot devName = enc.
Proof.
  unfold dest_taken. rewrite existsb_exists. split.
  - intros [n [Hin Heq]]. exists n. split; [exact Hin |].
    apply String.eqb_eq. exact Heq.
  - intros [n [Hin Heq]]. exists n. split; [exact Hin |].
    apply String.eqb_eq. exact Heq.
Qed.

Lemma dest_taken_false (dents : list string) (enc : string) :
  dest_taken dents enc = false <->
  forall devName, In devName dents -> after_last_dot devName <> enc.
Proof.
  split.
  - intros Hf n Hin Heq.
    assert (Ht : dest_taken dents enc = true)
      by (apply dest_taken_true; eauto).
    congruence.
  - intros Hall. apply not_true_is_false. intros Ht.
    apply dest_taken_true in Ht. destruct Ht as [n [Hin Heq]].
    exact (Hall n Hin Heq).
Qed.

Section Setup.
Context {W : Type} `{Host W}.

Lemma listed_unfold (w : W) (devicesPath : string) (dents : list string)
  (A : Type) (k : list string -> A) (fail : error -> A) :
  listed w devicesPath dents ->
  (let '(dents, err) := ReadDir w devicesPath in
   match (match err with
          | Some e => if negb (IsNotExist e) then Some e else None
          | None => None
          end) with
   | Some e => fail e
   | None => k dents
   end) = k dents.
Proof.
  intros [rerr [Hr Hok]]. rewrite Hr. destruct rerr as [e |]; [| reflexivity].
  rewrite (Hok e eq_refl). reflexivity.
Qed.

(** C2. Setup over a listed devices directory whose file names all carry a
    destination, when the creation of the host node succeeds and gives [d]:
    if some listed file has the destination of the new device, the host is
    left as UnixDeviceCreate leaves it and the run configuration is not
    changed; if none has it, exactly one bind mount with options bind and
    create=file and static owner shift, and exactly one devices.allow rule
    [type major:minor rwm], are appended. *)
Theorem setup_dedup_by_destination (w w' : W) (os : OS)
  (devicesPath typePrefix deviceName : string) (m : gmap string string)
  (defaultMode : bool) (runConf : RunConfig) (dents : list string)
  (d : UnixDevice) :
  listed w devicesPath dents ->
  (forall devName, In devName dents -> has_dot devName = true) ->
  UnixDeviceCreate w os false devicesPath
    (deviceJoinPath [typePrefix; deviceName]) m defaultMode = (w', inl d) ->
  ((exists devName, In devName dents /\ after_last_dot devName = our_dest m) ->
   unixDeviceSetup w os devicesPath typePrefix deviceName m defaultMode runConf
   = (w', runConf, None))
  /\ ((forall devName, In devName dents ->
         after_last_dot devName <> our_dest m) ->
      unixDeviceSetup w os devicesPath typePrefix deviceName m defaultMode
        runConf
      = (w',
         {| Mounts :=
              Mounts runConf
              ++ [{| DevSource := Some (HostPath d);
                     TargetPath := RelativePath d; FSType := "none";
                     Opts := ["bind"; "create=file"];
                     OwnerShift_ := MountOwnerShiftStatic |}];
            CGroups :=
              CGroups runConf
              ++ [{| Key := "devices.allow";
                     Value := Type_ d +:+ " " +:+ itoa (Major_ d) +:+ ":"
                              +:+ itoa (Minor_ d) +:+ " rwm" |}] |},
         None)).
Proof.
  intros Hlisted Hdots Hcreate.
  assert (Hrun :
    unixDeviceSetup w os devicesPath typePrefix deviceName m defaultMode
      runConf
    = if dest_taken dents (our_dest m) then (w', runConf, None)
      else (w', {| Mounts := Mounts runConf ++ [mount_entry d];
                   CGroups := CGroups runConf ++ [allow_rule d] |}, None)).
  { unfold unixDeviceSetup.
    rewrite (listed_unfold w devicesPath dents _
               (fun dents =>
                  match find_dupe dents
                          (PathNameEncode
                             (TrimPrefix (unixDeviceDestPath m) "/")) with
                  | inr e => (w, runConf, Some e)
                  | inl dupe =>
                      match UnixDeviceCreate w os false devicesPath
                              (deviceJoinPath [typePrefix; deviceName]) m
                              defaultMode with
                      | (w', inr e) => (w', runConf, Some e)
                      | (w', inl d) =>
                          if dupe then (w', runConf, None)
                          else (w',
                                {| Mounts := Mounts runConf ++ [mount_entry d];
                                   CGroups := CGroups runConf
                                              ++ [allow_rule d] |}, None)
                      end
                  end)
               (fun e => (w, runConf, Some e)) Hlisted).
    rewrite (find_dupe_well_formed dents _ Hdots), Hcreate. reflexivity. }
  split.
  - intros Hex. rewrite Hrun.
    apply dest_taken_true in Hex. rewrite Hex. reflexivity.
  - intros Hnone. rewrite Hrun.
    apply dest_taken_false in Hnone. rewrite Hnone. reflexivity.
Qed.

End Setup.

Section Remove.
Context {W : Type} `{Host W}.

Lemma other_dests_well_formed (others : list string) :
  (forall devName, In devName others -> has_dot devName = true) ->
  other_dests others = inl (map after_last_dot others).
Proof.
  induction others as [| devName rest IH]; intros Hdots; [reflexivity |].
  simpl. pose proof (Hdots devName (or_introl eq_refl)) as Hd.
  unfold has_dot in Hd. apply negb_true_iff in Hd. rewrite Hd.
  rewrite IH; [reflexivity |]. intros n Hn. apply Hdots. right. exact Hn.
Qed.

(** The first other file without a dot ends the call. *)
Lemma other_dests_invalid (others : list string) :
  (exists devName, In devName others /\ has_dot devName = false) ->
  exists devName,
    In devName others /\ has_dot devName = false
    /\ other_dests others = inr (invalid_device_name devName).
Proof.
  induction others as [| devName rest IH]; intros [n [Hin Hn]];
    [destruct Hin |].
  simpl. destruct (has_dot devName) eqn:Hd.
  - assert (Hrest : exists n', In n' rest /\ has_dot n' = false).
    { destruct Hin as [-> | Hin]; [congruence | eauto]. }
    destruct (IH Hrest) as [n' [Hin' [Hn' Heq]]].
    exists n'. split; [right; exact Hin' |]. split; [exact Hn' |].
    unfold has_dot in Hd. apply negb_true_iff in Hd. rewrite Hd, Heq.
    reflexivity.
  - exists devName. split; [left; reflexivity |]. split; [exact Hd |].
    unfold has_dot in Hd. apply negb_false_iff in Hd. rewrite Hd.
    reflexivity.
Qed.

Lemma remove_ours_all (w : W) (devicesPath : string) (others ours : list string)
  (runConf : RunConfig) :
  (forall devName, In devName ours -> has_dot devName = true) ->
  (forall devName, In devName (unshared others ours) ->
     stat_ok w devicesPath devName) ->
  remove_ours w devicesPath (map after_last_dot others) ours runConf
  = ({| Mounts :=
          Mounts runConf
          ++ map (fun devName => unmount_entry (after_last_dot devName))
                 (unshared others ours);
        CGroups :=
          CGroups runConf
          ++ flat_map (deny_of w devicesPath) (unshared others ours) |},
     None).
Proof.
  revert runConf.
  induction ours as [| devName rest IH]; intros runConf Hdots Hstat.
  - simpl. rewrite !app_nil_r. destruct runConf; reflexivity.
  - pose proof (Hdots devName (or_introl eq_refl)) as Hd.
    unfold has_dot in Hd. apply negb_true_iff in Hd.
    assert (Hdots' : forall n, In n rest -> has_dot n = true)
      by (intros n Hn; apply Hdots; right; exact Hn).
    cbn [remove_ours]. rewrite Hd.
    unfold unshared in *. cbn [List.filter] in *.
    fold (shared_with others devName).
    destruct (shared_with others devName) eqn:Hs; cbn [negb] in *.
    + apply IH; assumption.
    + destruct (Hstat devName (or_introl eq_refl)) as [[[t ma] mi] Hattr].
      rewrite Hattr.
      rewrite IH; [| assumption | intros n Hn; apply Hstat; right; exact Hn].
      cbn [Mounts CGroups map flat_map]. unfold deny_of at 2.
      rewrite Hattr. unfold deny_rule, cgroup_rule.
      rewrite <- !app_assoc. reflexivity.
Qed.

Lemma remove_ours_stat_failure (w : W) (devicesPath : string)
  (others ours : list string) (runConf : RunConfig) :
  (forall devName, In devName ours -> has_dot devName = true) ->
  (exists devName, In devName (unshared others ours)
                   /\ ~ stat_ok w devicesPath devName) ->
  exists devName err,
    In devName (unshared others ours)
    /\ unixDeviceAttributes w (Join devicesPath devName) = inr err
    /\ snd (remove_ours w devicesPath (map after_last_dot others) ours runConf)
       = Some (Wrapf "Failed to get UNIX device attributes for %q: %w"
                     [FQuoted (Join devicesPath devName)] err).
Proof.
  revert runConf.
  induction ours as [| devName rest IH]; intros runConf Hdots [n [Hin Hbad]].
  - destruct Hin.
  - pose proof (Hdots devName (or_introl eq_refl)) as Hd.
    unfold has_dot in Hd. apply negb_true_iff in Hd.
    assert (Hdots' : forall n, In n rest -> has_dot n = true)
      by (intros n' Hn; apply Hdots; right; exact Hn).
    cbn [remove_ours]. rewrite Hd.
    unfold unshared in *. cbn [List.filter] in *.
    fold (shared_with others devName).
    destruct (shared_with others devName) eqn:Hs; cbn [negb] in *.
    + apply IH; [assumption | eauto].
    + destruct (unixDeviceAttributes w (Join devicesPath devName))
        as [[[t ma] mi] | err] eqn:Hattr.
      * destruct Hin as [<- | Hin].
        { exfalso. apply Hbad. eexists. exact Hattr. }
        destruct (IH {| Mounts := Mounts runConf
                                  ++ [unmount_entry (after_last_dot devName)];
                        CGroups := CGroups runConf ++ [deny_rule t ma mi] |}
                    Hdots' (ex_intro _ n (conj Hin Hbad)))
          as [n' [err' [Hin' [Hattr' Hres]]]].
        exists n', err'. split; [right; exact Hin' |].
        split; [exact Hattr' | exact Hres].
      * exists devName, err. split; [left; reflexivity |].
        split; [exact Hattr | reflexivity].
Qed.

Lemma unixDeviceRemove_unfold (w : W)
  (devicesPath typePrefix deviceName optPrefix : string) (runConf : RunConfig)
  (dents : list string) :
  listed w devicesPath dents ->
  unixDeviceRemove w devicesPath typePrefix deviceName optPrefix runConf
  = match other_dests
            (others_of (our_prefix typePrefix deviceName optPrefix) dents) with
    | inr e => (runConf, Some e)
    | inl encRelDevFiles =>
        remove_ours w devicesPath encRelDevFiles
          (ours_of (our_prefix typePrefix deviceName optPrefix) dents) runConf
    end.
Proof.
  intros Hlisted. unfold unixDeviceRemove.
  exact (listed_unfold w devicesPath dents _
           (fun dents =>
              match other_dests
                      (others_of (our_prefix typePrefix deviceName optPrefix)
                                 dents) with
              | inr e => (runConf, Some e)
              | inl encRelDevFiles =>
                  remove_ours w devicesPath encRelDevFiles
                    (ours_of (our_prefix typePrefix deviceName optPrefix)
                             dents) runConf
              end)
           (fun e => (runConf, Some e)) Hlisted).
Qed.

(** Remove over a listed devices directory whose file names all carry a
    destination, by the classes the code makes: a file counts as the removed
    device's when its name starts with the encoded prefix. A file of the
    removed device whose destination is also the destination of a file of
    another device gets no unmount entry and no devices.deny rule. When the host device file of every other file of the
    removed device can be stat-ed, each of them gets exactly one unmount
    entry, holding only the decoded destination as target, and exactly one
    devices.deny rule built from the type, major and minor the stat gives;
    when the stat of one of them fails, the whole call fails with that
    error. *)
Theorem remove_spares_shared_destinations (w : W)
  (devicesPath typePrefix deviceName optPrefix : string) (runConf : RunConfig)
  (dents : list string) :
  listed w devicesPath dents ->
  (forall devName, In devName dents -> has_dot devName = true) ->
  let prefix := our_prefix typePrefix deviceName optPrefix in
  let ours := ours_of prefix dents in
  let others := others_of prefix dents in
  let run := unixDeviceRemove w devicesPath typePrefix deviceName optPrefix
               runConf in
  (forall devName,
     In devName (unshared others ours) <->
     In devName dents /\ HasPrefix devName prefix = true
     /\ forall other, In other dents -> HasPrefix other prefix = false ->
                      after_last_dot other <> after_last_dot devName)
  /\ ((forall devName, In devName (unshared others ours) ->
         stat_ok w devicesPath devName) ->
      run = ({| Mounts :=
                  Mounts runConf
                  ++ map (fun devName =>
                            {| DevSource := None;
                               TargetPath :=
                                 PathNameDecode (after_last_dot devName);
                               FSType := ""; Opts := [];
                               OwnerShift_ := MountOwnerShiftNone |})
                         (unshared others ours);
                CGroups :=
                  CGroups runConf
                  ++ flat_map (deny_of w devicesPath) (unshared others ours) |},
             None)
      /\ forall devName, In devName (unshared others ours) ->
           length (deny_of w devicesPath devName) = 1%nat)
  /\ ((exists devName, In devName (unshared others ours)
                       /\ ~ stat_ok w devicesPath devName) ->
      exists devName err,
        In devName (unshared others ours)
        /\ unixDeviceAttributes w (Join devicesPath devName) = inr err
        /\ snd run
           = Some (Wrapf "Failed to get UNIX device attributes for %q: %w"
                         [FQuoted (Join devicesPath devName)] err)).
Proof.
  intros Hlisted Hdots prefix ours others run.
  assert (Hours : forall n, In n ours -> has_dot n = true).
  { intros n Hn. apply Hdots. unfold ours, ours_of in Hn.
    apply filter_In in Hn. tauto. }
  assert (Hothers : forall n, In n others -> has_dot n = true).
  { intros n Hn. apply Hdots. unfold others, others_of in Hn.
    apply filter_In in Hn. tauto. }
  assert (Hrun : run = remove_ours w devicesPath (map after_last_dot others)
                         ours runConf).
  { unfold run. rewrite (unixDeviceRemove_unfold _ _ _ _ _ _ dents Hlisted).
    fold prefix. fold others. fold ours.
    rewrite (other_dests_well_formed others Hothers). reflexivity. }
  split; [| split].
  - intros devName. unfold unshared, ours, others, ours_of, others_of.
    rewrite filter_In, filter_In, negb_true_iff. unfold shared_with.
    split.
    + intros [[Hin Hp] Hs]. split; [exact Hin |]. split; [exact Hp |].
      intros other Hin' Hp' Heq.
      assert (Ht : existsb (String.eqb (after_last_dot devName))
                     (map after_last_dot
                        (List.filter (fun n => negb (HasPrefix n prefix))
                                     dents)) = true).
      { apply existsb_exists. exists (after_last_dot other). split.
        - apply in_map. apply filter_In. split; [exact Hin' |].
          rewrite Hp'. reflexivity.
        - rewrite Heq. apply String.eqb_refl. }
      congruence.
    + intros [Hin [Hp Hnone]]. split; [split; assumption |].
      apply not_true_is_false. intros Ht.
      apply existsb_exists in Ht. destruct Ht as [x [Hx Heq]].
      apply in_map_iff in Hx. destruct Hx as [other [<- Hother]].
      apply filter_In in Hother. destruct Hother as [Hin' Hp'].
      apply negb_true_iff in Hp'. apply String.eqb_eq in Heq.
      exact (Hnone other Hin' Hp' (eq_sym Heq)).
  - intros Hstat. split.
    + rewrite Hrun. apply remove_ours_all; assumption.
    + intros devName Hin. destruct (Hstat devName Hin) as [[[t ma] mi] Hattr].
      unfold deny_of. rewrite Hattr. reflexivity.
  - intros Hbad. rewrite Hrun.
    apply remove_ours_stat_failure; assumption.
Qed.

End Remove.

Section InvalidNames.
Context {W : Type} `{Host W}.

Lemma remove_ours_dotless (w : W) (devicesPath : string)
  (encRelDevFiles ours : list string) (runConf : RunConfig) :
  (exists devName, In devName ours /\ has_dot devName = false) ->
  exists err,
    snd (remove_ours w devicesPath encRelDevFiles ours runConf) = Some err.
Proof.
  revert runConf.
  induction ours as [| devName rest IH]; intros runConf [n [Hin Hn]];
    [destruct Hin |].
  cbn [remove_ours]. destruct (has_dot devName) eqn:Hd.
  - assert (Hrest : exists n', In n' rest /\ has_dot n' = false).
    { destruct Hin as [-> | Hin]; [congruence | eauto]. }
    unfold has_dot in Hd. apply negb_true_iff in Hd. rewrite Hd.
    destruct (existsb (String.eqb (after_last_dot devName)) encRelDevFiles).
    + apply IH. exact Hrest.
    + destruct (unixDeviceAttributes w (Join devicesPath devName))
        as [[[t ma] mi] | err].
      * apply IH. exact Hrest.
      * eexists. reflexivity.
  - unfold has_dot in Hd. apply negb_false_iff in Hd. rewrite Hd.
    eexists. reflexivity.
Qed.

(** C9, as the code has it. Over a listed devices directory:
    - Setup fails with the invalid-name error of a file name without a dot,
      and leaves the host as it was, when no file listed before that name
      has the destination of the new device (the scan stops at the first
      file that has it, so a name listed after such a file is not looked
      at);
    - Remove fails with the invalid-name error, and leaves the run
      configuration as it was, when a file of another device has no dot;
    - Remove fails whenever any listed file has no dot. *)
Theorem invalid_device_name_failures (w : W) (os : OS)
  (devicesPath typePrefix deviceName optPrefix : string)
  (m : gmap string string) (defaultMode : bool) (runConf : RunConfig)
  (dents : list string) :
  listed w devicesPath dents ->
  (forall pre name post,
     dents = pre ++ name :: post ->
     has_dot name = false ->
     (forall devName, In devName pre ->
        has_dot devName = true /\ after_last_dot devName <> our_dest m) ->
     unixDeviceSetup w os devicesPath typePrefix deviceName m defaultMode
       runConf
     = (w, runConf, Some (invalid_device_name name)))
  /\ ((exists name, In name dents /\ has_dot name = false
                    /\ HasPrefix name
                         (our_prefix typePrefix deviceName optPrefix) = false) ->
      exists name,
        In name dents /\ has_dot name = false
        /\ unixDeviceRemove w devicesPath typePrefix deviceName optPrefix
             runConf
           = (runConf, Some (invalid_device_name name)))
  /\ ((exists name, In name dents /\ has_dot name = false) ->
      exists err,
        snd (unixDeviceRemove w devicesPath typePrefix deviceName optPrefix
               runConf) = Some err).
Proof.
  intros Hlisted. split; [| split].
  - intros pre name post -> Hname Hpre. unfold our_dest in Hpre.
    unfold unixDeviceSetup.
    rewrite (listed_unfold w devicesPath (pre ++ name :: post) _
               (fun dents =>
                  match find_dupe dents
                          (PathNameEncode
                             (TrimPrefix (unixDeviceDestPath m) "/")) with
                  | inr e => (w, runConf, Some e)
                  | inl dupe =>
                      match UnixDeviceCreate w os false devicesPath
                              (deviceJoinPath [typePrefix; deviceName]) m
                              defaultMode with
                      | (w', inr e) => (w', runConf, Some e)
                      | (w', inl d) =>
                          if dupe then (w', runConf, None)
                          else (w',
                                {| Mounts := Mounts runConf ++ [mount_entry d];
                                   CGroups := CGroups runConf
                                              ++ [allow_rule d] |}, None)
                      end
                  end)
               (fun e => (w, runConf, Some e)) Hlisted).
    rewrite (find_dupe_invalid pre post name _ Hname Hpre). reflexivity.
  - intros [name [Hin [Hname Hother]]].
    rewrite (unixDeviceRemove_unfold _ _ _ _ _ _ dents Hlisted).
    destruct (other_dests_invalid
                (others_of (our_prefix typePrefix deviceName optPrefix) dents))
      as [n [Hn [Hnd Heq]]].
    { exists name. split; [| exact Hname]. unfold others_of.
      apply filter_In. split; [exact Hin |]. rewrite Hother. reflexivity. }
    exists n. split.
    { unfold others_of in Hn. apply filter_In in Hn. tauto. }
    split; [exact Hnd |]. rewrite Heq. reflexivity.
  - intros [name [Hin Hname]].
    rewrite (unixDeviceRemove_unfold _ _ _ _ _ _ dents Hlisted).
    destruct (HasPrefix name (our_prefix typePrefix deviceName optPrefix))
      eqn:Hp.
    + destruct (other_dests
                  (others_of (our_prefix typePrefix deviceName optPrefix)
                             dents)) as [encs | e].
      * apply remove_ours_dotless. exists name. split; [| exact Hname].
        unfold ours_of. apply filter_In. split; [exact Hin | exact Hp].
      * eexists. reflexivity.
    + destruct (other_dests_invalid
                  (others_of (our_prefix typePrefix deviceName optPrefix)
                             dents)) as [n [Hn [Hnd Heq]]].
      { exists name. split; [| exact Hname]. unfold others_of.
        apply filter_In. split; [exact Hin |]. rewrite Hp. reflexivity. }
      rewrite Heq. eexists. reflexivity.
Qed.

End InvalidNames.

Section Ownership.
Context {W : Type} `{Host W}.

(** The owner [UnixDeviceCreate] gives a device, case by case. With
    ownership.inherit an explicit uid or gid is not read: the field it names
    stays 0. *)
Lemma resolve_owner_cases (w : W) (m : gmap string string) (srcPath : string)
  (uid gid : Z) :
  resolve_owner w m srcPath = inl (uid, gid) ->
  (IsTrue (get m "ownership.inherit") = true ->
     (get m "uid" = "" ->
        exists g, unixDeviceOwnership w srcPath = inl (g, uid))
     /\ (get m "uid" <> "" -> uid = 0)
     /\ (get m "gid" = "" ->
           exists u, unixDeviceOwnership w srcPath = inl (gid, u))
     /\ (get m "gid" <> "" -> gid = 0))
  /\ (IsTrue (get m "ownership.inherit") = false ->
        (get m "uid" = "" -> uid = 0)
        /\ (get m "uid" <> "" -> Atoi (get m "uid") = inl uid)
        /\ (get m "gid" = "" -> gid = 0)
        /\ (get m "gid" <> "" -> Atoi (get m "gid") = inl gid)).
Proof.
  unfold resolve_owner. intros Hres.
  destruct (IsTrue (get m "ownership.inherit")); split; intros Hi;
    try discriminate Hi.
  - destruct (String.eqb_spec (get m "uid") "") as [Eu | Nu];
      destruct (String.eqb_spec (get m "gid") "") as [Eg | Ng];
      destruct (unixDeviceOwnership w srcPath) as [[g u] | err];
      simpl in Hres; try discriminate Hres;
      injection Hres as <- <-;
      repeat split; intros; try congruence; eauto.
  - destruct (String.eqb_spec (get m "uid") "") as [Eu | Nu];
      destruct (String.eqb_spec (get m "gid") "") as [Eg | Ng];
      simpl in Hres;
      try (destruct (Atoi (get m "uid")) as [u |] eqn:Au;
           try discriminate Hres);
      try (destruct (Atoi (get m "gid")) as [g |] eqn:Ag;
           try discriminate Hres);
      injection Hres as <- <-;
      repeat split; intros; congruence.
Qed.

End Ownership.

(** *** On the host in memory *)

Import MemHost.

(** The first device declared for a destination gets its mount and its
    cgroup rule. *)
Example first_setup_mounts :
  snd (fst (setup_gpu gpu_host "gpu0"))
  = {| Mounts :=
         [{| DevSource := Some "/devices/unix.gpu0.dev-dri-card0";
             TargetPath := "dev/dri/card0"; FSType := "none";
             Opts := ["bind"; "create=file"];
             OwnerShift_ := MountOwnerShiftStatic |}];
       CGroups := [{| Key := "devices.allow"; Value := "c 226:0 rwm" |}] |}
  /\ snd (setup_gpu gpu_host "gpu0") = None.
Proof. vm_compute. auto. Qed.

(** A second device with another name and the same destination: its host
    node is created, the run configuration stays empty. *)
Example second_setup_suppressed :
  setup_gpu after_gpu0 "gpu1" = (after_gpu1, no_run_config, None)
  /\ PathExists after_gpu1 "/devices/unix.gpu1.dev-dri-card0" = true
  /\ PathExists after_gpu0 "/devices/unix.gpu1.dev-dri-card0" = false.
Proof. vm_compute. auto. Qed.

(** Removing either sibling while the other remains emits nothing; removing
    the last one emits one unmount and one deny rule. *)
Example remove_siblings :
  unixDeviceRemove after_gpu1 "/devices" "unix" "gpu0" "" no_run_config
  = (no_run_config, None)
  /\ unixDeviceRemove after_gpu1 "/devices" "unix" "gpu1" "" no_run_config
     = (no_run_config, None)
  /\ unixDeviceRemove after_gpu0 "/devices" "unix" "gpu0" "" no_run_config
     = ({| Mounts :=
             [{| DevSource := None; TargetPath := "dev/dri/card0";
                 FSType := ""; Opts := [];
                 OwnerShift_ := MountOwnerShiftNone |}];
           CGroups := [{| Key := "devices.deny"; Value := "c 226:0 rwm" |}] |},
        None).
Proof. vm_compute. auto. Qed.

Lemma setup_dedup_witness :
  setup_gpu after_gpu0 "gpu1" = (after_gpu1, no_run_config, None).
Proof.
  assert (Hl : listed after_gpu0 "/devices" ["unix.gpu0.dev-dri-card0"]).
  { exists None. split; [vm_compute; reflexivity | discriminate]. }
  assert (Hd : forall devName, In devName ["unix.gpu0.dev-dri-card0"] ->
                               has_dot devName = true).
  { intros n [<- | []]. vm_compute. reflexivity. }
  assert (Hc : UnixDeviceCreate after_gpu0 privileged false "/devices"
                 (deviceJoinPath ["unix"; "gpu1"]) gpu_config false
               = (after_gpu1, inl gpu1_device))
    by (vm_compute; reflexivity).
  apply (proj1 (setup_dedup_by_destination after_gpu0 after_gpu1 privileged
                  "/devices" "unix" "gpu1" gpu_config false no_run_config
                  ["unix.gpu0.dev-dri-card0"] gpu1_device Hl Hd Hc)).
  exists "unix.gpu0.dev-dri-card0". split; [left; reflexivity |].
  vm_compute. reflexivity.
Defined.

Lemma remove_spares_witness :
  unixDeviceRemove after_gpu0 "/devices" "unix" "gpu0" "" no_run_config
  = ({| Mounts :=
          [{| DevSource := None; TargetPath := "dev/dri/card0";
              FSType := ""; Opts := []; OwnerShift_ := MountOwnerShiftNone |}];
        CGroups := [{| Key := "devices.deny"; Value := "c 226:0 rwm" |}] |},
     None).
Proof.
  assert (Hl : listed after_gpu0 "/devices" ["unix.gpu0.dev-dri-card0"]).
  { exists None. split; [vm_compute; reflexivity | discriminate]. }
  assert (Hd : forall devName, In devName ["unix.gpu0.dev-dri-card0"] ->
                               has_dot devName = true).
  { intros n [<- | []]. vm_compute. reflexivity. }
  pose proof (proj1 (proj2 (remove_spares_shared_destinations after_gpu0
                              "/devices" "unix" "gpu0" "" no_run_config
                              ["unix.gpu0.dev-dri-card0"] Hl Hd))) as Hall.
  cbv zeta in Hall.
  assert (Hs : forall devName,
             In devName
               (unshared
                  (others_of (our_prefix "unix" "gpu0" "")
                             ["unix.gpu0.dev-dri-card0"])
                  (ours_of (our_prefix "unix" "gpu0" "")
                           ["unix.gpu0.dev-dri-card0"])) ->
             stat_ok after_gpu0 "/devices" devName).
  { intros n Hn. vm_compute in Hn. destruct Hn as [<- | []].
    eexists. vm_compute. reflexivity. }
  destruct (Hall Hs) as [Hrun _]. rewrite Hrun. vm_compute. reflexivity.
Defined.

(** C3, on the code: the removed device's files are picked by
    [strings.HasPrefix] on the encoded type and name, with no separator
    after the name, so the file of a device whose name extends the removed
    one's counts as the removed device's. With gpu1 and gpu10 attached to
    the same destination, removing gpu1 takes both files for its own, finds
    no other device on the destination, and emits an unmount entry and a
    devices.deny rule for each, although the file of gpu10 is still there;
    removing gpu10 on the same directory sees gpu1 as another device and
    emits nothing. *)
Theorem remove_takes_longer_names_for_its_own :
  fst (ReadDir MemHostMore.gpu1_and_gpu10 "/devices")
  = ["unix.gpu1.dev-dri-card0"; "unix.gpu10.dev-dri-card0"]
  /\ HasPrefix "unix.gpu10.dev-dri-card0" (our_prefix "unix" "gpu1" "") = true
  /\ after_last_dot "unix.gpu10.dev-dri-card0"
     = after_last_dot "unix.gpu1.dev-dri-card0"
  /\ unixDeviceRemove MemHostMore.gpu1_and_gpu10 "/devices" "unix" "gpu1" ""
       no_run_config
     = ({| Mounts := [MemHostMore.card0_unmount; MemHostMore.card0_unmount];
           CGroups := [MemHostMore.card0_deny; MemHostMore.card0_deny] |},
        None)
  /\ PathExists MemHostMore.gpu1_and_gpu10
       "/devices/unix.gpu10.dev-dri-card0" = true
  /\ unixDeviceRemove MemHostMore.gpu1_and_gpu10 "/devices" "unix" "gpu10" ""
       no_run_config
     = (no_run_config, None).
Proof. vm_compute. repeat split; reflexivity. Qed.

(** C9, as stated, fails here: the directory holds a file without a dot and
    Setup succeeds all the same, because the scan stopped at the file listed
    before it. *)
Lemma setup_succeeds_despite_dotless_file :
  In "zzz" (fst (ReadDir stray_after_match "/devices"))
  /\ has_dot "zzz" = false
  /\ setup_gpu stray_after_match "gpu1"
     = (fst (fst (setup_gpu stray_after_match "gpu1")), no_run_config, None)
  /\ PathExists (fst (fst (setup_gpu stray_after_match "gpu1")))
       "/devices/unix.gpu1.dev-dri-card0" = true.
Proof. vm_compute. auto. Qed.

Lemma invalid_device_name_witness :
  setup_gpu stray_host "gpu0"
  = (stray_host, no_run_config, Some (invalid_device_name "zzz")).
Proof.
  assert (Hl : listed stray_host "/devices" ["zzz"]).
  { exists None. split; [vm_compute; reflexivity | discriminate]. }
  apply (proj1 (invalid_device_name_failures stray_host privileged "/devices"
                  "unix" "gpu0" "" gpu_config false no_run_config ["zzz"] Hl)
           [] "zzz" []).
  - reflexivity.
  - vm_compute. reflexivity.
  - intros n [].
Defined.

(** C6, on the code: with ownership.inherit and an explicit uid, the device
    is created with UID 0: not the explicit 1000 and not the 107 of the
    source. The gid, which the config leaves out, is inherited. *)
Theorem inherit_ignores_explicit_uid :
  get inherit_uid_config "uid" = "1000"
  /\ IsTrue (get inherit_uid_config "ownership.inherit") = true
  /\ unixDeviceOwnership gpu_host "/dev/dri/card0" = inl (44, 107)
  /\ snd (UnixDeviceCreate gpu_host privileged false "/devices" "unix.gpu0"
            inherit_uid_config false)
     = inl {| HostPath := "/devices/unix.gpu0.dev-dri-card0";
              RelativePath := "dev/dri/card0"; Type_ := "c"; Major_ := 226;
              Minor_ := 0; Mode := 8624; UID := 0; GID := 44 |}.
Proof. vm_compute. auto. Qed.

(** Without an explicit uid both fields are inherited; without
    ownership.inherit the explicit uid is used and the gid defaults to 0. *)
Example ownership_other_cases :
  (exists d,
      snd (UnixDeviceCreate gpu_host privileged false "/devices" "unix.gpu0"
             {[ "path" := "/dev/dri/card0"; "ownership.inherit" := "true" ]}
             false) = inl d
      /\ UID d = 107 /\ GID d = 44)
  /\ (exists d,
         snd (UnixDeviceCreate gpu_host privileged false "/devices"
                "unix.gpu0"
                {[ "path" := "/dev/dri/card0"; "uid" := "1000" ]} false)
         = inl d
         /\ UID d = 1000 /\ GID d = 0).
Proof. split; eexists; vm_compute; auto. Qed.

End UnixDeviceSpec.

(** ** Numbers in device configs *)

Module StrconvSpec.
Import GoStrings Strconv.

Lemma digits_cons (base : Z) (c : ascii) (s : string) (acc d : Z) :
  digit_val c = Some d -> d < base ->
  digits base (String c s) acc = digits base s (acc * base + d).
Proof.
  intros Hc Hd. simpl. rewrite Hc.
  destruct (Z.ltb_spec d base); [reflexivity | lia].
Qed.

Lemma digit_val_pretty (d : N) :
  (d < 10)%N -> digit_val (pretty_N_char d) = Some (Z.of_N d).
Proof.
  intros Hd.
  assert (Hcases : d = 0%N \/ d = 1%N \/ d = 2%N \/ d = 3%N \/ d = 4%N
                   \/ d = 5%N \/ d = 6%N \/ d = 7%N \/ d = 8%N \/ d = 9%N)
    by lia.
  repeat (destruct Hcases as [-> | Hcases]; [reflexivity |]).
  subst d. reflexivity.
Qed.

(** Reading the digits [pretty_N_go] puts in front of [s] shifts the
    accumulator and adds the number. *)
Lemma digits_pretty_go (x : N) :
  exists p, forall s acc,
    digits 10 (pretty_N_go x s) acc = digits 10 s (acc * p + Z.of_N x).
Proof.
  induction x as [x IH] using (well_founded_induction N.lt_wf_0).
  destruct (N.eq_dec x 0%N) as [-> | Hx].
  - exists 1. intros s acc. rewrite pretty_N_go_0. f_equal. lia.
  - assert (Hpos : (0 < x)%N) by lia.
    destruct (IH (x / 10)%N) as [p Hp].
    { apply N.div_lt; lia. }
    exists (p * 10). intros s acc.
    rewrite pretty_N_go_step by exact Hpos. rewrite Hp.
    rewrite (digits_cons 10 _ s _ (Z.of_N (x mod 10))).
    + f_equal. rewrite N2Z.inj_div, N2Z.inj_mod.
      pose proof (Z.div_mod (Z.of_N x) 10 ltac:(lia)). lia.
    + apply digit_val_pretty. apply N.mod_lt. lia.
    + rewrite N2Z.inj_mod. pose proof (Z.mod_pos_bound (Z.of_N x) 10). lia.
Qed.

Lemma digits_itoa (n : Z) : 0 <= n -> digits 10 (itoa n) 0 = Some n.
Proof.
  intros Hn. unfold itoa, pretty, pretty_Z.
  destruct n as [| p | p]; [reflexivity | | lia].
  unfold pretty, pretty_positive, pretty, pretty_N.
  destruct (decide (N.pos p = 0%N)) as [Hz | _]; [discriminate |].
  destruct (digits_pretty_go (N.pos p)) as [q Hq]. rewrite Hq.
  simpl. reflexivity.
Qed.

Lemma itoa_nonempty (n : Z) : 0 <= n -> itoa n <> "".
Proof.
  intros Hn He. pose proof (digits_itoa n Hn) as Hd.
  rewrite He in Hd. simpl in Hd.
  assert (n = 0) by congruence. subst n. discriminate He.
Qed.

(** A number of 32 bits written in base 10 is read back by [ParseUint] as
    the same number. *)
Lemma ParseUint_FormatUint (n : Z) :
  0 <= n < 2 ^ 32 -> ParseUint (itoa n) 10 32 = inl n.
Proof.
  intros [Hlo Hhi]. unfold ParseUint.
  pose proof (itoa_nonempty n Hlo) as Hne.
  destruct (itoa n) as [| c s] eqn:Hs; [congruence |].
  rewrite <- Hs. rewrite (digits_itoa n Hlo).
  destruct (Z.leb_spec (2 ^ 32) n); [lia | reflexivity].
Qed.

Lemma ParseUint_FormatUint_witness : ParseUint (itoa 226) 10 32 = inl 226.
Proof. apply ParseUint_FormatUint. lia. Defined.

(** What [ParseUint] accepts, spelled out. *)
Lemma ParseUint_inl (s : string) (base bitSize v : Z) :
  ParseUint s base bitSize = inl v <->
  s <> "" /\ digits base s 0 = Some v /\ v < 2 ^ bitSize.
Proof.
  unfold ParseUint. destruct s as [| c rest].
  - split; [discriminate | intros [Hne _]; congruence].
  - destruct (digits base (String c rest) 0) as [u |].
    + destruct (Z.leb_spec (2 ^ bitSize) u).
      * split; [discriminate |]. intros [_ [Hu Hlt]].
        injection Hu as ->. lia.
      * split.
        -- intros Hv. injection Hv as ->. repeat split; [discriminate | lia].
        -- intros [_ [Hu _]]. congruence.
    + split; [discriminate | intros [_ [Hu _]]; discriminate].
Qed.

(** A string that starts with a digit has no sign to pick off. *)
Lemma no_sign (c : ascii) (rest : string) :
  digit_val c <> None ->
  match String c rest with
  | String "+"%char r => (false, r)
  | String "-"%char r => (true, r)
  | _ => (false, String c rest)
  end = (false, String c rest).
Proof.
  intros Hd.
  destruct c as [[] [] [] [] [] [] [] []]; try reflexivity;
    exfalso; apply Hd; reflexivity.
Qed.

Lemma digits_head (base : Z) (c : ascii) (rest : string) (v : Z) :
  digits base (String c rest) 0 = Some v -> digit_val c <> None.
Proof. simpl. destruct (digit_val c); [discriminate | discriminate]. Qed.

(** On an unsigned number [parse_int] agrees with the digits, up to its
    signed range. *)
Lemma parse_int_unsigned (fn s : string) (base bitSize v : Z) :
  s <> "" -> digits base s 0 = Some v ->
  parse_int fn s base bitSize
  = if Z.leb (2 ^ (bitSize - 1)) v then inr (range_error fn s) else inl v.
Proof.
  intros Hne Hd. destruct s as [| c rest]; [congruence |].
  unfold parse_int. rewrite (no_sign c rest (digits_head _ _ _ _ Hd)).
  rewrite Hd. simpl. destruct (Z.leb (2 ^ (bitSize - 1)) v); reflexivity.
Qed.

End StrconvSpec.

(** ** Unix devices: numbers, validation, nesting, missing directory *)

Module UnixDeviceMoreSpec.
Import GoStrings Strconv UnixDevice UnixDeviceMore StrconvSpec.

Lemma get_with_numbers (m : gmap string string) (type : string)
  (major minor : Z) (path : string) :
  get (with_numbers m type major minor path) "type" = type
  /\ get (with_numbers m type major minor path) "major" = FormatUint major
  /\ get (with_numbers m type major minor path) "minor" = FormatUint minor
  /\ get (with_numbers m type major minor path) "path" = path
  /\ get (with_numbers m type major minor path) "source" = get m "source".
Proof.
  unfold get, with_numbers.
  repeat split;
    repeat first [ rewrite lookup_insert_eq
                 | rewrite lookup_insert_ne by discriminate ];
    reflexivity.
Qed.

Section Created.
Context {W : Type} `{Host W}.

(** What the record of a created device holds. *)
Lemma UnixDeviceCreate_success (w w' : W) (os : OS) (shift : bool)
  (devicesPath prefix : string) (m : gmap string string) (defaultMode : bool)
  (d : UnixDevice) :
  UnixDeviceCreate w os shift devicesPath prefix m defaultMode = (w', inl d) ->
  resolve_numbers w m (unixDeviceSourcePath m) = inl (Major_ d, Minor_ d)
  /\ Type_ d = (if String.eqb (get m "type") "unix-block" then "b" else "c")
  /\ RelativePath d = TrimPrefix (unixDeviceDestPath m) "/"
  /\ HostPath d
     = Join devicesPath
         (PathNameEncode (deviceJoinPath [prefix; RelativePath d]))
  /\ resolve_owner w m (unixDeviceSourcePath m) = inl (UID d, GID d)
  /\ (RunningInUserNS os = true -> nested_property m = None).
Proof.
  unfold UnixDeviceCreate. intros Hc.
  destruct (if RunningInUserNS os then nested_property m else None)
    as [key |] eqn:Hnest; [discriminate |].
  destruct (resolve_numbers w m (unixDeviceSourcePath m))
    as [[major minor] | e]; [| discriminate].
  destruct (resolve_mode w m (unixDeviceSourcePath m) defaultMode)
    as [mode0 | e]; [| discriminate].
  destruct (resolve_owner w m (unixDeviceSourcePath m))
    as [[uid gid] | e]; [| destruct (String.eqb (get m "type") "unix-block");
                           discriminate].
  destruct (String.eqb (get m "type") "unix-block");
    destruct (if negb (PathExists w devicesPath)
              then Mkdir w devicesPath 457 else (w, None))
      as [w1 [e |]]; try discriminate;
    match type of Hc with
    | context [materialize ?x1 ?x2 ?x3 ?x4 ?x5 ?x6 ?x7 ?x8 ?x9 ?x10] =>
        destruct (materialize x1 x2 x3 x4 x5 x6 x7 x8 x9 x10)
          as [w2 [e |]]; [discriminate |]
    end;
    injection Hc as _ <-; simpl;
    (repeat split; try reflexivity);
    intros Hns; rewrite Hns in Hnest; exact Hnest.
Qed.

(** With both numbers in the config the host is not asked for them. *)
Lemma resolve_numbers_explicit (w : W) (m : gmap string string)
  (srcPath : string) (major minor : Z) :
  0 <= major < 2 ^ 32 -> 0 <= minor < 2 ^ 32 ->
  get m "major" = FormatUint major -> get m "minor" = FormatUint minor ->
  resolve_numbers w m srcPath = inl (major, minor).
Proof.
  intros Hma Hmi Ema Emi. unfold resolve_numbers. rewrite Ema, Emi.
  unfold FormatUint.
  assert (Na : String.eqb (itoa major) "" = false)
    by (apply String.eqb_neq, itoa_nonempty; lia).
  assert (Ni : String.eqb (itoa minor) "" = false)
    by (apply String.eqb_neq, itoa_nonempty; lia).
  rewrite Na, Ni. simpl.
  rewrite (ParseUint_FormatUint major Hma), (ParseUint_FormatUint minor Hmi).
  reflexivity.
Qed.

End Created.

Section ByNumber.
Context {W : Type} `{Host W}.

Lemma setup_with_numbers (w w' : W) (os : OS)
  (devicesPath typePrefix deviceName : string) (m : gmap string string)
  (type : string) (major minor : Z) (path : string) (defaultMode : bool)
  (runConf runConf' : RunConfig) :
  0 <= major < 2 ^ 32 -> 0 <= minor < 2 ^ 32 ->
  unixDeviceSetup w os devicesPath typePrefix deviceName
    (with_numbers m type major minor path) defaultMode runConf
  = (w', runConf', None) ->
  by_number_outcome runConf runConf' m
    (if String.eqb type "unix-block" then "b" else "c") major minor path.
Proof.
  intros Hma Hmi. unfold unixDeviceSetup.
  destruct (ReadDir w devicesPath) as [dents rerr].
  destruct (match rerr with
            | Some e => if negb (IsNotExist e) then Some e else None
            | None => None
            end); [discriminate |].
  destruct (find_dupe dents _) as [dupe | e]; [| discriminate].
  destruct (UnixDeviceCreate w os false devicesPath
              (deviceJoinPath [typePrefix; deviceName])
              (with_numbers m type major minor path) defaultMode)
    as [w1 [d | e]] eqn:Hc; [| discriminate].
  destruct (get_with_numbers m type major minor path)
    as [Gt [Gma [Gmi [Gp Gs]]]].
  destruct (UnixDeviceCreate_success _ _ _ _ _ _ _ _ _ Hc)
    as [Hnum [Hty [Hrel _]]].
  rewrite (resolve_numbers_explicit w _ _ major minor Hma Hmi Gma Gmi) in Hnum.
  injection Hnum as Hd1 Hd2. rewrite Gt in Hty.
  unfold unixDeviceDestPath in Hrel. rewrite Gp, Gs in Hrel.
  destruct dupe; intros Hr; injection Hr as _ <-.
  - left. reflexivity.
  - right. exists (HostPath d). unfold mount_entry, allow_rule, cgroup_rule.
    rewrite Hrel, Hty, <- Hd1, <- Hd2. reflexivity.
Qed.

(** X1. A setup by number that succeeds leaves the run configuration as it
    was (the destination was taken) or adds the mount of the given path and
    the rule [devices.allow c major:minor rwm] ([b] for the block variant):
    the type, the numbers and the path passed to the call win over whatever
    the device config holds, and the numbers do not come from a stat of the
    source. *)
Theorem setup_by_number_uses_given_numbers (w w' : W) (os : OS)
  (devicesPath typePrefix deviceName : string) (m : gmap string string)
  (major minor : Z) (path : string) (defaultMode : bool)
  (runConf runConf' : RunConfig) :
  0 <= major < 2 ^ 32 -> 0 <= minor < 2 ^ 32 ->
  (unixDeviceSetupCharNum w os devicesPath typePrefix deviceName m major minor
     path defaultMode runConf = (w', runConf', None) ->
   by_number_outcome runConf runConf' m "c" major minor path)
  /\ (unixDeviceSetupBlockNum w os devicesPath typePrefix deviceName m major
        minor path defaultMode runConf = (w', runConf', None) ->
      by_number_outcome runConf runConf' m "b" major minor path).
Proof.
  intros Hma Hmi. split; intros Hr.
  - exact (setup_with_numbers _ _ _ _ _ _ _ "unix-char" _ _ _ _ _ _ Hma Hmi Hr).
  - exact (setup_with_numbers _ _ _ _ _ _ _ "unix-block" _ _ _ _ _ _ Hma Hmi
             Hr).
Qed.

End ByNumber.

Section Validation.
Context {W : Type} `{Host W}.

Lemma digits_nonneg (base : Z) (s : string) (acc v : Z) :
  0 <= base -> 0 <= acc -> digits base s acc = Some v -> 0 <= v.
Proof.
  intros Hb. revert acc. induction s as [| c s IH]; intros acc Ha Hd.
  - simpl in Hd. injection Hd as <-. exact Ha.
  - simpl in Hd. destruct (digit_val c) as [d |] eqn:Hc; [| discriminate].
    destruct (Z.ltb d base); [| discriminate].
    apply (IH (acc * base + d)); [| exact Hd].
    assert (0 <= d).
    { unfold digit_val in Hc.
      repeat match type of Hc with
             | (if ?b then _ else _) = _ => destruct b eqn:?
             end; try discriminate; injection Hc as <-; lia. }
    nia.
Qed.

(** A value the validator of IDs lets through, when it is not empty, is a
    number of 32 bits that [Atoi] reads as well. *)
Lemma valid_id_parses (value : string) :
  unixValidUserID value = None -> value <> "" ->
  exists v, 0 <= v < 2 ^ 32 /\ ParseUint value 10 32 = inl v
            /\ Atoi value = inl v.
Proof.
  unfold unixValidUserID. intros Hv Hne.
  apply String.eqb_neq in Hne. rewrite Hne in Hv.
  destruct (ParseUint value 10 32) as [v |] eqn:Hp; [| discriminate].
  exists v. apply ParseUint_inl in Hp. destruct Hp as [Hn [Hd Hlt]].
  assert (Hpos : 0 <= v) by (apply (digits_nonneg 10 value 0); [lia | lia | exact Hd]).
  split; [lia |]. split; [reflexivity |].
  unfold Atoi. rewrite (parse_int_unsigned "Atoi" value 10 64 v Hn Hd).
  destruct (Z.leb_spec (2 ^ (64 - 1)) v); [| reflexivity].
  exfalso. assert (2 ^ 32 < 2 ^ (64 - 1)) by (vm_compute; reflexivity). lia.
Qed.

(** X2. A device config whose uid and gid passed unixValidUserID never fails
    on its owner in UnixDeviceCreate when the ownership is not inherited:
    both are read (0 when left empty) and lie in the range of 32 bits. And a
    config whose major and minor passed unixValidDeviceNum and are both set
    gets its numbers without the host being asked. *)
Theorem validated_config_parses (w : W) (m : gmap string string)
  (srcPath : string) :
  (IsTrue (get m "ownership.inherit") = false ->
   unixValidUserID (get m "uid") = None ->
   unixValidUserID (get m "gid") = None ->
   exists uid gid,
     resolve_owner w m srcPath = inl (uid, gid)
     /\ 0 <= uid < 2 ^ 32 /\ 0 <= gid < 2 ^ 32)
  /\ (get m "major" <> "" -> get m "minor" <> "" ->
      unixValidDeviceNum (get m "major") = None ->
      unixValidDeviceNum (get m "minor") = None ->
      exists major minor,
        ParseUint (get m "major") 10 32 = inl major
        /\ ParseUint (get m "minor") 10 32 = inl minor
        /\ forall w' : W, resolve_numbers w' m srcPath = inl (major, minor)).
Proof.
  split.
  - intros Hi Hu Hg. unfold resolve_owner. rewrite Hi.
    destruct (String.eqb_spec (get m "uid") "") as [Eu | Nu];
      destruct (String.eqb_spec (get m "gid") "") as [Eg | Ng]; simpl.
    + exists 0, 0. repeat split; lia.
    + destruct (valid_id_parses _ Hg Ng) as [g [Hr [_ Ha]]]. rewrite Ha.
      exists 0, g. repeat split; lia.
    + destruct (valid_id_parses _ Hu Nu) as [u [Hr [_ Ha]]]. rewrite Ha.
      exists u, 0. repeat split; lia.
    + destruct (valid_id_parses _ Hu Nu) as [u [Hru [_ Hau]]].
      destruct (valid_id_parses _ Hg Ng) as [g [Hrg [_ Hag]]].
      rewrite Hau, Hag. exists u, g. repeat split; lia.
  - intros Nma Nmi Vma Vmi. unfold unixValidDeviceNum in Vma, Vmi.
    apply String.eqb_neq in Nma, Nmi. rewrite Nma in Vma. rewrite Nmi in Vmi.
    destruct (ParseUint (get m "major") 10 32) as [major |] eqn:Hma;
      [| discriminate].
    destruct (ParseUint (get m "minor") 10 32) as [minor |] eqn:Hmi;
      [| discriminate].
    exists major, minor. repeat split. intros w'.
    unfold resolve_numbers. rewrite Nma, Nmi, Hma, Hmi. reflexivity.
Qed.

(** X3. The validator of file modes reads 32 unsigned bits, UnixDeviceCreate
    reads 32 signed bits: a mode that passed unixValidOctalFileMode is
    accepted by unixDeviceModeOct only below 2^31, and a mode from 2^31 on
    (20000000000 in octal is the first) passes the validator and is refused
    with a bad-mode error. *)
Theorem valid_mode_may_be_refused (value : string) :
  unixValidOctalFileMode value = None -> value <> "" ->
  exists v,
    0 <= v < 2 ^ 32 /\ ParseUint value 8 32 = inl v
    /\ unixDeviceModeOct value
       = (if Z.ltb v (2 ^ 31) then inl v
          else inr (Errorf "Bad device mode: %s" [FStr value])).
Proof.
  unfold unixValidOctalFileMode. intros Hv Hne.
  pose proof Hne as Hne'. apply String.eqb_neq in Hne'. rewrite Hne' in Hv.
  destruct (ParseUint value 8 32) as [v |] eqn:Hp; [| discriminate].
  exists v. apply ParseUint_inl in Hp. destruct Hp as [Hn [Hd Hlt]].
  assert (Hpos : 0 <= v)
    by (apply (digits_nonneg 8 value 0); [lia | lia | exact Hd]).
  split; [lia |]. split; [reflexivity |].
  unfold unixDeviceModeOct, ParseInt.
  rewrite (parse_int_unsigned "ParseInt" value 8 32 v Hn Hd).
  change (2 ^ (32 - 1)) with (2 ^ 31).
  destruct (Z.leb_spec (2 ^ 31) v); destruct (Z.ltb_spec v (2 ^ 31));
    try lia; reflexivity.
Qed.

Lemma valid_mode_witness :
  exists v,
    0 <= v < 2 ^ 32 /\ ParseUint "20000000000" 8 32 = inl v
    /\ unixDeviceModeOct "20000000000"
       = (if Z.ltb v (2 ^ 31) then inl v
          else inr (Errorf "Bad device mode: %s" [FStr "20000000000"])).
Proof.
  apply valid_mode_may_be_refused; [vm_compute; reflexivity | discriminate].
Defined.

(** The first mode in the gap. *)
Example mode_in_the_gap :
  unixValidOctalFileMode "20000000000" = None
  /\ unixDeviceModeOct "20000000000"
     = inr (Errorf "Bad device mode: %s" [FStr "20000000000"])
  /\ unixDeviceModeOct "17777777777" = inl (2 ^ 31 - 1).
Proof. vm_compute. auto. Qed.

End Validation.

Section Dots.

Lemma substring_all (s : string) : String.substring 0 (String.length s) s = s.
Proof. induction s as [| c s IH]; [reflexivity |]. simpl. now rewrite IH. Qed.

Lemma substring_skip (a b : string) :
  String.substring (String.length a) (String.length b) (a +:+ b) = b.
Proof.
  induction a as [| c a IH]; [apply substring_all |].
  simpl. exact IH.
Qed.

Lemma length_append (a b : string) :
  String.length (a +:+ b) = (String.length a + String.length b)%nat.
Proof. induction a as [| c a IH]; [reflexivity |]. simpl. now rewrite IH. Qed.

(** Where the last occurrence of the separator is. *)
Lemma last_index_from_spec (sep : ascii) (s : string) (pos found : Z) :
  (Count s sep = 0%nat /\ last_index_from s sep pos found = found)
  \/ (exists a b,
        s = a +:+ String sep b /\ Count b sep = 0%nat
        /\ last_index_from s sep pos found
           = pos + Z.of_nat (String.length a)).
Proof.
  revert pos found. induction s as [| c s IH]; intros pos found.
  - left. split; reflexivity.
  - simpl. destruct (IH (pos + 1) (if Ascii.eqb c sep then pos else found))
      as [[Hc Hl] | [a [b [Hs [Hb Hl]]]]].
    + destruct (Ascii.eqb_spec c sep) as [-> | Hne].
      * right. exists "", s. repeat split; [exact Hc |].
        rewrite Hl. simpl. lia.
      * left. split; [exact Hc | exact Hl].
    + right. exists (String c a), b. split; [simpl; now rewrite Hs |].
      split; [exact Hb |]. rewrite Hl. simpl String.length. lia.
Qed.

(** What follows the last dot holds no dot. *)
Lemma after_last_dot_no_dot (devName : string) :
  Count (after_last_dot devName) "." = 0%nat.
Proof.
  unfold after_last_dot, LastIndex, slice_from.
  destruct (last_index_from_spec "." devName 0 (-1))
    as [[Hc Hl] | [a [b [Hs [Hb Hl]]]]].
  - rewrite Hl. simpl Z.to_nat. rewrite Nat.sub_0_r, substring_all. exact Hc.
  - rewrite Hl.
    replace (Z.to_nat (0 + Z.of_nat (String.length a) + 1))
      with (String.length (a +:+ ".")) by (rewrite length_append; simpl; lia).
    assert (Hsplit : devName = (a +:+ ".") +:+ b).
    { rewrite Hs. clear. induction a as [| c a IH]; [reflexivity |].
      change (String c (a +:+ String "." b) = String c ((a +:+ ".") +:+ b)).
      now rewrite IH. }
    rewrite Hsplit. rewrite (length_append (a +:+ ".") b).
    replace (String.length (a +:+ ".") + String.length b
             - String.length (a +:+ "."))%nat
      with (String.length b) by lia.
    rewrite substring_skip. exact Hb.
Qed.

(** X4. The scan of unixDeviceSetup compares what follows the last dot of
    each file name with the encoded destination of the new device; what
    follows a last dot holds no dot, so a new device whose encoded
    destination holds a dot is never found to be a duplicate, whatever files
    are listed: no listed file has its destination. *)
Theorem dotted_destination_never_duplicate (dents : list string)
  (ourEncRelDestFile : string) :
  (0 < Count ourEncRelDestFile ".")%nat ->
  find_dupe dents ourEncRelDestFile <> inl true
  /\ dest_taken dents ourEncRelDestFile = false.
Proof.
  intros Hdot.
  assert (Hne : forall devName,
             String.eqb (after_last_dot devName) ourEncRelDestFile = false).
  { intros devName. apply String.eqb_neq. intros Heq.
    pose proof (after_last_dot_no_dot devName) as Hc.
    rewrite Heq in Hc. lia. }
  split.
  - induction dents as [| devName rest IH]; [discriminate |].
    simpl. destruct (Z.eqb (LastIndex devName ".") (-1)); [discriminate |].
    rewrite Hne. exact IH.
  - unfold dest_taken. apply not_true_is_false. intros Ht.
    apply existsb_exists in Ht. destruct Ht as [n [_ Hn]].
    rewrite Hne in Hn. discriminate.
Qed.

Lemma dotted_destination_witness :
  find_dupe ["unix.gpu0.dev-foo.bar"] "dev-foo.bar" <> inl true
  /\ dest_taken ["unix.gpu0.dev-foo.bar"] "dev-foo.bar" = false.
Proof.
  apply dotted_destination_never_duplicate. vm_compute. lia.
Defined.

End Dots.

Section Nesting.
Context {W : Type} `{Host W}.

Lemma get_lookup (m : gmap string string) (key : string) :
  get m key <> "" -> m !! key = Some (get m key).
Proof.
  unfold get. destruct (m !! key) as [v |]; [reflexivity |].
  simpl. congruence.
Qed.

(** X5. Under a user namespace UnixDeviceCreate refuses a config that sets
    any of major, minor, mode, uid or gid: it fails, naming one of the
    properties that are set, and leaves the host as it was. *)
Theorem nested_refuses_device_properties (w : W) (os : OS) (shift : bool)
  (devicesPath prefix : string) (m : gmap string string) (defaultMode : bool)
  (key : string) :
  RunningInUserNS os = true ->
  In key deviceProperties ->
  get m key <> "" ->
  exists k,
    In k deviceProperties /\ get m k <> ""
    /\ UnixDeviceCreate w os shift devicesPath prefix m defaultMode
       = (w, inr (Errorf
            "The %q property may not be set when adding a device to a nested container"
            [FQuoted k])).
Proof.
  intros Hns Hkey Hset. unfold UnixDeviceCreate. rewrite Hns.
  unfold nested_property.
  set (keep := fun kv : string * string =>
                 (negb (String.eqb (snd kv) "")
                  && existsb (String.eqb (fst kv)) deviceProperties)%bool).
  assert (Hin : In (key, get m key) (List.filter keep (map_to_list m))).
  { apply filter_In. split.
    - apply list_elem_of_In, elem_of_map_to_list, get_lookup. exact Hset.
    - unfold keep. cbn [fst snd]. apply andb_true_iff. split.
      + apply negb_true_iff, String.eqb_neq. exact Hset.
      + apply existsb_exists. exists key. split; [exact Hkey |].
        apply String.eqb_refl. }
  destruct (List.filter keep (map_to_list m)) as [| kv rest] eqn:Hf;
    [destruct Hin |].
  assert (Hkv : In kv (List.filter keep (map_to_list m)))
    by (rewrite Hf; left; reflexivity).
  apply filter_In in Hkv. destruct Hkv as [Hm Hk].
  unfold keep in Hk. apply andb_true_iff in Hk. destruct Hk as [Hv Hp].
  apply negb_true_iff, String.eqb_neq in Hv.
  apply existsb_exists in Hp. destruct Hp as [p [Hp Heq]].
  apply String.eqb_eq in Heq. subst p.
  destruct kv as [k v]. cbn [fst snd] in *.
  apply list_elem_of_In, elem_of_map_to_list in Hm.
  exists k. split; [exact Hp |]. split; [| reflexivity].
  unfold get. rewrite Hm. exact Hv.
Qed.

End Nesting.

Section MissingDirectory.
Context {W : Type} `{Host W} `{Cleanup W}.

(** X6. A devices directory that does not exist counts as empty: Remove and
    DeleteFiles succeed and change nothing, and Setup goes on to create the
    device, which then gets its mount and its cgroup rule. *)
Theorem missing_directory_is_empty (w : W) (os : OS)
  (devicesPath typePrefix deviceName optPrefix : string)
  (m : gmap string string) (defaultMode : bool) (runConf : RunConfig)
  (e : error) :
  ReadDir w devicesPath = ([], Some e) ->
  IsNotExist e = true ->
  unixDeviceRemove w devicesPath typePrefix deviceName optPrefix runConf
  = (runConf, None)
  /\ unixDeviceDeleteFiles w os devicesPath typePrefix deviceName optPrefix
     = (w, None)
  /\ unixDeviceSetup w os devicesPath typePrefix deviceName m defaultMode
       runConf
     = match UnixDeviceCreate w os false devicesPath
               (deviceJoinPath [typePrefix; deviceName]) m defaultMode with
       | (w', inr err) => (w', runConf, Some err)
       | (w', inl d) =>
           (w', {| Mounts := Mounts runConf ++ [mount_entry d];
                   CGroups := CGroups runConf ++ [allow_rule d] |}, None)
       end.
Proof.
  intros Hr He. unfold unixDeviceRemove, unixDeviceDeleteFiles, unixDeviceSetup.
  rewrite Hr, He. simpl. split; [reflexivity | split; [reflexivity |]].
  destruct (UnixDeviceCreate w os false devicesPath
                (deviceJoinPath [typePrefix; deviceName]) m defaultMode)
      as [w' [d | err]]; reflexivity.
Qed.

End MissingDirectory.

(** *** On the host in memory *)

Import MemHost MemHostMore.

Lemma setup_by_number_witness :
  by_number_outcome no_run_config
    (snd (fst (unixDeviceSetupCharNum gpu_host privileged "/devices" "unix"
                 "gpu0" stale_config 226 0 "/dev/dri/card0" true
                 no_run_config)))
    stale_config "c" 226 0 "/dev/dri/card0".
Proof.
  apply (proj1 (setup_by_number_uses_given_numbers gpu_host
                  (fst (fst (unixDeviceSetupCharNum gpu_host privileged
                               "/devices" "unix" "gpu0" stale_config 226 0
                               "/dev/dri/card0" true no_run_config)))
                  privileged "/devices" "unix" "gpu0" stale_config 226 0
                  "/dev/dri/card0" true no_run_config _
                  ltac:(lia) ltac:(lia))).
  vm_compute. reflexivity.
Defined.

(** The config says block device 8:1; the setup by number creates the
    character device 226:0 it was given. *)
Example setup_by_number_overrides :
  snd (fst (unixDeviceSetupCharNum gpu_host privileged "/devices" "unix"
              "gpu0" stale_config 226 0 "/dev/dri/card0" true no_run_config))
  = {| Mounts :=
         [{| DevSource := Some "/devices/unix.gpu0.dev-dri-card0";
             TargetPath := "dev/dri/card0"; FSType := "none";
             Opts := ["bind"; "create=file"];
             OwnerShift_ := MountOwnerShiftStatic |}];
       CGroups := [{| Key := "devices.allow"; Value := "c 226:0 rwm" |}] |}.
Proof. vm_compute. reflexivity. Qed.

Lemma validated_config_witness :
  exists uid gid,
    resolve_owner gpu_host {[ "uid" := "1000" ]} "/dev/dri/card0"
    = inl (uid, gid)
    /\ 0 <= uid < 2 ^ 32 /\ 0 <= gid < 2 ^ 32.
Proof.
  apply (proj1 (validated_config_parses gpu_host {[ "uid" := "1000" ]}
                  "/dev/dri/card0")); vm_compute; reflexivity.
Defined.

Lemma nested_refuses_witness :
  exists k,
    In k deviceProperties /\ get nested_config k <> ""
    /\ UnixDeviceCreate gpu_host nested false "/devices" "unix.gpu0"
         nested_config false
       = (gpu_host, inr (Errorf
            "The %q property may not be set when adding a device to a nested container"
            [FQuoted k])).
Proof.
  apply (nested_refuses_device_properties gpu_host nested false "/devices"
           "unix.gpu0" nested_config false "mode").
  - reflexivity.
  - simpl. tauto.
  - vm_compute. discriminate.
Defined.

Lemma missing_directory_witness :
  unixDeviceRemove bare_host "/devices" "unix" "gpu0" "" no_run_config
  = (no_run_config, None)
  /\ unixDeviceDeleteFiles bare_host privileged "/devices" "unix" "gpu0" ""
     = (bare_host, None).
Proof.
  destruct (missing_directory_is_empty bare_host privileged "/devices" "unix"
              "gpu0" "" gpu_config false no_run_config (SysError ENOENT))
    as [Hr [Hd _]]; [vm_compute; reflexivity | reflexivity |].
  split; [exact Hr | exact Hd].
Defined.

End UnixDeviceMoreSpec.

(** ** dnsmasq: static allocations win, write then read *)

Module DnsmasqMoreSpec.
Import GoStrings Dnsmasq DnsmasqMore.

Lemma static_kept_refl (m : gmap (list Z) DHCPAllocation) : static_kept m m.
Proof. intros key a Hl _. exact Hl. Qed.

Lemma static_kept_trans (m1 m2 m3 : gmap (list Z) DHCPAllocation) :
  static_kept m1 m2 -> static_kept m2 m3 -> static_kept m1 m3.
Proof. intros H12 H23 key a Hl Hs. apply H23; [apply H12 |]; assumption. Qed.

(** An insert at a key whose allocation names no static file keeps the
    static allocations. *)
Lemma static_kept_insert (m : gmap (list Z) DHCPAllocation) (k : list Z)
  (a : DHCPAllocation) :
  String.eqb (static_name m k) "" = true -> static_kept m (<[k := a]> m).
Proof.
  intros Hfree key b Hl Hs. destruct (decide (k = key)) as [-> | Hne].
  - exfalso. apply String.eqb_eq in Hfree. unfold static_name in Hfree.
    rewrite Hl in Hfree. simpl in Hfree. congruence.
  - rewrite lookup_insert_ne by exact Hne. exact Hl.
Qed.

Section Invariants.
Context {FS : Type} `{Host FS}.

Lemma lease_line_static_kept (maps maps' : Maps) (line : string) :
  lease_line maps line = inl maps' ->
  static_kept (fst maps) (fst maps') /\ static_kept (snd maps) (snd maps').
Proof.
  unfold lease_line. intros Hl.
  destruct (Nat.eqb (length (Fields line)) 5);
    [| injection Hl as <-; split; apply static_kept_refl].
  destruct (ParseIP (nth 2 (Fields line) "")) as [ip |]; [| discriminate].
  destruct (To4 (Some ip)) as [ip4 |].
  - destruct (ParseMAC (nth 1 (Fields line) "")) as [mac | err];
      [| discriminate].
    destruct (String.eqb (static_name (fst maps) (copy_key 4 (Some ip4))) "")
      eqn:Hfree; simpl in Hl; injection Hl as <-.
    + split; [apply static_kept_insert; exact Hfree | apply static_kept_refl].
    + split; apply static_kept_refl.
  - destruct (String.eqb
                (static_name (snd maps) (copy_key 16 (To16 (Some ip)))) "")
      eqn:Hfree; simpl in Hl; injection Hl as <-.
    + split; [apply static_kept_refl | apply static_kept_insert; exact Hfree].
    + split; apply static_kept_refl.
Qed.

Lemma lease_loop_static_kept (ls : list string) (maps maps' : Maps) :
  lease_loop maps ls = inl maps' ->
  static_kept (fst maps) (fst maps') /\ static_kept (snd maps) (snd maps').
Proof.
  revert maps. induction ls as [| l rest IH]; intros maps Hl.
  - simpl in Hl. injection Hl as <-. split; apply static_kept_refl.
  - simpl in Hl. destruct (lease_line maps l) as [maps1 | err] eqn:Hline;
      [| discriminate].
    destruct (lease_line_static_kept _ _ _ Hline) as [H4 H6].
    destruct (IH maps1 Hl) as [H4' H6'].
    split; eapply static_kept_trans; eassumption.
Qed.

Lemma allocations_of_inv (fs : FS) (network : string) (files : list string)
  (maps : Maps) :
  allocations_of fs network files = inl maps ->
  exists smaps file,
    static_loop fs network files (∅, ∅) = inl smaps
    /\ Open fs (leases_file network) = inl file
    /\ lease_loop smaps (lines file) = inl maps.
Proof.
  unfold allocations_of, leases_file. intros Ha.
  destruct (static_loop fs network files (∅, ∅)) as [smaps | e];
    [| discriminate].
  destruct (Open fs (VarPath ["networks"; network; "dnsmasq.leases"]))
    as [file | e]; [| discriminate].
  destruct (lease_loop smaps (lines file)) as [maps1 | e] eqn:Hl;
    [| discriminate].
  destruct (scan_err file); [discriminate |]. injection Ha as <-.
  exists smaps, file. repeat split. exact Hl.
Qed.

Lemma DHCPAllAllocations_inv (fs : FS) (network : string) (maps : Maps) :
  DHCPAllAllocations fs network = inl maps ->
  allocations_of fs network (fst (ReadDir fs (hosts_dir network))) = inl maps.
Proof.
  unfold DHCPAllAllocations, hosts_dir.
  destruct (ReadDir fs (VarPath ["networks"; network; "dnsmasq.hosts"]))
    as [files [e |]]; simpl; [| tauto].
  destruct (IsNotExist e); [discriminate | tauto].
Qed.

(** X7. Static allocations are not overridden by leases: every allocation
    that the pass over the dnsmasq.hosts files recorded with the name of its
    static file is in the maps DHCPAllAllocations returns, unchanged. *)
Theorem static_allocations_win (fs : FS) (network : string) (maps : Maps) :
  DHCPAllAllocations fs network = inl maps ->
  exists smaps,
    static_loop fs network (fst (ReadDir fs (hosts_dir network))) (∅, ∅)
    = inl smaps
    /\ static_kept (fst smaps) (fst maps)
    /\ static_kept (snd smaps) (snd maps).
Proof.
  intros Ha. apply DHCPAllAllocations_inv, allocations_of_inv in Ha.
  destruct Ha as [smaps [file [Hs [_ Hl]]]].
  exists smaps. split; [exact Hs |].
  exact (lease_loop_static_kept _ _ _ Hl).
Qed.


End Invariants.

(** *** Write, then read *)

Lemma Count_append (s t : string) (sep : ascii) :
  Count (s +:+ t) sep = (Count s sep + Count t sep)%nat.
Proof.
  induction s as [| c s IH]; [reflexivity |].
  change (Count (String c (s +:+ t)) sep
          = (Count (String c s) sep + Count t sep)%nat).
  simpl. rewrite IH. lia.
Qed.

Lemma split_acc_no_sep (a rest cur : string) (sep : ascii) :
  Count a sep = 0%nat ->
  split_acc (a +:+ rest) sep cur = split_acc rest sep (cur +:+ a).
Proof.
  revert cur. induction a as [| c a IH]; intros cur Hc.
  - now rewrite DnsmasqSpec.append_nil_r.
  - change (split_acc (String c (a +:+ rest)) sep cur
            = split_acc rest sep (cur +:+ String c a)).
    simpl in Hc. simpl. destruct (Ascii.eqb c sep); [discriminate |].
    rewrite IH by exact Hc. rewrite DnsmasqSpec.append_assoc. reflexivity.
Qed.

Lemma split_acc_field (a rest : string) (sep : ascii) :
  Count a sep = 0%nat ->
  split_acc (a +:+ String sep rest) sep "" = a :: split_acc rest sep "".
Proof.
  intros Hc. rewrite split_acc_no_sep by exact Hc. simpl.
  now rewrite Ascii.eqb_refl.
Qed.

Lemma split_acc_last (a : string) (sep : ascii) :
  Count a sep = 0%nat -> split_acc a sep "" = [a].
Proof.
  intros Hc. rewrite <- (DnsmasqSpec.append_nil_r a) at 1.
  now rewrite split_acc_no_sep by exact Hc.
Qed.

(** The bracketed field: what is between the brackets. *)
Lemma bracketed_inner (s : string) :
  String.substring 1 (String.length (String "[" (s +:+ "]")) - 2)
    (String "[" (s +:+ "]"))
  = s.
Proof.
  simpl. rewrite UnixDeviceMoreSpec.length_append. simpl.
  replace (String.length s + 1 - 1)%nat with (String.length s) by lia.
  induction s as [| c s IH]; [reflexivity |].
  change (String c (String.substring 0 (String.length s) (s +:+ "]"))
          = String c s).
  now rewrite IH.
Qed.

Lemma bracketed_prefix (s : string) : HasPrefix (String "[" s) "[" = true.
Proof. unfold HasPrefix. simpl. destruct s; reflexivity. Qed.

Lemma substring_closing (s : string) :
  String.substring (String.length s) 1 (s +:+ "]") = "]".
Proof. induction s as [| c s IH]; [reflexivity |]. simpl. exact IH. Qed.

Lemma bracketed_suffix (s : string) :
  HasSuffix (String "[" (s +:+ "]")) "]" = true.
Proof.
  unfold HasSuffix.
  change (String.length (String "[" (s +:+ "]")))
    with (S (String.length (s +:+ "]"))).
  rewrite UnixDeviceMoreSpec.length_append.
  change (String.length "]") with 1%nat.
  replace (S (String.length s + 1) - 1)%nat with (S (String.length s))
    by lia.
  change (String.substring (S (String.length s)) 1 (String "[" (s +:+ "]")))
    with (String.substring (String.length s) 1 (s +:+ "]")).
  rewrite substring_closing. reflexivity.
Qed.

Lemma append_cons (c : ascii) (s t : string) :
  String c s +:+ t = String c (s +:+ t).
Proof. reflexivity. Qed.

Section RoundTrip.
Context {FS : Type} `{Host FS}.

Lemma static_field_mac (name : string) (st : Static) (field : string)
  (mac : bytes) :
  Count field "." <> 3%nat ->
  (HasPrefix field "[" && HasSuffix field "]")%bool = false ->
  Count field ":" = 5%nat ->
  ParseMAC field = inl mac ->
  static_field name st field
  = ({| s_mac := Some mac; s_IPv4 := s_IPv4 st; s_IPv6 := s_IPv6 st |}, None).
Proof.
  intros Hd Hb Hc Hm. unfold static_field.
  apply Nat.eqb_neq in Hd. rewrite Hd, Hb, Hc, Hm. reflexivity.
Qed.

Lemma static_field_v4 (name : string) (st : Static) (field : string)
  (ip4 : bytes) :
  Count field "." = 3%nat ->
  To4 (ParseIP field) = Some ip4 ->
  static_field name st field
  = ({| s_mac := s_mac st;
        s_IPv4 := {| IP := Some ip4; StaticFileName := name;
                     MAC := s_mac st |};
        s_IPv6 := s_IPv6 st |}, None).
Proof.
  intros Hd Hp. unfold static_field. rewrite Hd, Hp. reflexivity.
Qed.

Lemma static_field_v6 (name : string) (st : Static) (address : string)
  (ip : bytes) :
  Count address "." <> 3%nat ->
  ParseIP address = Some ip ->
  static_field name st (String "[" (address +:+ "]"))
  = ({| s_mac := s_mac st; s_IPv4 := s_IPv4 st;
        s_IPv6 := {| IP := Some ip; StaticFileName := name;
                     MAC := s_mac st |} |}, None).
Proof.
  intros Hd Hp. unfold static_field.
  assert (Hc : Count (String "[" (address +:+ "]")) "." = Count address ".").
  { change (Count (String "[" (address +:+ "]")) ".")
      with (Count (address +:+ "]") ".").
    rewrite Count_append. simpl. lia. }
  rewrite Hc. apply Nat.eqb_neq in Hd. rewrite Hd.
  rewrite bracketed_suffix, bracketed_inner, Hp.
  rewrite bracketed_prefix. reflexivity.
Qed.

Lemma static_field_plain (name : string) (st : Static) (field : string) :
  plain_field field -> static_field name st field = (st, None).
Proof.
  intros [Hd [Hb Hc]]. unfold static_field.
  apply Nat.eqb_neq in Hd, Hc. now rewrite Hd, Hb, Hc.
Qed.

(** The fields of the line UpdateStaticEntry writes when an IPv4 address is
    given. *)
Lemma Split_written_line (netConfig : gmap string string)
  (projectName instanceName mac ipv4Address ipv6Address : string) :
  Count mac "," = 0%nat ->
  Count ipv4Address "," = 0%nat ->
  ipv4Address <> "" ->
  (ipv6Address <> "" -> Count ipv6Address "," = 0%nat) ->
  (dns_managed netConfig = true ->
   Count (project_DNS projectName instanceName) "," = 0%nat) ->
  Split (mac +:+ after_mac netConfig projectName instanceName ipv4Address
                   ipv6Address) ","
  = mac :: ipv4Address
    :: (if String.eqb ipv6Address "" then []
        else [String "[" (ipv6Address +:+ "]")])
    ++ (if dns_managed netConfig
        then [project_DNS projectName instanceName] else []).
Proof.
  intros Hm H4 Hne4 H6 Hh. unfold Split, after_mac.
  apply String.eqb_neq in Hne4. rewrite Hne4.
  change ("," +:+ ipv4Address) with (String "," ipv4Address).
  rewrite append_cons, (split_acc_field mac) by exact Hm. f_equal.
  destruct (String.eqb_spec ipv6Address "") as [E6 | N6];
    destruct (dns_managed netConfig).
  - change ("" +:+ ?x) with x.
    change ("," +:+ ?x) with (String "," x).
    rewrite split_acc_field by exact H4.
    rewrite split_acc_last by (apply Hh; reflexivity). reflexivity.
  - change ("" +:+ ?x) with x. rewrite DnsmasqSpec.append_nil_r.
    rewrite split_acc_last by exact H4. reflexivity.
  - change (",[" +:+ ?x) with (String "," (String "[" x)).
    change ("," +:+ ?x) with (String "," x).
    rewrite append_cons, split_acc_field by exact H4.
    assert (Hb : Count (String "[" (ipv6Address +:+ "]")) "," = 0%nat).
    { change (Count (String "[" (ipv6Address +:+ "]")) ",")
        with (Count (ipv6Address +:+ "]") ",").
      rewrite Count_append, (H6 N6). reflexivity. }
    rewrite split_acc_field by exact Hb.
    rewrite split_acc_last by (apply Hh; reflexivity). reflexivity.
  - change (",[" +:+ ?x) with (String "," (String "[" x)).
    rewrite DnsmasqSpec.append_nil_r.
    rewrite split_acc_field by exact H4.
    assert (Hb : Count (String "[" (ipv6Address +:+ "]")) "," = 0%nat).
    { change (Count (String "[" (ipv6Address +:+ "]")) ",")
        with (Count (ipv6Address +:+ "]") ",").
      rewrite Count_append, (H6 N6). reflexivity. }
    rewrite split_acc_last by exact Hb. reflexivity.
Qed.

(** A bracketed address with exactly three dots is tried as an IPv4
    address, brackets and all. *)
Lemma static_field_bracketed_dots (name : string) (st : Static)
  (address : string) :
  Count address "." = 3%nat ->
  To4 (ParseIP (String "[" (address +:+ "]"))) = None ->
  static_field name st (String "[" (address +:+ "]"))
  = (st, Some (Errorf "Error parsing IP address %q"
                 [FQuoted (String "[" (address +:+ "]"))])).
Proof.
  intros Hd Hp. unfold static_field.
  assert (Hc : Count (String "[" (address +:+ "]")) "." = Count address ".").
  { change (Count (String "[" (address +:+ "]")) ".")
      with (Count (address +:+ "]") ".").
    rewrite Count_append. simpl. lia. }
  rewrite Hc, Hd, Hp. reflexivity.
Qed.

(** X9. What UpdateStaticEntry writes, DHCPStaticAllocation reads back,
    unless the IPv6 address has exactly three dots. Given an IPv4 address
    and a file system that hands back the line written to the device's
    file, with no field holding a comma, a MAC of five colons that parses,
    an IPv4 address of three dots that parses, and a host name that looks
    like neither an address nor a MAC:
    - when the IPv6 address is empty, or does not have exactly three dots
      and parses, reading the static allocation of the device gives the
      parsed MAC, its IPv4 allocation with that MAC and the name of the
      file, and its IPv6 allocation when an IPv6 address was given; the
      host name at the end of the line is skipped;
    - when the IPv6 address has exactly three dots, as ::ffff:10.0.0.6
      has, its bracketed field is taken for an IPv4 address, which it is
      not, and the read fails with [Error parsing IP address] on that
      field, handing back no MAC and the IPv4 allocation read so far. *)
Theorem written_entry_reads_back (fs : FS)
  (network projectName instanceName deviceName : string)
  (netConfig : gmap string string) (hwaddr ipv4Address ipv6Address : string)
  (macb b4 b6 : bytes) :
  let mac := ToLower hwaddr in
  let host := project_DNS projectName instanceName in
  let name := StaticAllocationFileName projectName instanceName deviceName in
  let line :=
    mac +:+ after_mac netConfig projectName instanceName ipv4Address
              ipv6Address in
  let written :=
    fst (UpdateStaticEntry fs network projectName instanceName deviceName
           netConfig hwaddr ipv4Address ipv6Address) in
  let bracketed := String "[" (ipv6Address +:+ "]") in
  Count mac "," = 0%nat ->
  Count mac "." <> 3%nat ->
  (HasPrefix mac "[" && HasSuffix mac "]")%bool = false ->
  Count mac ":" = 5%nat ->
  ParseMAC mac = inl macb ->
  Count ipv4Address "," = 0%nat ->
  Count ipv4Address "." = 3%nat ->
  To4 (ParseIP ipv4Address) = Some b4 ->
  Count ipv6Address "," = 0%nat ->
  (dns_managed netConfig = true ->
   Count host "," = 0%nat /\ plain_field host) ->
  Open (fst (WriteFile fs
               (hosts_file network projectName instanceName deviceName)
               (line +:+ nl) 420))
    (DHCPStaticAllocationPath network name)
  = inl {| lines := [line]; scan_err := None |} ->
  (Count ipv6Address "." <> 3%nat ->
   (ipv6Address <> "" -> ParseIP ipv6Address = Some b6) ->
   DHCPStaticAllocation written network name
   = (Some macb,
      {| IP := Some b4; StaticFileName := name; MAC := Some macb |},
      (if String.eqb ipv6Address "" then no_allocation
       else {| IP := Some b6; StaticFileName := name; MAC := Some macb |}),
      None))
  /\ (Count ipv6Address "." = 3%nat ->
      To4 (ParseIP bracketed) = None ->
      DHCPStaticAllocation written network name
      = (None,
         {| IP := Some b4; StaticFileName := name; MAC := Some macb |},
         no_allocation,
         Some (Errorf "Error parsing IP address %q" [FQuoted bracketed]))).
Proof.
  intros mac host name line written bracketed Hmc Hmd Hmb Hm5 Hmac H4c H4d H4
    H6c Hh Hopen.
  assert (Hne4 : ipv4Address <> "").
  { intros ->. simpl in H4d. discriminate. }
  assert (Hrest : String.eqb
                    (after_mac netConfig projectName instanceName
                       ipv4Address ipv6Address) "" = false).
  { unfold after_mac. destruct ipv4Address as [| c rest]; [congruence |].
    reflexivity. }
  assert (Hread :
    DHCPStaticAllocation written network name
    = match static_fields name
              {| s_mac := Some macb;
                 s_IPv4 := {| IP := Some b4; StaticFileName := name;
                              MAC := Some macb |};
                 s_IPv6 := no_allocation |}
              ((if String.eqb ipv6Address "" then [] else [bracketed])
               ++ (if dns_managed netConfig then [host] else [])) with
      | (st, Some err) => (None, s_IPv4 st, s_IPv6 st, Some err)
      | (st, None) => (s_mac st, s_IPv4 st, s_IPv6 st, None)
      end).
  { subst written. rewrite DnsmasqSpec.UpdateStaticEntry_unfold, Hrest.
    fold mac. unfold DHCPStaticAllocation.
    replace (ToLower hwaddr
             +:+ after_mac netConfig projectName instanceName ipv4Address
                   ipv6Address +:+ nl)
      with (line +:+ nl)
      by (unfold line, mac; now rewrite DnsmasqSpec.append_assoc).
    fold name. rewrite Hopen.
    cbn [lines scan_err static_lines].
    unfold line. rewrite Split_written_line;
      [| exact Hmc | exact H4c | exact Hne4
       | intros _; exact H6c
       | intros Hd; exact (proj1 (Hh Hd))].
    cbn [static_fields].
    rewrite (static_field_mac _ _ _ macb Hmd Hmb Hm5 Hmac).
    rewrite (static_field_v4 _ _ _ b4 H4d H4).
    cbn [s_mac s_IPv4 s_IPv6]. fold host. fold bracketed.
    destruct (static_fields name _ _) as [st [err |]]; reflexivity. }
  rewrite Hread. split.
  - intros H6d H6p.
    destruct (String.eqb_spec ipv6Address "") as [E6 | N6];
      destruct (dns_managed netConfig) eqn:Hd; cbn [app static_fields].
    + rewrite static_field_plain by (apply Hh; reflexivity). reflexivity.
    + reflexivity.
    + subst bracketed.
      rewrite (static_field_v6 _ _ _ b6 H6d (H6p N6)).
      rewrite static_field_plain by (apply Hh; reflexivity). reflexivity.
    + subst bracketed.
      rewrite (static_field_v6 _ _ _ b6 H6d (H6p N6)). reflexivity.
  - intros H6d H6p.
    assert (N6 : String.eqb ipv6Address "" = false).
    { apply String.eqb_neq. intros ->. simpl in H6d. discriminate. }
    rewrite N6. subst bracketed.
    destruct (dns_managed netConfig); cbn [app static_fields];
      rewrite (static_field_bracketed_dots _ _ _ H6d H6p); reflexivity.
Qed.

End RoundTrip.

(** *** On the files in memory *)

Import MemFiles MemFilesMore.

Lemma static_allocations_win_witness :
  DHCPAllAllocations static_and_lease "lxdbr0" = inl static_and_lease_maps
  /\ fst static_and_lease_maps !! [10; 0; 0; 5] = Some c1_static.
Proof.
  assert (Hall : DHCPAllAllocations static_and_lease "lxdbr0"
                 = inl static_and_lease_maps) by (vm_compute; reflexivity).
  split; [exact Hall |].
  destruct (static_allocations_win static_and_lease "lxdbr0"
              static_and_lease_maps Hall) as [smaps [Hs [H4 _]]].
  assert (Hc : static_loop static_and_lease "lxdbr0"
                 (fst (ReadDir static_and_lease (hosts_dir "lxdbr0")))
                 (∅, ∅)
               = inl (<[ [10; 0; 0; 5] := c1_static ]> ∅, ∅))
    by (vm_compute; reflexivity).
  rewrite Hc in Hs. injection Hs as <-.
  apply H4; [vm_compute; reflexivity | discriminate].
Defined.



(** With no entry handed back, as for a directory that cannot be opened,
    only the leases are returned. *)
Example unreadable_hosts_leases_only :
  DHCPAllAllocations unreadable_hosts "lxdbr0"
  = inl (<[ [10; 0; 0; 5] :=
              {| IP := Some [10; 0; 0; 5]; StaticFileName := "";
                 MAC := Some [170; 187; 204; 221; 238; 255] |} ]> ∅, ∅).
Proof. vm_compute. reflexivity. Qed.

Lemma written_entry_witness :
  DHCPStaticAllocation
    (fst (UpdateStaticEntry no_files "lxdbr0" "default" "web1" "eth0"
            {[ "dns.mode" := "managed" ]} "AA:BB:CC:DD:EE:FF" "10.0.0.5" ""))
    "lxdbr0" (StaticAllocationFileName "default" "web1" "eth0")
  = (Some [170; 187; 204; 221; 238; 255],
     {| IP := Some [10; 0; 0; 5];
        StaticFileName := StaticAllocationFileName "default" "web1" "eth0";
        MAC := Some [170; 187; 204; 221; 238; 255] |},
     no_allocation, None).
Proof.
  refine (proj1
            (written_entry_reads_back no_files "lxdbr0" "default" "web1"
               "eth0" {[ "dns.mode" := "managed" ]} "AA:BB:CC:DD:EE:FF"
               "10.0.0.5" "" [170; 187; 204; 221; 238; 255] [10; 0; 0; 5] []
               _ _ _ _ _ _ _ _ _ _ _) _ _).
  - vm_compute. reflexivity.
  - vm_compute. discriminate.
  - vm_compute. reflexivity.
  - vm_compute. reflexivity.
  - vm_compute. reflexivity.
  - vm_compute. reflexivity.
  - vm_compute. reflexivity.
  - vm_compute. reflexivity.
  - vm_compute. reflexivity.
  - intros _. split; [vm_compute; reflexivity |].
    split; [vm_compute; discriminate |].
    split; [vm_compute; reflexivity | vm_compute; discriminate].
  - vm_compute. reflexivity.
  - vm_compute. discriminate.
  - intros N6. exfalso. apply N6. reflexivity.
Defined.

(** An IPv4-mapped IPv6 address is written in brackets and read as a broken
    IPv4 address: the entry UpdateStaticEntry wrote cannot be read back. *)
Example mapped_address_is_not_read_back :
  DHCPStaticAllocation
    (fst (UpdateStaticEntry no_files "lxdbr0" "default" "web1" "eth0"
            {[ "dns.mode" := "managed" ]} "aa:bb:cc:dd:ee:ff" "10.0.0.5"
            "::ffff:10.0.0.6"))
    "lxdbr0" (StaticAllocationFileName "default" "web1" "eth0")
  = (None,
     {| IP := Some [10; 0; 0; 5];
        StaticFileName := StaticAllocationFileName "default" "web1" "eth0";
        MAC := Some [170; 187; 204; 221; 238; 255] |},
     no_allocation,
     Some (Errorf "Error parsing IP address %q"
             [FQuoted "[::ffff:10.0.0.6]"])).
Proof. vm_compute. reflexivity. Qed.

End DnsmasqMoreSpec.


(** ** Warnings: unique UUIDs, repeated upserts, resolve then reoccur *)

Module WarningsMoreSpec.
Import Warnings WarningsMore.

Lemma map_UUID_set_state (l : list Warning) (uuid message : string)
  (now status : Z) :
  map UUID (map (fun w => if String.eqb (UUID w) uuid
                          then set_state message now status w else w) l)
  = map UUID l.
Proof.
  induction l as [| w l IH]; [reflexivity |]. simpl. rewrite IH.
  destruct (String.eqb (UUID w) uuid); reflexivity.
Qed.

Lemma map_UUID_set_status (l : list Warning) (uuid : string)
  (now status : Z) :
  map UUID (map (fun w => if String.eqb (UUID w) uuid
                          then set_status status now w else w) l)
  = map UUID l.
Proof.
  induction l as [| w l IH]; [reflexivity |]. simpl. rewrite IH.
  destruct (String.eqb (UUID w) uuid); reflexivity.
Qed.

Section Facts.
Context `{WarningEnv} `{Driver}.

Lemma UpdateWarningState_unique (st : State) (now : Z)
  (uuid message : string) (status : Z) :
  unique_uuids st ->
  unique_uuids (fst (UpdateWarningState st now uuid message status)).
Proof.
  unfold unique_uuids, UpdateWarningState, Exec_update_state. intros Hu.
  destruct (Exec_error st warningUpdateState); [exact Hu |].
  cbn [exec_update_state sql_result Store.RowsAffected].
  destruct (RowsAffected_error _ warningUpdateState);
    [| destruct (Z.eqb _ 0)]; simpl; rewrite map_UUID_set_state; exact Hu.
Qed.

Lemma UpdateWarningStatus_unique (st : State) (now : Z) (uuid : string)
  (status : Z) :
  unique_uuids st ->
  unique_uuids (fst (UpdateWarningStatus st now uuid status)).
Proof.
  unfold unique_uuids, UpdateWarningStatus, Exec_update_status. intros Hu.
  destruct (Exec_error st warningUpdateStatus); [exact Hu |].
  cbn [exec_update_status sql_result Store.RowsAffected].
  destruct (RowsAffected_error _ warningUpdateStatus);
    [| destruct (Z.eqb _ 0)]; simpl; rewrite map_UUID_set_status; exact Hu.
Qed.

Lemma createWarning_unique (st : State) (object : Warning) :
  unique_uuids st -> unique_uuids (fst (createWarning st object)).
Proof.
  unfold unique_uuids, createWarning, WarningExists. intros Hu.
  destruct (existsb (fun w => String.eqb (UUID w) (UUID object))
              (warnings st)) eqn:Hex; [exact Hu |].
  destruct (if negb (String.eqb (Node object) "") then _ else None);
    [exact Hu |].
  destruct (if negb (String.eqb (Project object) "") then _ else None);
    [exact Hu |].
  destruct (Stmt_error st warningCreate); [exact Hu |].
  unfold Exec_create.
  destruct (Exec_error st warningCreate); [exact Hu |].
  cbn [exec_create sql_result Store.LastInsertId].
  assert (Hnew : List.NoDup
                   (map UUID (warnings (fst (exec_create st object))))).
  { simpl. rewrite map_app. simpl.
    apply List.NoDup_app; [exact Hu | repeat constructor; intros [] |].
    intros u Hin [<- | []].
    apply in_map_iff in Hin. destruct Hin as [w [Hw Hin]].
    assert (Ht : existsb (fun w => String.eqb (UUID w) (UUID object))
                   (warnings st) = true).
    { apply existsb_exists. exists w. split; [exact Hin |].
      now apply String.eqb_eq. }
    congruence. }
  destruct (LastInsertId_error _ warningCreate); exact Hnew.
Qed.

Lemma UpsertWarning_unique (st : State) (now now' : Z) (uuid : string)
  (nodeName projectName entityType : string) (entityID typeCode : Z)
  (message : string) :
  unique_uuids st ->
  unique_uuids (fst (UpsertWarning st now now' uuid nodeName projectName
                       entityType entityID typeCode message)).
Proof.
  intros Hu. unfold UpsertWarning.
  destruct (TypeNames typeCode); [| exact Hu].
  destruct (if negb (String.eqb entityType "") then _ else None);
    [exact Hu |].
  destruct (GetWarnings st _) as [[| w [| w' ws]] | err]; try exact Hu.
  - match goal with
    | |- context [createWarning st ?o] =>
        pose proof (createWarning_unique st o Hu) as Hc;
        destruct (createWarning st o) as [st' [id | err]]
    end; exact Hc.
  - apply UpdateWarningState_unique. exact Hu.
Qed.

(** X10. The writers of warnings.go keep the UUIDs of the warnings unique:
    when no two records share a UUID before createWarning, UpsertWarning,
    UpsertWarningLocalNode, UpdateWarningState or UpdateWarningStatus, none
    do afterwards, whether the call succeeds or fails, and whatever
    statement the database driver fails to prepare, to execute or to
    report on. *)
Theorem writers_keep_uuids_unique (st : State) (now now' : Z)
  (uuid : string) (nodeName projectName entityType : string)
  (entityID typeCode : Z) (message : string) (status : Z)
  (object : Warning) (GetLocalNodeName : State -> result string) :
  unique_uuids st ->
  unique_uuids (fst (createWarning st object))
  /\ unique_uuids (fst (UpsertWarning st now now' uuid nodeName projectName
                          entityType entityID typeCode message))
  /\ unique_uuids (fst (UpsertWarningLocalNode GetLocalNodeName st now now'
                          uuid projectName entityType entityID typeCode
                          message))
  /\ unique_uuids (fst (UpdateWarningState st now uuid message status))
  /\ unique_uuids (fst (UpdateWarningStatus st now uuid status)).
Proof.
  intros Hu. split; [apply createWarning_unique; exact Hu |].
  split; [apply UpsertWarning_unique; exact Hu |].
  split; [| split;
            [apply UpdateWarningState_unique
            | apply UpdateWarningStatus_unique]; exact Hu].
  unfold UpsertWarningLocalNode.
  destruct (GetLocalNodeName st) as [localName | err]; [| exact Hu].
  destruct (String.eqb localName ""); [exact Hu |].
  apply UpsertWarning_unique. exact Hu.
Qed.

Lemma filter_matches_refl (nodeName projectName entityType : string)
  (entityID typeCode : Z) (w : Warning) :
  TypeCode w = typeCode -> Node w = nodeName -> Project w = projectName ->
  EntityType w = entityType -> EntityID w = entityID ->
  filter_matches
    {| fTypeCode := Some typeCode; fNode := Some nodeName;
       fProject := Some projectName; fEntityType := Some entityType;
       fEntityID := Some entityID |} w = true.
Proof.
  intros <- <- <- <- <-. unfold filter_matches. simpl.
  now rewrite !Z.eqb_refl, !String.eqb_refl.
Qed.

Lemma filter_uuid_free (uuid : string) (l : list Warning) :
  (forall w, In w l -> UUID w <> uuid) ->
  List.filter (fun w => String.eqb (UUID w) uuid) l = [].
Proof.
  induction l as [| w l IH]; intros Hfree; [reflexivity |]. simpl.
  destruct (String.eqb_spec (UUID w) uuid) as [E | _].
  - exfalso. exact (Hfree w (or_introl eq_refl) E).
  - apply IH. intros r Hr. apply Hfree. now right.
Qed.

Lemma map_uuid_free {f : Warning -> Warning} (uuid : string)
  (l : list Warning) :
  (forall w, In w l -> UUID w <> uuid) ->
  map (fun w => if String.eqb (UUID w) uuid then f w else w) l = l.
Proof.
  induction l as [| w l IH]; intros Hfree; [reflexivity |]. simpl.
  destruct (String.eqb_spec (UUID w) uuid) as [E | _].
  - exfalso. exact (Hfree w (or_introl eq_refl) E).
  - f_equal. apply IH. intros r Hr. apply Hfree. now right.
Qed.

(** The validation step of the upsert, when the entity validates. *)
Lemma validation_passes (st : State) (entityType : string) (entityID : Z) :
  (entityType = ""
   \/ exists url, GetEntityURL st entityType entityID = inl url) ->
  (if negb (String.eqb entityType "") then
     match GetEntityURL st entityType entityID with
     | inr err => Some (Wrapf "Failed to validate warning: %w" [] err)
     | inl _ => None
     end
   else None) = None.
Proof.
  intros [-> | [url Hurl]]; [reflexivity |]. rewrite Hurl.
  destruct (negb (String.eqb entityType "")); reflexivity.
Qed.

(** [UpdateWarningStatus] on a UUID some record has, when the driver
    carries out the UPDATE. *)
Lemma UpdateWarningStatus_runs (st : State) (now : Z) (status : Z)
  (w : Warning) :
  In w (warnings st) ->
  update_runs st (fst (exec_update_status st status now (UUID w)))
    warningUpdateStatus ->
  UpdateWarningStatus st now (UUID w) status
  = (fst (exec_update_status st status now (UUID w)), None).
Proof.
  intros Hin [Hexec Hrows]. unfold UpdateWarningStatus, Exec_update_status.
  rewrite Hexec.
  cbn [exec_update_status sql_result Store.RowsAffected fst] in *.
  rewrite Hrows, (WarningsSpec.filter_uuid_nonempty w _ Hin). reflexivity.
Qed.

(** X11. A warning that occurs twice is recorded once. On a tuple that has
    no record, the first upsert appends one (given a known type code, a
    free UUID, an existing member and project, an entity that validates,
    and a driver that carries out the INSERT); a second upsert on the same
    tuple, when the driver carries out its UPDATE, succeeds and adds no
    record, whatever UUID it brings: it updates the first one, which then
    has count 2, status New, the second message and the time of the second
    call as last-seen and updated date, and keeps its first-seen date. *)
Theorem second_upsert_updates_the_first (st : State)
  (now1 now1' now2 now2' : Z) (uuid1 uuid2 : string)
  (nodeName projectName entityType : string) (entityID typeCode : Z)
  (message1 message2 : string) :
  let first :=
    UpsertWarning st now1 now1' uuid1 nodeName projectName entityType
      entityID typeCode message1 in
  let second :=
    UpsertWarning (fst first) now2 now2' uuid2 nodeName projectName
      entityType entityID typeCode message2 in
  let st1 :=
    with_warnings st
      (warnings st
       ++ [fresh_warning st now1 uuid1 nodeName projectName entityType
             entityID typeCode message1])
      (next_id st + 1) in
  let st2 :=
    with_warnings st
      (warnings st
       ++ [ {| ID := next_id st; Node := nodeName; Project := projectName;
               EntityType := entityType; EntityID := entityID;
               UUID := uuid1; TypeCode := typeCode; Status := StatusNew;
               FirstSeenDate := now1; LastSeenDate := now2';
               UpdatedDate := now2'; LastMessage := message2;
               Count := 2 |} ])
      (next_id st + 1) in
  TypeNames typeCode <> None ->
  (entityType = ""
   \/ (exists url, GetEntityURL st entityType entityID = inl url)
      /\ (exists url, GetEntityURL st1 entityType entityID = inl url)) ->
  on_tuple st nodeName projectName entityType entityID typeCode = [] ->
  (forall w, In w (warnings st) -> UUID w <> uuid1) ->
  (nodeName = "" \/ In nodeName (nodes st)) ->
  (projectName = "" \/ In projectName (projects st)) ->
  insert_runs st st1 ->
  update_runs st1 st2 warningUpdateState ->
  first = (st1, None) /\ second = (st2, None).
Proof.
  intros first second st1 st2 Hknown Hentity Hnone Hfree Hnode Hproject
    Hinsert Hupdate.
  assert (Hfirst : first = (st1, None)).
  { subst first. unfold UpsertWarning.
    destruct (TypeNames typeCode); [| congruence].
    rewrite validation_passes by (destruct Hentity as [E | [E _]]; auto).
    unfold GetWarnings. unfold on_tuple in Hnone. rewrite Hnone.
    rewrite WarningsSpec.createWarning_inserts;
      [reflexivity | exact Hfree | exact Hnode | exact Hproject
       | exact Hinsert]. }
  split; [exact Hfirst |].
  subst second. rewrite Hfirst. cbn [fst].
  unfold UpsertWarning.
  destruct (TypeNames typeCode); [| congruence].
  rewrite validation_passes by (destruct Hentity as [E | [_ E]]; auto).
  unfold GetWarnings. subst st1. unfold with_warnings at 1. cbn [warnings].
  rewrite List.filter_app. unfold on_tuple in Hnone. rewrite Hnone.
  cbn [List.filter app].
  rewrite filter_matches_refl by reflexivity.
  cbn [Status UUID fresh_warning].
  replace (if Z.eqb StatusNew StatusResolved then StatusNew else StatusNew)
    with StatusNew by (destruct (Z.eqb StatusNew StatusResolved); reflexivity).
  destruct Hupdate as [Hexec Hrows].
  unfold UpdateWarningState, Exec_update_state. rewrite Hexec.
  assert (Hst2 :
    fst (exec_update_state
           (with_warnings st
              (warnings st
               ++ [fresh_warning st now1 uuid1 nodeName projectName
                     entityType entityID typeCode message1])
              (next_id st + 1)) message2 now2' StatusNew uuid1) = st2).
  { unfold exec_update_state, with_warnings. cbn [warnings next_id fst].
    rewrite map_app, (map_uuid_free _ _ Hfree). cbn [map UUID fresh_warning].
    rewrite String.eqb_refl. reflexivity. }
  assert (Hn :
    snd (exec_update_state
           (with_warnings st
              (warnings st
               ++ [fresh_warning st now1 uuid1 nodeName projectName
                     entityType entityID typeCode message1])
              (next_id st + 1)) message2 now2' StatusNew uuid1) = 1).
  { unfold exec_update_state, with_warnings. cbn [warnings snd].
    rewrite List.filter_app, (filter_uuid_free _ _ Hfree).
    cbn [List.filter app UUID fresh_warning]. rewrite String.eqb_refl.
    reflexivity. }
  destruct (exec_update_state _ message2 now2' StatusNew uuid1) as [st' n].
  cbn [fst snd] in Hst2, Hn. subst st' n.
  cbn [sql_result Store.RowsAffected]. rewrite Hrows. reflexivity.
Qed.

Lemma filter_map_tuple (f : WarningFilter) (g : Warning -> Warning)
  (l : list Warning) :
  (forall w, filter_matches f (g w) = filter_matches f w) ->
  List.filter (filter_matches f) (map g l)
  = map g (List.filter (filter_matches f) l).
Proof.
  intros Hg. induction l as [| w l IH]; [reflexivity |]. simpl.
  rewrite Hg, IH. destruct (filter_matches f w); reflexivity.
Qed.

(** X12. A warning marked resolved that occurs again comes back as New.
    When a tuple has exactly one record and the driver carries out the two
    UPDATEs, UpdateWarningStatus with the Resolved status on its UUID
    succeeds, and a following upsert on that tuple (known type code, entity
    validating) succeeds too and leaves the tuple with that one record:
    status New, count one higher than before, the new message. *)
Theorem resolved_warning_reoccurs (st : State) (t now now' : Z)
  (uuid : string) (w : Warning) (message : string) :
  let resolve := UpdateWarningStatus st t (UUID w) StatusResolved in
  let upsert :=
    UpsertWarning (fst resolve) now now' uuid (Node w) (Project w)
      (EntityType w) (EntityID w) (TypeCode w) message in
  let st1 := fst (exec_update_status st StatusResolved t (UUID w)) in
  let st2 := fst (exec_update_state st1 message now' StatusNew (UUID w)) in
  TypeNames (TypeCode w) <> None ->
  (EntityType w = ""
   \/ exists url, GetEntityURL st1 (EntityType w) (EntityID w) = inl url) ->
  on_tuple st (Node w) (Project w) (EntityType w) (EntityID w) (TypeCode w)
  = [w] ->
  update_runs st st1 warningUpdateStatus ->
  update_runs st1 st2 warningUpdateState ->
  resolve = (st1, None)
  /\ upsert = (st2, None)
  /\ on_tuple st2 (Node w) (Project w) (EntityType w) (EntityID w)
       (TypeCode w)
     = [ {| ID := ID w; Node := Node w; Project := Project w;
            EntityType := EntityType w; EntityID := EntityID w;
            UUID := UUID w; TypeCode := TypeCode w; Status := StatusNew;
            FirstSeenDate := FirstSeenDate w; LastSeenDate := now';
            UpdatedDate := now'; LastMessage := message;
            Count := Count w + 1 |} ].
Proof.
  intros resolve upsert st1 st2 Hknown Hentity Hone Hstatus Hstate.
  assert (Hin : In w (warnings st)).
  { assert (Hf : In w (on_tuple st (Node w) (Project w) (EntityType w)
                         (EntityID w) (TypeCode w)))
      by (rewrite Hone; now left).
    unfold on_tuple in Hf. apply filter_In in Hf. exact (proj1 Hf). }
  set (g := fun r : Warning =>
              if String.eqb (UUID r) (UUID w)
              then set_status StatusResolved t r else r).
  assert (Hst1 : st1 = with_warnings st (map g (warnings st)) (next_id st))
    by reflexivity.
  assert (Hresolve : resolve = (st1, None)).
  { subst resolve.
    exact (UpdateWarningStatus_runs st t StatusResolved w Hin Hstatus). }
  assert (Hg : forall f r, filter_matches f (g r) = filter_matches f r).
  { intros f r. unfold g. destruct (String.eqb (UUID r) (UUID w));
      reflexivity. }
  assert (Hgw : g w = set_status StatusResolved t w).
  { unfold g. now rewrite String.eqb_refl. }
  assert (Htuple1 :
    on_tuple st1 (Node w) (Project w) (EntityType w) (EntityID w)
      (TypeCode w) = [set_status StatusResolved t w]).
  { rewrite Hst1. unfold on_tuple, with_warnings. cbn [warnings].
    rewrite filter_map_tuple by (apply Hg).
    unfold on_tuple in Hone. rewrite Hone. cbn [map]. now rewrite Hgw. }
  assert (Hin1 : In (set_status StatusResolved t w) (warnings st1)).
  { rewrite Hst1. cbn [with_warnings warnings]. rewrite <- Hgw.
    apply in_map. exact Hin. }
  split; [exact Hresolve |].
  assert (Hupsert : upsert = (st2, None)).
  { subst upsert. rewrite Hresolve. cbn [fst].
    unfold UpsertWarning.
    destruct (TypeNames (TypeCode w)); [| congruence].
    rewrite validation_passes by exact Hentity.
    unfold GetWarnings. unfold on_tuple in Htuple1. rewrite Htuple1.
    cbn [Status UUID set_status]. rewrite Z.eqb_refl.
    exact (WarningsSpec.UpdateWarningState_runs st1 now' message StatusNew
             (set_status StatusResolved t w) Hin1 Hstate). }
  split; [exact Hupsert |].
  subst st2. unfold exec_update_state. cbn [fst].
  unfold on_tuple, with_warnings. cbn [warnings].
  rewrite filter_map_tuple
    by (intros r; destruct (String.eqb (UUID r) (UUID w)); reflexivity).
  unfold on_tuple in Htuple1. rewrite Htuple1. cbn [map UUID set_status].
  rewrite String.eqb_refl. reflexivity.
Qed.

End Facts.

(** *** On the sample cluster *)

Import WarningsSample.

Lemma writers_keep_uuids_unique_witness :
  unique_uuids sample_state
  /\ unique_uuids
       (fst (UpsertWarning sample_state 30 31 "u-2" "node1" "default" "" 5 7
               "again")).
Proof.
  assert (Hu : unique_uuids sample_state).
  { apply List.NoDup_cons; [intros [] | apply List.NoDup_nil]. }
  split; [exact Hu |].
  exact (proj1 (proj2
           (writers_keep_uuids_unique sample_state 30 31 "u-2" "node1"
              "default" "" 5 7 "again" 1 resolved_warning
              (fun _ => inl "node1") Hu))).
Defined.

(** With a driver that executes nothing the upsert fails, wraps the
    driver's error, and the table is as it was. *)
Example upsert_on_broken_driver :
  @UpsertWarning sample_env broken_driver sample_state 30 31 "u-2" "node1"
    "default" "" (-1) 7 "again"
  = (sample_state,
     Some (Wrapf "Failed to update warning %q: %w" [FQuoted "u-1"]
             (Errorf "sql: database is closed" []))).
Proof. vm_compute. reflexivity. Qed.

Lemma second_upsert_witness :
  UpsertWarning
    (fst (UpsertWarning sample_state 30 31 "u-2" "node1" "default"
            "" 5 7 "once"))
    40 41 "u-3" "node1" "default" "" 5 7 "twice"
  = ({| warnings :=
          [resolved_warning;
           {| ID := 2; Node := "node1"; Project := "default";
              EntityType := ""; EntityID := 5; UUID := "u-2"; TypeCode := 7;
              Status := 1; FirstSeenDate := 30; LastSeenDate := 41;
              UpdatedDate := 41; LastMessage := "twice"; Count := 2 |}];
        nodes := ["node1"]; projects := ["default"]; next_id := 3 |}, None).
Proof.
  refine (proj2
            (second_upsert_updates_the_first sample_state 30 31 40 41 "u-2"
               "u-3" "node1" "default" "" 5 7 "once" "twice" _ _ _ _ _ _ _
               _)).
  - vm_compute. discriminate.
  - left. reflexivity.
  - vm_compute. reflexivity.
  - intros w [<- | []]. vm_compute. discriminate.
  - right. left. reflexivity.
  - right. left. reflexivity.
  - repeat split.
  - repeat split.
Defined.

Lemma resolved_warning_witness :
  on_tuple
    (fst (exec_update_state
            (fst (exec_update_status sample_state StatusResolved 25 "u-1"))
            "again" 31 StatusNew "u-1"))
    "node1" "default" "" (-1) 7
  = [ {| ID := 1; Node := "node1"; Project := "default"; EntityType := "";
         EntityID := -1; UUID := "u-1"; TypeCode := 7; Status := 1;
         FirstSeenDate := 10; LastSeenDate := 31; UpdatedDate := 31;
         LastMessage := "again"; Count := 5 |} ].
Proof.
  refine (proj2 (proj2
            (resolved_warning_reoccurs sample_state 25 30 31 "u-2"
               resolved_warning "again" _ _ _ _ _))).
  - vm_compute. discriminate.
  - left. reflexivity.
  - vm_compute. reflexivity.
  - repeat split.
  - repeat split.
Defined.

End WarningsMoreSpec.


(** ** Reading back: hydration of instances, URIs *)

Module FetchSpec.
Import Store Fetch.

Lemma collect_devices_ok (devs : list Device) (acc m : gmap string Device) :
  collect_devices devs acc = inl m ->
  List.NoDup (map dName devs)
  /\ (forall d, In d devs -> acc !! dName d = None)
  /\ (forall name d,
        m !! name = Some d
        <-> (In d devs /\ dName d = name) \/ acc !! name = Some d).
Proof.
  revert acc. induction devs as [| obj rest IH]; intros acc Hc.
  - simpl in Hc. injection Hc as <-. split; [apply List.NoDup_nil |].
    split; [intros d [] |]. intros name d. split; [now right |].
    intros [[[] _] | Hacc]. exact Hacc.
  - simpl in Hc. destruct (acc !! dName obj) eqn:Hobj; [discriminate |].
    destruct (IH _ Hc) as [Hnd [Hfree Hm]].
    assert (Hne : forall d, In d rest -> dName d <> dName obj).
    { intros d Hd Heq. specialize (Hfree d Hd). rewrite Heq in Hfree.
      rewrite lookup_insert_eq in Hfree. discriminate. }
    split; [| split].
    + simpl. apply List.NoDup_cons; [| exact Hnd]. intros Hin.
      apply in_map_iff in Hin. destruct Hin as [d [Heq Hd]].
      exact (Hne d Hd Heq).
    + intros d [<- | Hd]; [exact Hobj |]. specialize (Hfree d Hd).
      rewrite lookup_insert_ne in Hfree
        by (intros Heq; exact (Hne d Hd (eq_sym Heq))).
      exact Hfree.
    + intros name d. rewrite Hm. split.
      * intros [[Hd Hn] | Hacc]; [left; split; [now right | exact Hn] |].
        destruct (decide (dName obj = name)) as [<- | Hnn].
        -- rewrite lookup_insert_eq in Hacc. injection Hacc as <-.
           left. split; [now left | reflexivity].
        -- rewrite lookup_insert_ne in Hacc by exact Hnn. now right.
      * intros [[[<- | Hd] Hn] | Hacc].
        -- right. subst name. apply lookup_insert_eq.
        -- left. split; assumption.
        -- right. rewrite lookup_insert_ne; [exact Hacc |].
           intros <-. congruence.
Qed.

Lemma collect_devices_error (devs : list Device) (acc : gmap string Device)
  (err : error) :
  collect_devices devs acc = inr err -> exists name, err = duplicate_device name.
Proof.
  revert acc. induction devs as [| obj rest IH]; intros acc Hc.
  - discriminate.
  - simpl in Hc. destruct (acc !! dName obj).
    + injection Hc as <-. now exists (dName obj).
    + exact (IH _ Hc).
Qed.

Lemma fill_devices_error (devices : gmap Z (list Device))
  (objects : list Instance) (err : error) :
  fill_devices devices objects = inr err ->
  exists name, err = duplicate_device name.
Proof.
  induction objects as [| o rest IH]; intros Hf; [discriminate |].
  simpl in Hf.
  destruct (collect_devices (default [] (devices !! ID o)) ∅) as [m | e]
    eqn:Hc.
  - destruct (fill_devices devices rest) as [rest' | e]; [discriminate |].
    injection Hf as <-. now apply IH.
  - injection Hf as <-. exact (collect_devices_error _ _ _ Hc).
Qed.

Lemma ID_fill_config (config : gmap Z (gmap string string)) (o : Instance) :
  ID (fill_config config o) = ID o.
Proof. unfold fill_config. destruct (config !! ID o); reflexivity. Qed.

Lemma same_columns_fill_config (config : gmap Z (gmap string string))
  (o : Instance) :
  same_columns o (fill_config config o)
  /\ Config_ (fill_config config o) = default ∅ (config !! ID o).
Proof.
  unfold fill_config, same_columns.
  destruct (config !! ID o); simpl; repeat split.
Qed.

(** The first two loops. *)
Lemma config_and_devices (config : gmap Z (gmap string string))
  (devices : gmap Z (list Device)) (selected filled : list Instance) :
  fill_devices devices (map (fill_config config) selected) = inl filled ->
  Forall2 (hydrated config devices) selected filled.
Proof.
  revert filled. induction selected as [| s rest IH]; intros filled Hf.
  - simpl in Hf. injection Hf as <-. constructor.
  - simpl in Hf. rewrite ID_fill_config in Hf.
    destruct (collect_devices (default [] (devices !! ID s)) ∅) as [m | e]
      eqn:Hc; [| discriminate].
    destruct (fill_devices devices (map (fill_config config) rest))
      as [rest' | e]; [| discriminate].
    injection Hf as <-. constructor; [| now apply IH].
    destruct (collect_devices_ok _ _ _ Hc) as [Hnd [_ Hm]].
    destruct (same_columns_fill_config config s) as [Hcols Hconf].
    split; [exact Hcols |]. split; [exact Hconf |].
    split; [exact Hnd |]. intros name d. simpl. rewrite Hm.
    rewrite lookup_empty. split; [intros [Hd | Hd]; [exact Hd | discriminate]
                                 | now left].
Qed.

Lemma fill_devices_fails (devices : gmap Z (list Device))
  (objects : list Instance) (o : Instance) :
  In o objects ->
  ~ List.NoDup (map dName (default [] (devices !! ID o))) ->
  exists name, fill_devices devices objects = inr (duplicate_device name).
Proof.
  intros Hin Hdup.
  destruct (fill_devices devices objects) as [filled | err] eqn:Hf.
  - exfalso. revert filled Hf.
    induction objects as [| x rest IH]; intros filled Hf; [destruct Hin |].
    simpl in Hf.
    destruct (collect_devices (default [] (devices !! ID x)) ∅) as [m | e]
      eqn:Hc; [| discriminate].
    destruct (fill_devices devices rest) as [rest' | e]; [| discriminate].
    destruct Hin as [-> | Hin].
    + exact (Hdup (proj1 (collect_devices_ok _ _ _ Hc))).
    + exact (IH Hin rest' eq_refl).
  - destruct (fill_devices_error _ _ _ Hf) as [name ->]. now exists name.
Qed.

Section Get.
Context {DB : Type} `{Reader DB}.

(** The third loop keeps the columns, the config and the devices. *)
Lemma fill_profiles_keeps (db : DB) (instanceProfiles : gmap Z (list Z))
  (filled objects : list Instance) :
  fill_profiles db instanceProfiles filled = inl objects ->
  Forall2 (fun f o => exists names, o = set_Profiles f names) filled objects.
Proof.
  revert objects. induction filled as [| f rest IH]; intros objects Hp.
  - simpl in Hp. injection Hp as <-. constructor.
  - simpl in Hp.
    destruct (profile_names db (default [] (instanceProfiles !! ID f)) [])
      as [names | e]; [| discriminate].
    destruct (fill_profiles db instanceProfiles rest) as [rest' | e];
      [| discriminate].
    injection Hp as <-. constructor; [now exists names | now apply IH].
Qed.

Lemma hydrated_set_Profiles (config : gmap Z (gmap string string))
  (devices : gmap Z (list Device)) (s f : Instance) (names : list string) :
  hydrated config devices s f ->
  hydrated config devices s (set_Profiles f names).
Proof. intros Hh. exact Hh. Qed.

Lemma GetInstances_inv (db : DB) (filter : Dispatch.InstanceFilter)
  (objects : list Instance) :
  GetInstances db filter = inl objects ->
  exists stmt args selected config devices,
    Dispatch.GetInstances_stmt filter = inl (stmt, args)
    /\ SelectInstances db stmt args = inl selected
    /\ GetConfig db "instance" = inl config
    /\ GetDevices db "instance" = inl devices
    /\ Forall2 (hydrated config devices) selected objects.
Proof.
  unfold GetInstances. intros Hg.
  destruct (Dispatch.GetInstances_stmt filter) as [[stmt args] | e];
    [| discriminate].
  destruct (SelectInstances db stmt args) as [selected | e] eqn:Hsel;
    [| discriminate].
  destruct (GetConfig db "instance") as [config | e] eqn:Hc; [| discriminate].
  destruct (GetDevices db "instance") as [devices | e] eqn:Hd;
    [| discriminate].
  destruct (fill_devices devices (map (fill_config config) selected))
    as [filled | e] eqn:Hf; [| discriminate].
  destruct (GetInstanceProfiles db) as [instanceProfiles | e];
    [| discriminate].
  exists stmt, args, selected, config, devices.
  repeat (split; [first [reflexivity | assumption] |]). clear Hsel Hc Hd.
  apply config_and_devices in Hf. apply fill_profiles_keeps in Hg.
  revert objects Hg. induction Hf as [| s f rest filled Hh Hrest IH];
    intros objects Hg; inversion Hg as [| f' o filled' objects' Ho Hos]; subst.
  - constructor.
  - constructor; [| now apply IH]. destruct Ho as [names ->].
    apply hydrated_set_Profiles. exact Hh.
Qed.

(** X13. What GetInstances returns is the selected rows, in their order,
    each with the scanned columns untouched, with the config the config
    table has for its ID (an empty map when it has none), and with its
    devices keyed by name: every device the device table lists for that ID
    is in the map under its name, the map holds nothing else, and no two of
    those devices share a name. *)
Theorem GetInstances_hydrates (db : DB) (filter : Dispatch.InstanceFilter)
  (objects : list Instance) :
  GetInstances db filter = inl objects ->
  exists stmt args selected config devices,
    Dispatch.GetInstances_stmt filter = inl (stmt, args)
    /\ SelectInstances db stmt args = inl selected
    /\ GetConfig db "instance" = inl config
    /\ GetDevices db "instance" = inl devices
    /\ Forall2 (hydrated config devices) selected objects.
Proof. exact (GetInstances_inv db filter objects). Qed.

(** X14. One instance with two devices of the same name makes the whole
    listing fail: when the statement is found, the select and the reads of
    the config and device tables succeed, and some selected instance has
    two devices with one name, GetInstances returns no instance at all but
    the error [Found duplicate Device with name ...]. *)
Theorem duplicate_device_fails_listing (db : DB)
  (filter : Dispatch.InstanceFilter) (stmt : Dispatch.InstanceStmt)
  (args : list Dispatch.arg) (selected : list Instance)
  (config : gmap Z (gmap string string)) (devices : gmap Z (list Device))
  (s : Instance) :
  Dispatch.GetInstances_stmt filter = inl (stmt, args) ->
  SelectInstances db stmt args = inl selected ->
  GetConfig db "instance" = inl config ->
  GetDevices db "instance" = inl devices ->
  In s selected ->
  ~ List.NoDup (map dName (default [] (devices !! ID s))) ->
  exists name, GetInstances db filter = inr (duplicate_device name).
Proof.
  intros Hs Hsel Hc Hd Hin Hdup. unfold GetInstances.
  rewrite Hs, Hsel, Hc, Hd.
  destruct (fill_devices_fails devices (map (fill_config config) selected)
              (fill_config config s)) as [name Hf].
  - apply in_map. exact Hin.
  - rewrite ID_fill_config. exact Hdup.
  - exists name. rewrite Hf. reflexivity.
Qed.

(** X15. The two listings agree: when GetInstances returns a list for a
    filter, GetInstanceURIs succeeds for that filter too and returns the
    URI of each of those instances, built from its project and name, in the
    same order. *)
Theorem uris_follow_instances (db : DB) (filter : Dispatch.InstanceFilter)
  (objects : list Instance) :
  GetInstances db filter = inl objects ->
  GetInstanceURIs db filter
  = inl (map (fun o => instance_uri (Project o) (Name o)) objects).
Proof.
  intros Hg. apply GetInstances_inv in Hg.
  destruct Hg as [stmt [args [selected [config [devices
                   [Hs [Hsel [_ [_ Hh]]]]]]]]].
  unfold GetInstanceURIs. rewrite Hs, Hsel. f_equal. clear Hsel.
  induction Hh as [| s o rest objects' Ho Hrest IH]; [reflexivity |].
  simpl. rewrite IH. destruct Ho as [[_ [-> [-> _]]] _]. reflexivity.
Qed.

End Get.

(** *** On the view in memory *)

Import MemFetch.

Example listing_two_instances :
  GetInstances two_instances all_instances
  = inl [c1_hydrated; row 2 "c2"].
Proof. vm_compute. reflexivity. Qed.

Lemma GetInstances_hydrates_witness :
  exists stmt args selected config devices,
    Dispatch.GetInstances_stmt all_instances = inl (stmt, args)
    /\ SelectInstances two_instances stmt args = inl selected
    /\ GetConfig two_instances "instance" = inl config
    /\ GetDevices two_instances "instance" = inl devices
    /\ Forall2 (hydrated config devices) selected
         [c1_hydrated; row 2 "c2"].
Proof.
  apply (GetInstances_hydrates two_instances all_instances).
  vm_compute. reflexivity.
Defined.

Lemma duplicate_device_witness :
  exists name,
    GetInstances clashing_devices all_instances = inr (duplicate_device name).
Proof.
  apply (duplicate_device_fails_listing clashing_devices all_instances
           Dispatch.instanceObjects [] [row 1 "c1"; row 2 "c2"] ∅
           {[ 1 := [device 10 1 "eth0"];
              2 := [device 12 2 "eth0"; device 13 2 "eth0"] ]}
           (row 2 "c2")).
  - vm_compute. reflexivity.
  - vm_compute. reflexivity.
  - reflexivity.
  - reflexivity.
  - right. left. reflexivity.
  - intros Hnd.
    assert (Hl : default [] (({[ 1 := [device 10 1 "eth0"];
                                 2 := [device 12 2 "eth0";
                                       device 13 2 "eth0"] ]}
                              : gmap Z (list Device)) !! ID (row 2 "c2"))
                 = [device 12 2 "eth0"; device 13 2 "eth0"])
      by (vm_compute; reflexivity).
    rewrite Hl in Hnd. simpl in Hnd. inversion Hnd as [| x l Hnot _].
    apply Hnot. now left.
Defined.

Lemma uris_follow_witness :
  GetInstanceURIs two_instances all_instances
  = inl ["/1.0/instances/c1"; "/1.0/instances/c2"].
Proof.
  rewrite (uris_follow_instances two_instances all_instances
             [c1_hydrated; row 2 "c2"]) by (vm_compute; reflexivity).
  vm_compute. reflexivity.
Defined.

End FetchSpec.


(** ** Updating a key that is not there *)

Module UpdateSpec.
Import Store Update.

Section Absent.
Context {DB : Type} `{Engine DB} `{ChildTables DB} `{Writer DB}.

(** X16. Updating a key the existence check reports absent writes nothing
    and reports it as not found. When InstanceExists answers false,
    UpdateInstance leaves the database as it is and returns the sentinel
    ErrNoSuchObject itself, not wrapped; when CertificateExists answers
    false, UpdateCertificate leaves the database as it is and returns an
    error that passes the Not Found (404) status check. *)
Theorem update_of_absent_key (db : DB) (project name fingerprint : string)
  (object : Instance) (certificate : Certificate) :
  (InstanceExists db project name = inl false ->
   UpdateInstance db project name object = (db, Some ErrNoSuchObject))
  /\ (CertificateExists db fingerprint = inl false ->
      exists err,
        UpdateCertificate db fingerprint certificate = (db, Some err)
        /\ StatusErrorCheck err StatusNotFound = true).
Proof.
  split.
  - unfold InstanceExists, UpdateInstance. intros He.
    destruct (GetInstanceID db project name) as [id | []];
      try discriminate. reflexivity.
  - unfold CertificateExists, UpdateCertificate. intros He.
    destruct (GetCertificateID db fingerprint) as [id | err];
      [discriminate |].
    destruct (StatusErrorCheck err StatusNotFound) eqn:Hs; [| discriminate].
    exists err. split; [reflexivity | exact Hs].
Qed.

End Absent.

Import MemStore MemUpdate.

Lemma update_of_absent_key_witness :
  UpdateInstance empty_cluster "default" "c1" sample_instance
  = (empty_cluster, Some ErrNoSuchObject)
  /\ exists err,
       UpdateCertificate empty_cluster "abcd" sample_certificate
       = (empty_cluster, Some err)
       /\ StatusErrorCheck err StatusNotFound = true.
Proof.
  destruct (update_of_absent_key empty_cluster "default" "c1" "abcd"
              sample_instance sample_certificate) as [Hi Hc].
  split; [apply Hi | apply Hc]; vm_compute; reflexivity.
Defined.

(** An update of a key that is there goes through: the row, the config and
    the association table are replaced. *)
Example update_existing_instance :
  snd (UpdateInstance after_first_create "default" "c1" sample_instance)
  = None.
Proof. vm_compute. reflexivity. Qed.

End UpdateSpec.


(** ** The devices mapper: placeholders, empty filters, grouping *)

Module DevicesMapperSpec.
Import GoStrings Store DevicesMapper.

(** *** A byte that occurs nowhere *)

Lemma Count_cons_free (c a : ascii) (s : string) :
  Count (String a s) c = 0%nat -> Ascii.eqb a c = false /\ Count s c = 0%nat.
Proof.
  simpl. destruct (Ascii.eqb a c); [discriminate |]. intros Hc. now split.
Qed.

Lemma free_replace_go (c : ascii) (old new s : string) (skip : nat) :
  Count s c = 0%nat -> Count new c = 0%nat ->
  Count (replace_go old new s skip) c = 0%nat.
Proof.
  intros Hs Hn. revert skip Hs. induction s as [| a s IH]; intros skip Hs;
    [reflexivity |].
  destruct (Count_cons_free _ _ _ Hs) as [Ha Hrest].
  cbn [replace_go]. destruct skip as [| k]; [| now apply IH].
  destruct (String.prefix old (String a s)).
  - rewrite DnsmasqMoreSpec.Count_append, Hn. now apply IH.
  - cbn [Count]. rewrite Ha. now apply IH.
Qed.

Lemma free_Sprintf_bounded (c : ascii) (n : nat) :
  forall (format : string) (args : list string) (out : string),
    (String.length format <= n)%nat ->
    Sprintf format args = Some out ->
    Count format c = 0%nat ->
    Forall (fun a => Count a c = 0%nat) args ->
    Count out c = 0%nat.
Proof.
  induction n as [| n IH]; intros format args out Hlen Hs Hf Ha.
  - destruct format; [| simpl in Hlen; lia]. simpl in Hs.
    destruct args; [| discriminate]. now injection Hs as <-.
  - destruct format as [| a rest].
    + simpl in Hs. destruct args; [| discriminate]. now injection Hs as <-.
    + destruct (Count_cons_free _ _ _ Hf) as [Hac Hrest].
      cbn [Sprintf] in Hs. destruct (Ascii.eqb a "%").
      * destruct rest as [| d rest']; [discriminate |].
        destruct (Ascii.eqb d "s"); [| discriminate].
        destruct args as [| x args']; [discriminate |].
        destruct (Sprintf rest' args') as [out' |] eqn:Hr; [| discriminate].
        injection Hs as <-. rewrite DnsmasqMoreSpec.Count_append.
        inversion Ha as [| ? ? Hx Hargs]; subst. rewrite Hx.
        apply (IH rest' args' out'); [simpl in Hlen; lia | exact Hr | |
                                      exact Hargs].
        exact (proj2 (Count_cons_free _ _ _ Hrest)).
      * destruct (Sprintf rest args) as [out' |] eqn:Hr; [| discriminate].
        injection Hs as <-. cbn [Count]. rewrite Hac.
        apply (IH rest args out'); [simpl in Hlen; lia | exact Hr
                                    | exact Hrest | exact Ha].
Qed.

Lemma free_substring (c : ascii) (s : string) (n m : nat) :
  Count s c = 0%nat -> Count (String.substring n m s) c = 0%nat.
Proof.
  revert n m. induction s as [| a s IH]; intros n m Hs.
  - destruct n, m; reflexivity.
  - destruct (Count_cons_free _ _ _ Hs) as [Ha Hrest].
    destruct n as [| n]; simpl.
    + destruct m as [| m]; [reflexivity |]. cbn [Count]. rewrite Ha.
      now apply IH.
    + now apply IH.
Qed.

Lemma free_cut_go (c : ascii) (sep s before : string) :
  Count s c = 0%nat -> Count before c = 0%nat ->
  Forall (fun p => Count p c = 0%nat) (cut_go sep s before).
Proof.
  revert before. induction s as [| a s IH]; intros before Hs Hb.
  - cbn [cut_go]. destruct (String.prefix sep "").
    + repeat constructor; [exact Hb |]. now apply free_substring.
    + repeat constructor. exact Hb.
  - cbn [cut_go]. destruct (String.prefix sep (String a s)).
    + repeat constructor; [exact Hb |]. now apply free_substring.
    + destruct (Count_cons_free _ _ _ Hs) as [Ha Hrest].
      apply IH; [exact Hrest |].
      rewrite DnsmasqMoreSpec.Count_append, Hb. cbn [Count]. now rewrite Ha.
Qed.

(** The statement built for a parent holds no placeholder that its template
    and the parent do not hold. *)
Lemma free_statement_for (c : ascii) (template parent out : string) :
  statement_for template parent = Some out ->
  Count template c = 0%nat -> Count parent c = 0%nat ->
  Ascii.eqb "_" c = false -> Ascii.eqb "s" c = false ->
  Ascii.eqb "i" c = false -> Ascii.eqb "d" c = false ->
  Count out c = 0%nat.
Proof.
  unfold statement_for. intros Hs Ht Hp H_ Hs' Hi Hd.
  eapply free_Sprintf_bounded; [apply Nat.le_refl | exact Hs | |].
  - unfold ReplaceAll. apply free_replace_go; [exact Ht |].
    rewrite DnsmasqMoreSpec.Count_append, Hp. cbn [Count].
    now rewrite H_, Hi, Hd.
  - apply Forall_replicate.
    rewrite DnsmasqMoreSpec.Count_append. cbn [Count].
    rewrite Hs'. unfold ReplaceAll.
    rewrite free_replace_go; [reflexivity | exact Hp |].
    cbn [Count]. now rewrite Hs', H_.
Qed.

(** *** The clauses *)

(** One filter adds as many placeholders as arguments. *)
Lemma clause_placeholders (i : nat) (filter : DeviceFilter) :
  let cond := if Nat.eqb i 0 then " WHERE ( %s )" else " OR ( %s )" in
  length (fst (filter_entries filter)) <> 0%nat ->
  exists clause,
    Sprintf cond [Join (fst (filter_entries filter)) " AND "] = Some clause
    /\ Count clause "?" = length (snd (filter_entries filter)).
Proof.
  intros cond Hne. subst cond. unfold filter_entries in *.
  destruct (fName filter), (fType filter), (Nat.eqb i 0); cbn in *;
    try (exfalso; apply Hne; reflexivity);
    eexists; (split; [reflexivity | reflexivity]).
Qed.

Lemma where_loop_placeholders (filters : list DeviceFilter) :
  forall (i : nat) (head : string) (args : list Dispatch.arg)
         (head' : string) (args' : list Dispatch.arg),
    where_loop i filters head args = Some (inl (head', args')) ->
    (Count head' "?" + length args = Count head "?" + length args')%nat.
Proof.
  induction filters as [| filter rest IH]; intros i head args head' args' Hw.
  - simpl in Hw. injection Hw as <- <-. reflexivity.
  - cbn [where_loop] in Hw.
    destruct (filter_entries filter) as [entries more] eqn:He.
    destruct (Nat.eqb (length entries) 0) eqn:Hn; [discriminate |].
    apply Nat.eqb_neq in Hn.
    destruct (clause_placeholders i filter) as [clause [Hs Hc]];
      [rewrite He; exact Hn |].
    rewrite He in Hs, Hc. cbn [fst snd] in Hs, Hc. rewrite Hs in Hw.
    apply IH in Hw. rewrite DnsmasqMoreSpec.Count_append in Hw.
    rewrite length_app in Hw. lia.
Qed.

Lemma Exists_empty_filter_fails (filters : list DeviceFilter) :
  Exists empty_filter filters ->
  forall (i : nat) (head : string) (args : list Dispatch.arg),
    where_loop i filters head args
    = Some (inr (Errorf "Cannot filter on empty DeviceFilter" [])).
Proof.
  induction filters as [| filter rest IH]; intros Hex i head args.
  - inversion Hex.
  - cbn [where_loop].
    destruct (filter_entries filter) as [entries more] eqn:He.
    destruct (Nat.eqb (length entries) 0) eqn:Hn; [reflexivity |].
    apply Nat.eqb_neq in Hn.
    destruct (clause_placeholders i filter) as [clause [Hs _]];
      [rewrite He; exact Hn |].
    rewrite He in Hs. cbn [fst] in Hs. rewrite Hs.
    inversion Hex as [? ? [Hname Htype] | ? ? Hlater]; subst.
    + exfalso. apply Hn. unfold filter_entries in He.
      rewrite Hname, Htype in He. now injection He as <- <-.
    + now apply IH.
Qed.

(** *** Grouping *)

Lemma group_by_reference_lookup (objects : list Device) :
  forall (resultMap : gmap Z (list Device)) (ref : Z),
    group_by_reference objects resultMap !! ref
    = match referring_to ref objects with
      | [] => resultMap !! ref
      | l => Some (default [] (resultMap !! ref) ++ l)
      end.
Proof.
  induction objects as [| o rest IH]; intros resultMap ref;
    [reflexivity |].
  cbn [group_by_reference]. rewrite IH. unfold referring_to.
  cbn [List.filter]. destruct (Z.eqb_spec (dReferenceID o) ref) as [-> | Hne].
  - rewrite lookup_insert_eq.
    destruct (List.filter _ rest) as [| d l]; [reflexivity |].
    simpl. now rewrite <- app_assoc.
  - now rewrite lookup_insert_ne by exact Hne.
Qed.

Lemma Count_concat_free (c : ascii) (sep : string) (parts : list string) :
  Count sep c = 0%nat ->
  Forall (fun p => Count p c = 0%nat) parts ->
  Count (String.concat sep parts) c = 0%nat.
Proof.
  intros Hsep Hparts. induction Hparts as [| p l Hp Hl IH]; [reflexivity |].
  destruct l as [| q l]; [exact Hp |].
  change (String.concat sep (p :: q :: l))
    with (p +:+ sep +:+ String.concat sep (q :: l)).
  rewrite (DnsmasqMoreSpec.Count_append p).
  rewrite (DnsmasqMoreSpec.Count_append sep), Hp, Hsep, IH. reflexivity.
Qed.

Lemma Count_Join_head (c : ascii) (head : string) (rest : list string)
  (sep : string) :
  Count sep c = 0%nat ->
  Forall (fun p => Count p c = 0%nat) rest ->
  Count (Join (head :: rest) sep) c = Count head c.
Proof.
  intros Hsep Hrest. unfold Join. destruct rest as [| q l]; [reflexivity |].
  change (String.concat sep (head :: q :: l))
    with (head +:+ sep +:+ String.concat sep (q :: l)).
  rewrite (DnsmasqMoreSpec.Count_append head).
  rewrite (DnsmasqMoreSpec.Count_append sep), Hsep.
  rewrite (Count_concat_free c sep (q :: l) Hsep Hrest). lia.
Qed.

(** The query before the filters are added holds no placeholder. *)
Lemma base_query_parts (parent base : string) :
  Count parent "?" = 0%nat ->
  statement_for deviceObjects parent = Some base ->
  Count (hd "" (SplitN2 base "ORDER BY")) "?" = 0%nat
  /\ Forall (fun p => Count p "?" = 0%nat) (tl (SplitN2 base "ORDER BY")).
Proof.
  intros Hp Hb.
  assert (Hbase : Count base "?" = 0%nat).
  { apply (free_statement_for "?" deviceObjects parent base Hb);
      [reflexivity | exact Hp | reflexivity..]. }
  pose proof (free_cut_go "?" "ORDER BY" base "" Hbase eq_refl) as Hparts.
  fold (SplitN2 base "ORDER BY") in Hparts.
  destruct Hparts as [| p l Hp0 Hl]; [split; [reflexivity | constructor] |].
  split; [exact Hp0 | exact Hl].
Qed.

Lemma GetDevices_query_inv (parent : string) (filters : list DeviceFilter)
  (queryStr : string) (args : list Dispatch.arg) :
  GetDevices_query parent filters = Some (inl (queryStr, args)) ->
  exists base head,
    statement_for deviceObjects parent = Some base
    /\ where_loop 0 filters (hd "" (SplitN2 base "ORDER BY")) []
       = Some (inl (head, args))
    /\ queryStr = Join (head :: tl (SplitN2 base "ORDER BY")) " ORDER BY".
Proof.
  unfold GetDevices_query. intros Hq.
  destruct (statement_for deviceObjects parent) as [base |] eqn:Hb;
    [| discriminate].
  destruct (where_loop 0 filters (hd "" (SplitN2 base "ORDER BY")) [])
    as [[[head args'] | err] |] eqn:Hw; try discriminate.
  exists base, head. split; [reflexivity |].
  injection Hq as Hq1 Hq2. rewrite Hw, <- Hq1, Hq2. split; reflexivity.
Qed.

Section Mapper.
Context {DB : Type} `{DeviceEngine DB}.

(** X17. The query GetDevices runs has one placeholder for each argument
    it passes: for a parent name without a question mark, the number of [?]
    in the query text equals the number of arguments, whatever the
    filters. *)
Theorem GetDevices_placeholders_match (parent : string)
  (filters : list DeviceFilter) (queryStr : string)
  (args : list Dispatch.arg) :
  Count parent "?" = 0%nat ->
  GetDevices_query parent filters = Some (inl (queryStr, args)) ->
  Count queryStr "?" = length args.
Proof.
  intros Hp Hq. apply GetDevices_query_inv in Hq.
  destruct Hq as [base [head [Hb [Hw ->]]]].
  pose proof (base_query_parts parent base Hp Hb) as [Hhd Htl].
  apply where_loop_placeholders in Hw. cbn [length] in Hw.
  rewrite (Count_Join_head "?" head _ " ORDER BY" eq_refl Htl). lia.
Qed.

(** X18. A filter that names neither a device name nor a type is refused,
    also when it carries a config filter: with one such filter among its
    filters, GetDevices returns [Cannot filter on empty DeviceFilter], and
    it does so before any query is run. *)
Theorem empty_device_filter_refused (db : DB) (parent : string)
  (filters : list DeviceFilter) (base : string) :
  statement_for deviceObjects parent = Some base ->
  Exists empty_filter filters ->
  GetDevices_query parent filters
  = Some (inr (Errorf "Cannot filter on empty DeviceFilter" []))
  /\ GetDevices db parent filters
     = Some (inr (Errorf "Cannot filter on empty DeviceFilter" [])).
Proof.
  intros Hb Hex.
  assert (Hq : GetDevices_query parent filters
               = Some (inr (Errorf "Cannot filter on empty DeviceFilter" []))).
  { unfold GetDevices_query. rewrite Hb.
    now rewrite (Exists_empty_filter_fails filters Hex). }
  split; [exact Hq |]. unfold GetDevices. now rewrite Hq.
Qed.

(** X19. GetDevices returns every device it read exactly once, under the
    ID it refers to, in the order of the query, with its config filled in:
    the list under an ID is the devices referring to that ID, and an ID no
    device refers to is not in the map. *)
Theorem GetDevices_groups_by_reference (db : DB) (parent : string)
  (filters : list DeviceFilter) (resultMap : gmap Z (list Device)) :
  GetDevices db parent filters = Some (inl resultMap) ->
  exists queryStr args objects configFilters config,
    GetDevices_query parent filters = Some (inl (queryStr, args))
    /\ Scan db queryStr args = inl objects
    /\ config_filters filters [] = inl configFilters
    /\ GetConfig db (parent +:+ "_device") configFilters = inl config
    /\ forall ref,
         resultMap !! ref
         = match referring_to ref (map (fill_config config) objects) with
           | [] => None
           | l => Some l
           end.
Proof.
  unfold GetDevices, getDevicesRaw. intros Hg.
  destruct (GetDevices_query parent filters) as [[[queryStr args] | e] |];
    try discriminate.
  destruct (Scan db queryStr args) as [objects | e] eqn:Hscan;
    [| discriminate].
  destruct (config_filters filters []) as [configFilters | e] eqn:Hcf;
    [| discriminate].
  destruct (GetConfig db (parent +:+ "_device") configFilters)
    as [config | e] eqn:Hc; [| discriminate].
  injection Hg as <-.
  exists queryStr, args, objects, configFilters, config.
  repeat (split; [first [reflexivity | assumption] |]).
  intros ref. rewrite group_by_reference_lookup, lookup_empty.
  destruct (referring_to ref (map (fill_config config) objects));
    reflexivity.
Qed.

End Mapper.

(** *** On the rows in memory *)

Import MemDevices.

Lemma GetDevices_placeholders_witness :
  exists queryStr,
    GetDevices_query "instance" [by_name_and_type; by_type]
    = Some (inl (queryStr,
                 [Dispatch.ArgString (Some "eth0"); Dispatch.ArgInt (Some 1);
                  Dispatch.ArgInt (Some 2)]))
    /\ Count queryStr "?" = 3%nat.
Proof.
  destruct (GetDevices_query "instance" [by_name_and_type; by_type])
    as [[[queryStr args] | err] |] eqn:Hq;
    [| exfalso; vm_compute in Hq; discriminate
     | exfalso; vm_compute in Hq; discriminate].
  assert (Hargs : args = [Dispatch.ArgString (Some "eth0");
                          Dispatch.ArgInt (Some 1);
                          Dispatch.ArgInt (Some 2)]).
  { vm_compute in Hq. now injection Hq as _ <-. }
  exists queryStr. subst args. split; [reflexivity |].
  exact (GetDevices_placeholders_match "instance"
           [by_name_and_type; by_type] queryStr _ eq_refl Hq).
Defined.

Lemma empty_device_filter_witness :
  GetDevices three_devices "instance" [by_type; by_config_only]
  = Some (inr (Errorf "Cannot filter on empty DeviceFilter" [])).
Proof.
  destruct (statement_for deviceObjects "instance") as [base |] eqn:Hb;
    [| exfalso; vm_compute in Hb; discriminate].
  refine (proj2 (empty_device_filter_refused three_devices "instance"
                   [by_type; by_config_only] base Hb _)).
  right. left. split; reflexivity.
Defined.

Lemma GetDevices_groups_witness :
  GetDevices three_devices "instance" [] = Some (inl three_devices_grouped)
  /\ three_devices_grouped !! 1 = Some [bare 10 1 "eth0"; bare 11 1 "root"]
  /\ three_devices_grouped !! 3 = None.
Proof.
  assert (Hg : GetDevices three_devices "instance" []
               = Some (inl three_devices_grouped))
    by (vm_compute; reflexivity).
  split; [exact Hg |].
  destruct (GetDevices_groups_by_reference three_devices "instance" []
              three_devices_grouped Hg)
    as [queryStr [args [objects [configFilters [config
         [_ [Hscan [Hcf [Hc Hgroups]]]]]]]]].
  injection Hscan as <-. injection Hcf as <-. injection Hc as <-.
  split; [rewrite Hgroups | rewrite Hgroups]; vm_compute; reflexivity.
Defined.

End DevicesMapperSpec.
